(** * BrainyAI MCP core: tool registry, protocol clients and process manager

    A shallow embedding of [src/libs/mcp/MCPToolRegistry.ts],
    [src/libs/mcp/MCPClient.ts], [src/libs/mcp/BrowserMCPClient.ts],
    [src/libs/mcp/MCPProcessManager.ts], the [Logger] they import and the
    message handler that drives the manager, followed by the properties
    of the specification that concern them.

    Conventions of the embedding.
    - A JavaScript [Map<string, V>] is an insertion-ordered association list
      ([JsMap.t V]): [values()] and [keys()] enumerate in insertion order,
      [set] on a present key keeps its position, [delete] drops the key.
    - JavaScript strings are Rocq strings of 8-bit characters;
      [toLowerCase] and [toUpperCase] act on the letters A-Z and a-z, which
      is what JavaScript does on a string of ASCII characters; statements
      about letter case are made for such strings.
    - A value of type [any] is a [JsValue].
    - A promise that has settled is an [Outcome]: [Resolved v] or
      [Rejected e]; what a client's asynchronous method answers is supplied
      by the caller of the model (the environment), one outcome per [await].
    - One call of an asynchronous method runs to its end without another
      call interleaving; the state a poller can see while the method is
      suspended at its first [await] is given by the [_begin] functions.
    - Event listeners are seen through the log of deliveries only; they do
      not call back into the manager.
    - [Logger.error] and [Logger.warn] print and return; they are left
      out.  [Logger.log] throws (module [Logger]); every call of it is
      part of the model. *)

From Stdlib Require Import List String Ascii ZArith Lia Bool Arith Permutation.
From Stdlib Require Import DecimalString.
Import ListNotations.
Local Open Scope string_scope.
Local Open Scope list_scope.

Set Implicit Arguments.

(* ------------------------------------------------------------------ *)
(** ** JavaScript strings *)

Module JsString.

(** [c.toLowerCase()] for one 8-bit character. *)
Definition lower_ascii (c : ascii) : ascii :=
  let n := nat_of_ascii c in
  if andb (65 <=? n)%nat (n <=? 90)%nat then ascii_of_nat (n + 32) else c.

(** [s.toLowerCase()] *)
Fixpoint toLowerCase (s : string) : string :=
  match s with
  | EmptyString => EmptyString
  | String c s' => String (lower_ascii c) (toLowerCase s')
  end.

(** [s.includes(sub)] *)
Fixpoint includes (s sub : string) : bool :=
  if String.prefix sub s then true
  else match s with
       | EmptyString => false
       | String _ s' => includes s' sub
       end.

(** Occurrence of a character, used to state that a name has no [":"]. *)
Fixpoint has_char (c : ascii) (s : string) : bool :=
  match s with
  | EmptyString => false
  | String d s' => if Ascii.eqb d c then true else has_char c s'
  end.

(** [String(n)] for a non-negative integer. *)
Definition of_nat (n : nat) : string := NilZero.string_of_uint (Nat.to_uint n).

(** [c.toUpperCase()] for one 8-bit character. *)
Definition upper_ascii (c : ascii) : ascii :=
  let n := nat_of_ascii c in
  if andb (97 <=? n)%nat (n <=? 122)%nat then ascii_of_nat (n - 32) else c.

(** [s.toUpperCase()] *)
Fixpoint toUpperCase (s : string) : string :=
  match s with
  | EmptyString => EmptyString
  | String c s' => String (upper_ascii c) (toUpperCase s')
  end.

(** The strings of ASCII characters (code below 128). *)
Fixpoint is_ascii (s : string) : bool :=
  match s with
  | EmptyString => true
  | String c s' => (nat_of_ascii c <? 128)%nat && is_ascii s'
  end.

End JsString.

(** A value of TypeScript type [any]. *)
#[warnings="-register-all"] Inductive JsValue : Type :=
| JsUndefined
| JsNull
| JsBool (b : bool)
| JsNumber (z : Z)
| JsStr (s : string)
| JsArray (items : list JsValue)
| JsObject (fields : list (string * JsValue)).

(* ------------------------------------------------------------------ *)
(** ** [Map<string, V>] with insertion order *)

Module JsMap.
Section WithValue.
Variable V : Type.

Definition t : Type := list (string * V).

Definition empty : t := [].

Fixpoint get (m : t) (k : string) : option V :=
  match m with
  | [] => None
  | (k', v) :: m' => if String.eqb k' k then Some v else get m' k
  end.

Definition has (m : t) (k : string) : bool :=
  match get m k with Some _ => true | None => false end.

(** [m.set(k, v)]: a present key keeps its place, a new key goes last. *)
Fixpoint set (m : t) (k : string) (v : V) : t :=
  match m with
  | [] => [(k, v)]
  | (k', v') :: m' =>
      if String.eqb k' k then (k, v) :: m' else (k', v') :: set m' k v
  end.

Definition delete (m : t) (k : string) : t :=
  filter (fun kv => negb (String.eqb (fst kv) k)) m.

Definition keys (m : t) : list string := List.map fst m.
Definition values (m : t) : list V := List.map snd m.
Definition size (m : t) : nat := List.length m.

(** Keys are pairwise distinct in every map built with [set]/[delete]. *)
Definition wf (m : t) : Prop := NoDup (keys m).

End WithValue.
Arguments empty {V}.
End JsMap.

(* ------------------------------------------------------------------ *)
(** ** types.ts *)

Record MCPServerConfig := {
  cfg_command : string;
  cfg_args : list string;
  cfg_env : option (list (string * string));
  cfg_autoStart : option bool;
  cfg_timeout : option Z;
  cfg_cwd : option string
}.

Inductive ServerState := stopped | starting | running | error | stopping.

Record ServerInfo := {
  info_name : string;
  info_version : string;
  info_protocolVersion : string
}.

Record MCPServerStatus := {
  st_name : string;
  st_status : ServerState;
  st_pid : option Z;
  st_startTime : option Z;
  st_error : option string;
  st_toolCount : option nat;
  st_serverInfo : option ServerInfo
}.

Record MCPTool := {
  tool_name : string;
  tool_description : option string;
  tool_inputSchema : JsValue;
  tool_serverName : option string
}.

Record MCPToolCall := {
  call_toolName : string;
  call_args : JsValue;
  call_serverName : string;
  call_callId : option string
}.

Record MCPToolResult := {
  res_callId : option string;
  res_success : bool;
  res_result : option JsValue;
  res_error : option string;
  res_duration : option Z
}.

Inductive MCPEventType :=
| server_started | server_stopped | server_error
| tool_call_started | tool_call_completed | tool_call_failed.

(** [MCP_ERROR_CODES] *)
Module MCP_ERROR_CODES.
Definition SERVER_START_FAILED := "SERVER_START_FAILED".
Definition SERVER_CONNECTION_FAILED := "SERVER_CONNECTION_FAILED".
Definition TOOL_CALL_FAILED := "TOOL_CALL_FAILED".
Definition INVALID_CONFIG := "INVALID_CONFIG".
Definition PERMISSION_DENIED := "PERMISSION_DENIED".
Definition TIMEOUT := "TIMEOUT".
End MCP_ERROR_CODES.

(** Thrown values.  The sources throw [new Error(..)] and
    [new MCPError(..)]; the runtime adds [TypeError] (a property read on
    [undefined] or [null], a failed request) and [SyntaxError] (a body
    that is no JSON).  [MCPError] sets [this.name = 'MCPError']. *)
#[warnings="-register-all"] Inductive JsError : Type :=
| Error_ (message : string)
| TypeError_ (message : string)
| SyntaxError_ (message : string)
| MCPError (message code : string) (serverName : option string)
           (originalError : option JsError).

Definition error_name (e : JsError) : string :=
  match e with
  | Error_ _ => "Error"
  | TypeError_ _ => "TypeError"
  | SyntaxError_ _ => "SyntaxError"
  | MCPError _ _ _ _ => "MCPError"
  end.

Definition error_message (e : JsError) : string :=
  match e with
  | Error_ m | TypeError_ m | SyntaxError_ m | MCPError m _ _ _ => m
  end.

(** [String(error)] and [`${error}`]: [Error.prototype.toString]. *)
Definition String_ (e : JsError) : string :=
  match error_message e with
  | EmptyString => error_name e
  | msg => error_name e ++ ": " ++ msg
  end.

(** A settled promise. *)
Inductive Outcome (A : Type) : Type :=
| Resolved (a : A)
| Rejected (e : JsError).
Arguments Resolved {A} a.
Arguments Rejected {A} e.

(** [promise.catch(() => d)] *)
Definition catch_default {A} (o : Outcome A) (d : A) : A :=
  match o with Resolved a => a | Rejected _ => d end.

(* ------------------------------------------------------------------ *)
(** ** The class [Logger] *)

Module Logger.

(** What reading [padEnd] on [undefined] throws. *)
Definition thrown : JsError :=
  TypeError_ "Cannot read properties of undefined (reading 'padEnd')".

(** [Logger.log(text, ...args)].  The class declares [static log] twice,
    [log(message, ...args)] and then [log(level, message, ...args)]; the
    later declaration is the method the class has, so the text arrives as
    [level].  For a text that is neither a number nor a key of [LogLevel]
    (every text passed under [src/] is a message in words; those of the
    MCP files begin with "["): [level < this.logLevel] compares NaN and is
    false, the entry is pushed to [Logger.logs], which no code under
    [src/] reads, the console is enabled ([setConsoleEnabled] and
    [setLogLevel] are called nowhere), and [LogLevel[level]] is
    [undefined], on which [padEnd] is read.  [Logger.error] and
    [Logger.warn] pass a level of the enumeration and return. *)
Definition log (text : string) : Outcome unit := Rejected thrown.

End Logger.

(* ------------------------------------------------------------------ *)
(** ** MCPToolRegistry.ts *)

(** [`${x}`] for an optional string: [undefined] prints as "undefined". *)
Definition template_opt (s : option string) : string :=
  match s with Some s => s | None => "undefined" end.

(** [x || d] for an optional string: [undefined] and [''] are falsy. *)
Definition or_default (s : option string) (d : string) : string :=
  match s with
  | Some EmptyString | None => d
  | Some s => s
  end.

(** [arr.findIndex(p)]; -1 when no element satisfies [p]. *)
Fixpoint findIndex {A} (p : A -> bool) (l : list A) : Z :=
  match l with
  | [] => (-1)%Z
  | x :: l' =>
      if p x then 0%Z
      else let i := findIndex p l' in
           if (i <? 0)%Z then (-1)%Z else (i + 1)%Z
  end.

(** [arr[i] = x] for an index inside the array (the only use in the
    sources: [findIndex] answers -1 or a position of the array). *)
Fixpoint array_assign {A} (l : list A) (i : nat) (x : A) : list A :=
  match l, i with
  | [], _ => []
  | _ :: l', O => x :: l'
  | y :: l', S i' => y :: array_assign l' i' x
  end.

Record MCPToolRegistry := {
  tools : JsMap.t MCPTool;
  serverTools : JsMap.t (list MCPTool)
}.

Module Registry.

Definition new : MCPToolRegistry :=
  {| tools := JsMap.empty; serverTools := JsMap.empty |}.

Definition toolKey (tool : MCPTool) : string :=
  template_opt (tool_serverName tool) ++ ":" ++ tool_name tool.

Definition groupName (tool : MCPTool) : string :=
  or_default (tool_serverName tool) "unknown".

(** The registry after [registerTool(tool)]: lines 17-32.  The call then
    reaches [Logger.log] (line 34), after both maps are written; its
    outcome is in [registerTool_call]. *)
Definition registerTool (tool : MCPTool) (r : MCPToolRegistry) : MCPToolRegistry :=
  let toolKey := toolKey tool in
  let tools' := JsMap.set (tools r) toolKey tool in
  let serverName := groupName tool in
  let serverTools0 :=
    match JsMap.get (serverTools r) serverName with
    | Some l => l
    | None => []
    end in
  let existingIndex :=
    findIndex (fun t => String.eqb (tool_name t) (tool_name tool)) serverTools0 in
  let serverTools1 :=
    if (0 <=? existingIndex)%Z
    then array_assign serverTools0 (Z.to_nat existingIndex) tool
    else serverTools0 ++ [tool] in
  {| tools := tools';
     serverTools := JsMap.set (serverTools r) serverName serverTools1 |}.

(** One call of [registerTool]: the registry it leaves and how it ends. *)
Definition registerTool_call (tool : MCPTool) (r : MCPToolRegistry)
  : MCPToolRegistry * Outcome unit :=
  (registerTool tool r, Logger.log ("[MCP Registry] Registered tool: " ++ toolKey tool)).

(** [tools.forEach(tool => this.registerTool(tool))]: a call that throws
    ends the loop. *)
Fixpoint registerTools (ts : list MCPTool) (r : MCPToolRegistry)
  : MCPToolRegistry * Outcome unit :=
  match ts with
  | [] => (r, Resolved tt)
  | tool :: rest =>
      match registerTool_call tool r with
      | (r, Resolved _) => registerTools rest r
      | (r, Rejected e) => (r, Rejected e)
      end
  end.

Definition getTool (serverName toolName : string) (r : MCPToolRegistry) : option MCPTool :=
  JsMap.get (tools r) (serverName ++ ":" ++ toolName).

Definition getAllTools (r : MCPToolRegistry) : list MCPTool :=
  JsMap.values (tools r).

Definition getServerTools (serverName : string) (r : MCPToolRegistry) : list MCPTool :=
  match JsMap.get (serverTools r) serverName with
  | Some l => l
  | None => []
  end.

Definition categorizeToolByName (toolName : string) : string :=
  let name := JsString.toLowerCase toolName in
  let inc := JsString.includes name in
  if inc "file" || inc "dir" || inc "path" ||
     inc "read" || inc "write" || inc "list" then "filesystem"
  else if inc "http" || inc "fetch" || inc "request" ||
          inc "url" || inc "api" then "network"
  else if inc "json" || inc "csv" || inc "data" ||
          inc "parse" || inc "format" then "data"
  else if inc "system" || inc "process" || inc "env" ||
          inc "exec" || inc "command" then "system"
  else "other".

(** [categories[category].push(tool)].  A missing key would make the
    source throw; [categorizeToolByName] only returns the five keys of
    the literal (lemma [categorize_is_key]). *)
Definition push_category (categories : JsMap.t (list MCPTool))
           (category : string) (tool : MCPTool) : JsMap.t (list MCPTool) :=
  match JsMap.get categories category with
  | Some l => JsMap.set categories category (l ++ [tool])
  | None => categories
  end.

Definition empty_categories : JsMap.t (list MCPTool) :=
  [("filesystem", []); ("network", []); ("data", []);
   ("system", []); ("other", [])].

Definition getToolsByCategory (r : MCPToolRegistry) : JsMap.t (list MCPTool) :=
  fold_left
    (fun categories tool =>
       push_category categories (categorizeToolByName (tool_name tool)) tool)
    (getAllTools r) empty_categories.

(** The registry after [clearServerTools(serverName)]: lines 130-139;
    [Logger.log] (line 141) comes after both maps are written. *)
Definition clearServerTools (serverName : string) (r : MCPToolRegistry) : MCPToolRegistry :=
  let serverTools0 := getServerTools serverName r in
  {| tools :=
       fold_left
         (fun m tool => JsMap.delete m (serverName ++ ":" ++ tool_name tool))
         serverTools0 (tools r);
     serverTools := JsMap.delete (serverTools r) serverName |}.

Definition clearServerTools_call (serverName : string) (r : MCPToolRegistry)
  : MCPToolRegistry * Outcome unit :=
  (clearServerTools serverName r,
   Logger.log ("[MCP Registry] Cleared "
               ++ JsString.of_nat (List.length (getServerTools serverName r))
               ++ " tools for server: " ++ serverName)).

(** The registry after [clearAllTools()]; [Logger.log] (line 150) comes
    after both maps are cleared. *)
Definition clearAllTools (r : MCPToolRegistry) : MCPToolRegistry := new.

Definition clearAllTools_call (r : MCPToolRegistry) : MCPToolRegistry * Outcome unit :=
  (clearAllTools r, Logger.log "[MCP Registry] Cleared all tools").

(** The states the class can be in: built from the empty registry with
    its public mutators ([registerTools] does what one [registerTool]
    does). *)
Inductive reachable : MCPToolRegistry -> Prop :=
| reach_new : reachable new
| reach_register tool r : reachable r -> reachable (registerTool tool r)
| reach_clear s r : reachable r -> reachable (clearServerTools s r)
| reach_clear_all r : reachable r -> reachable (clearAllTools r).

End Registry.

(* ------------------------------------------------------------------ *)
(** ** MCPClient.ts

    The class is a placeholder: every asynchronous method except
    [disconnect] throws, whatever the server.  Each definition is the
    outcome of the method of that name on a client built for
    [serverName]. *)

(** What [getServerInfo] resolves to, as far as [startServer] reads it. *)
Record ServerInfoInner := {
  inner_name : option string;
  inner_version : option string
}.

Record ServerInfoResponse := {
  sir_serverInfo : option ServerInfoInner;
  sir_protocolVersion : option string
}.

Module MCPClient.

Definition unsupported : string :=
  "MCPClient methods are not supported in browser environment.".

Definition connect (serverName : string) : Outcome unit :=
  Rejected (MCPError
    "MCPClient.connect() is not supported in browser environment. Use BrowserMCPClient instead."
    MCP_ERROR_CODES.SERVER_CONNECTION_FAILED (Some serverName) None).

Definition disconnect (serverName : string) : Outcome unit := Resolved tt.

Definition isConnected (serverName : string) : bool := false.

Definition getServerInfo (serverName : string) : Outcome (option ServerInfoResponse) :=
  Rejected (MCPError unsupported
    MCP_ERROR_CODES.SERVER_CONNECTION_FAILED (Some serverName) None).

Definition listTools (serverName : string) : Outcome (list MCPTool) :=
  Rejected (MCPError unsupported
    MCP_ERROR_CODES.TOOL_CALL_FAILED (Some serverName) None).

Definition callTool (serverName : string) (toolCall : MCPToolCall) : Outcome MCPToolResult :=
  Rejected (MCPError unsupported
    MCP_ERROR_CODES.TOOL_CALL_FAILED (Some serverName) None).

End MCPClient.

(* ------------------------------------------------------------------ *)
(** ** BrowserMCPClient.ts: [listToolsViaHTTP] *)

(** One element of [data.tools] in the proxy's answer. *)
Record RawTool := {
  raw_name : string;
  raw_description : option string;
  raw_inputSchema : JsValue
}.

(** What [response.json()] resolves to: [null], or an object whose
    [tools] property is absent or an array. *)
Inductive JsonData :=
| DataNull
| DataObject (tools : option (list RawTool)).

Record Response := {
  resp_ok : bool;
  resp_status : nat;
  resp_statusText : string;
  resp_json : Outcome JsonData
}.

Module BrowserMCPClient.

(** [fetched] is the outcome of [fetch(`${url}/tools/list`, ..)]; a
    list that was read is logged before it is returned (line 161). *)
Definition listToolsViaHTTP (serverName : string) (fetched : Outcome Response)
  : Outcome (list MCPTool) :=
  let tried : Outcome (list MCPTool) :=
    match fetched with
    | Rejected e => Rejected e
    | Resolved response =>
        if negb (resp_ok response) then
          Rejected (Error_ ("HTTP " ++ JsString.of_nat (resp_status response)
                            ++ ": " ++ resp_statusText response))
        else
          match resp_json response with
          | Rejected e => Rejected e
          | Resolved DataNull =>
              Rejected (TypeError_ "Cannot read properties of null (reading 'tools')")
          | Resolved (DataObject raw) =>
              let tools :=
                match raw with
                | None => []
                | Some raw =>
                    List.map (fun tool =>
                      {| tool_name := raw_name tool;
                         tool_description := raw_description tool;
                         tool_inputSchema := raw_inputSchema tool;
                         tool_serverName := Some serverName |}) raw
                end in
              match Logger.log ("[BrowserMCP] Listed "
                                ++ JsString.of_nat (List.length tools)
                                ++ " tools from server: " ++ serverName) with
              | Rejected e => Rejected e
              | Resolved _ => Resolved tools
              end
          end
    end in
  match tried with
  | Resolved tools => Resolved tools
  | Rejected err =>
      Rejected (MCPError ("Failed to list tools: " ++ String_ err)
                         MCP_ERROR_CODES.TOOL_CALL_FAILED (Some serverName) (Some err))
  end.

End BrowserMCPClient.

(* ------------------------------------------------------------------ *)
(** ** MCPProcessManager.ts *)

(** An [MCPClient] instance; [client_id] stands for the identity of the
    object ([new] yields a fresh one each time). *)
Record ClientObj := {
  client_id : nat;
  client_serverName : string;
  client_config : MCPServerConfig
}.

Inductive EventData :=
| StartedData (config : MCPServerConfig) (toolCount : nat)
              (serverInfo : option ServerInfoResponse)
| StoppedData
| ErrorData (message : string)
| CallStartedData (toolCall : MCPToolCall)
| CallCompletedData (toolCall : MCPToolCall) (result : MCPToolResult)
| CallFailedData (toolCall : MCPToolCall) (message : string).

Record MCPEvent := {
  ev_type : MCPEventType;
  ev_serverName : string;
  ev_timestamp : Z;
  ev_data : EventData
}.

(** A subscriber: its identity, and whether it throws on an event. *)
Record Listener := {
  listener_id : nat;
  listener_throws : MCPEvent -> bool
}.

Inductive ClientMethod :=
| m_connect | m_disconnect | m_getServerInfo | m_listTools
| m_callTool (toolCall : MCPToolCall).

(** What the manager does to the outside, in order. *)
Inductive Action :=
| ActNew (client : ClientObj)
| ActCall (client : nat) (method : ClientMethod)
| ActEmit (event : MCPEvent)
| ActDeliver (listener : nat) (event : MCPEvent) (threw : bool).

(** The three maps of the class, and two observation fields that the
    class does not have: the number of clients constructed so far and the
    log of actions. *)
Record MCPProcessManager := {
  clients : JsMap.t ClientObj;
  serverStatuses : JsMap.t MCPServerStatus;
  eventListeners : JsMap.t (list Listener);
  allocated : nat;
  history : list Action
}.

(** [Partial<MCPServerStatus>]: [None] is an absent property; an optional
    field that is present may still hold [undefined]. *)
Record PartialStatus := {
  p_name : option string;
  p_status : option ServerState;
  p_pid : option (option Z);
  p_startTime : option (option Z);
  p_error : option (option string);
  p_toolCount : option (option nat);
  p_serverInfo : option (option ServerInfo)
}.

Module Manager.

Definition new : MCPProcessManager :=
  {| clients := JsMap.empty; serverStatuses := JsMap.empty;
     eventListeners := JsMap.empty; allocated := 0; history := [] |}.

Definition with_clients (c : JsMap.t ClientObj) (m : MCPProcessManager) :=
  {| clients := c; serverStatuses := serverStatuses m;
     eventListeners := eventListeners m;
     allocated := allocated m; history := history m |}.

Definition with_statuses (s : JsMap.t MCPServerStatus) (m : MCPProcessManager) :=
  {| clients := clients m; serverStatuses := s;
     eventListeners := eventListeners m;
     allocated := allocated m; history := history m |}.

Definition with_listeners (l : JsMap.t (list Listener)) (m : MCPProcessManager) :=
  {| clients := clients m; serverStatuses := serverStatuses m;
     eventListeners := l;
     allocated := allocated m; history := history m |}.

Definition record (a : Action) (m : MCPProcessManager) :=
  {| clients := clients m; serverStatuses := serverStatuses m;
     eventListeners := eventListeners m;
     allocated := allocated m; history := history m ++ [a] |}.

(** [new MCPClient(serverName, config)] *)
Definition new_client (serverName : string) (config : MCPServerConfig)
           (m : MCPProcessManager) : MCPProcessManager * ClientObj :=
  let client := {| client_id := allocated m; client_serverName := serverName;
                   client_config := config |} in
  (record (ActNew client)
     {| clients := clients m; serverStatuses := serverStatuses m;
        eventListeners := eventListeners m;
        allocated := S (allocated m); history := history m |},
   client).

Definition default_status (serverName : string) : MCPServerStatus :=
  {| st_name := serverName; st_status := stopped; st_pid := None;
     st_startTime := None; st_error := None; st_toolCount := None;
     st_serverInfo := None |}.

(** [{ ...currentStatus, ...status }] *)
Definition spread (cur : MCPServerStatus) (p : PartialStatus) : MCPServerStatus :=
  let pick {A} (o : option A) (d : A) := match o with Some v => v | None => d end in
  {| st_name := pick (p_name p) (st_name cur);
     st_status := pick (p_status p) (st_status cur);
     st_pid := pick (p_pid p) (st_pid cur);
     st_startTime := pick (p_startTime p) (st_startTime cur);
     st_error := pick (p_error p) (st_error cur);
     st_toolCount := pick (p_toolCount p) (st_toolCount cur);
     st_serverInfo := pick (p_serverInfo p) (st_serverInfo cur) |}.

Definition updateServerStatus (serverName : string) (status : PartialStatus)
           (m : MCPProcessManager) : MCPProcessManager :=
  let currentStatus :=
    match JsMap.get (serverStatuses m) serverName with
    | Some s => s
    | None => default_status serverName
    end in
  with_statuses (JsMap.set (serverStatuses m) serverName (spread currentStatus status)) m.

(** [listeners.forEach(l => { try { l(event) } catch { Logger.error } })] *)
Definition notify (listeners : list Listener) (event : MCPEvent)
           (m : MCPProcessManager) : MCPProcessManager :=
  fold_left
    (fun m l => record (ActDeliver (listener_id l) event (listener_throws l event)) m)
    listeners m.

Definition listeners_of (m : MCPProcessManager) (key : string) : list Listener :=
  match JsMap.get (eventListeners m) key with Some l => l | None => [] end.

(** [now] is what [Date.now()] answers. *)
Definition emitEvent (type : MCPEventType) (serverName : string) (data : EventData)
           (now : Z) (m : MCPProcessManager) : MCPProcessManager :=
  let event := {| ev_type := type; ev_serverName := serverName;
                  ev_timestamp := now; ev_data := data |} in
  let m := record (ActEmit event) m in
  let m := notify (listeners_of m "*") event m in
  notify (listeners_of m serverName) event m.

Definition addEventListener (serverName : string) (listener : Listener)
           (m : MCPProcessManager) : MCPProcessManager :=
  with_listeners
    (JsMap.set (eventListeners m) serverName (listeners_of m serverName ++ [listener])) m.

(** The answers of the environment during one [startServer]: what the
    client answers to each request, and the readings of [Date.now()]. *)
Record StartEnv := {
  env_connect : Outcome unit;
  env_getServerInfo : Outcome (option ServerInfoResponse);
  env_listTools : Outcome (list MCPTool);
  now_starting : Z;
  now_running : Z;
  now_start_event : Z;
  now_error_event : Z
}.

Definition status_serverInfo (serverName : string) (serverInfo : option ServerInfoResponse)
  : option ServerInfo :=
  match serverInfo with
  | Some si =>
      Some {| info_name :=
                or_default (match sir_serverInfo si with
                            | Some i => inner_name i | None => None end) serverName;
              info_version :=
                or_default (match sir_serverInfo si with
                            | Some i => inner_version i | None => None end) "unknown";
              info_protocolVersion :=
                or_default (sir_protocolVersion si) "unknown" |}
  | None => None
  end.

(** The body of [startServer], with [log] for [Logger.log]: the [try]
    block (lines 36-81) and the [catch] block (lines 82-101). *)
Definition startServer_with (log : string -> Outcome unit) (env : StartEnv)
           (serverName : string) (config : MCPServerConfig) (m : MCPProcessManager)
  : MCPProcessManager * Outcome unit :=
  let tried : MCPProcessManager * Outcome unit :=
    match log ("[MCP] Starting server: " ++ serverName)%string with
    | Rejected e => (m, Rejected e)
    | Resolved _ =>
        let m := updateServerStatus serverName
                   {| p_name := Some serverName; p_status := Some starting;
                      p_pid := None; p_startTime := Some (Some (now_starting env));
                      p_error := None; p_toolCount := None; p_serverInfo := None |} m in
        let (m, client) := new_client serverName config m in
        let m := record (ActCall (client_id client) m_connect) m in
        match env_connect env with
        | Rejected e => (m, Rejected e)
        | Resolved _ =>
            let m := with_clients (JsMap.set (clients m) serverName client) m in
            let m := record (ActCall (client_id client) m_getServerInfo) m in
            let m := record (ActCall (client_id client) m_listTools) m in
            let serverInfo := catch_default (env_getServerInfo env) None in
            let tools := catch_default (env_listTools env) [] in
            let m := updateServerStatus serverName
                       {| p_name := Some serverName; p_status := Some running;
                          p_pid := None; p_startTime := Some (Some (now_running env));
                          p_error := None;
                          p_toolCount := Some (Some (List.length tools));
                          p_serverInfo :=
                            Some (status_serverInfo serverName serverInfo) |} m in
            let m := emitEvent server_started serverName
                       (StartedData config (List.length tools) serverInfo)
                       (now_start_event env) m in
            match log ("[MCP] Server " ++ serverName ++ " started successfully with "
                       ++ JsString.of_nat (List.length tools) ++ " tools")%string with
            | Rejected e => (m, Rejected e)
            | Resolved _ => (m, Resolved tt)
            end
        end
    end in
  match tried with
  | (m, Resolved _) => (m, Resolved tt)
  | (m, Rejected err) =>
      let m := updateServerStatus serverName
                 {| p_name := Some serverName; p_status := Some error;
                    p_pid := None; p_startTime := None;
                    p_error := Some (Some (String_ err));
                    p_toolCount := None; p_serverInfo := None |} m in
      let m := emitEvent server_error serverName (ErrorData (String_ err))
                 (now_error_event env) m in
      (m, Rejected (MCPError
             ("Failed to start MCP server " ++ serverName ++ ": " ++ String_ err)
             MCP_ERROR_CODES.SERVER_START_FAILED (Some serverName) (Some err)))
  end.

Definition startServer : StartEnv -> string -> MCPServerConfig -> MCPProcessManager
                         -> MCPProcessManager * Outcome unit :=
  startServer_with Logger.log.

(** The answers of the [MCPClient] of the sources, which the manager
    constructs. *)
Definition placeholder_env (serverName : string) (t0 t1 t2 t3 : Z) : StartEnv :=
  {| env_connect := MCPClient.connect serverName;
     env_getServerInfo := MCPClient.getServerInfo serverName;
     env_listTools := MCPClient.listTools serverName;
     now_starting := t0; now_running := t1; now_start_event := t2;
     now_error_event := t3 |}.

Record StopEnv := {
  env_disconnect : Outcome unit;
  now_stop_event : Z
}.

(** [stopServer] from the end of [if (client) { .. }] on: [reached] is
    the state and outcome of the [try] block up to there. *)
Definition stopServer_settle (now : Z) (serverName : string)
           (reached : MCPProcessManager * Outcome unit)
  : MCPProcessManager * Outcome unit :=
  let tried : MCPProcessManager * Outcome unit :=
    match reached with
    | (m, Rejected e) => (m, Rejected e)
    | (m, Resolved _) =>
        let m := updateServerStatus serverName
                   {| p_name := Some serverName; p_status := Some stopped;
                      p_pid := None; p_startTime := None; p_error := None;
                      p_toolCount := None; p_serverInfo := None |} m in
        let m := emitEvent server_stopped serverName StoppedData now m in
        match Logger.log ("[MCP] Server " ++ serverName ++ " stopped successfully") with
        | Rejected e => (m, Rejected e)
        | Resolved _ => (m, Resolved tt)
        end
    end in
  match tried with
  | (m, Resolved _) => (m, Resolved tt)
  | (m, Rejected err) =>
      let m := updateServerStatus serverName
                 {| p_name := Some serverName; p_status := Some error;
                    p_pid := None; p_startTime := None;
                    p_error := Some (Some (String_ err));
                    p_toolCount := None; p_serverInfo := None |} m in
      (m, Rejected (MCPError
             ("Failed to stop MCP server " ++ serverName ++ ": " ++ String_ err)
             MCP_ERROR_CODES.SERVER_START_FAILED (Some serverName) (Some err)))
  end.

(** [stopServer] up to its suspension at [await client.disconnect()]
    ([inl client]), or to its end when it does not get there ([inr], with
    the outcome of the call). *)
Definition stopServer_begin (now : Z) (serverName : string) (m : MCPProcessManager)
  : MCPProcessManager * (ClientObj + Outcome unit) :=
  match Logger.log ("[MCP] Stopping server: " ++ serverName) with
  | Rejected e =>
      let (m, o) := stopServer_settle now serverName (m, Rejected e) in (m, inr o)
  | Resolved _ =>
      let m := updateServerStatus serverName
                 {| p_name := Some serverName; p_status := Some stopping;
                    p_pid := None; p_startTime := None; p_error := None;
                    p_toolCount := None; p_serverInfo := None |} m in
      match JsMap.get (clients m) serverName with
      | Some client => (record (ActCall (client_id client) m_disconnect) m, inl client)
      | None =>
          let (m, o) := stopServer_settle now serverName (m, Resolved tt) in (m, inr o)
      end
  end.

(** [stopServer] from the answer of [disconnect] on. *)
Definition stopServer_finish (env : StopEnv) (serverName : string)
           (m : MCPProcessManager) : MCPProcessManager * Outcome unit :=
  stopServer_settle (now_stop_event env) serverName
    match env_disconnect env with
    | Resolved _ => (with_clients (JsMap.delete (clients m) serverName) m, Resolved tt)
    | Rejected e => (m, Rejected e)
    end.

Definition stopServer (env : StopEnv) (serverName : string) (m : MCPProcessManager)
  : MCPProcessManager * Outcome unit :=
  match stopServer_begin (now_stop_event env) serverName m with
  | (m, inl _) => stopServer_finish env serverName m
  | (m, inr o) => (m, o)
  end.

(** A getter: it reads [serverStatuses] and writes nothing. *)
Definition getServerStatus (serverName : string) (m : MCPProcessManager)
  : MCPProcessManager * MCPServerStatus :=
  (m, match JsMap.get (serverStatuses m) serverName with
      | Some s => s
      | None => default_status serverName
      end).

Definition getAllServerStatuses (m : MCPProcessManager)
  : MCPProcessManager * list MCPServerStatus :=
  (m, JsMap.values (serverStatuses m)).

Record CallEnv := {
  env_callTool : Outcome MCPToolResult;
  now_call_started : Z;
  now_call_settled : Z
}.

Definition not_running (serverName : string) : JsError :=
  MCPError ("Server " ++ serverName ++ " is not running")
           MCP_ERROR_CODES.SERVER_CONNECTION_FAILED (Some serverName) None.

(** [callTool] up to its suspension, [await client.callTool(toolCall)];
    [Rejected] when there is no client. *)
Definition callTool_begin (env : CallEnv) (serverName toolName : string)
           (args : JsValue) (callId : option string) (m : MCPProcessManager)
  : MCPProcessManager * Outcome (ClientObj * MCPToolCall) :=
  match JsMap.get (clients m) serverName with
  | None => (m, Rejected (not_running serverName))
  | Some client =>
      let toolCall := {| call_toolName := toolName; call_args := args;
                         call_serverName := serverName; call_callId := callId |} in
      let m := emitEvent tool_call_started serverName (CallStartedData toolCall)
                 (now_call_started env) m in
      (record (ActCall (client_id client) (m_callTool toolCall)) m,
       Resolved (client, toolCall))
  end.

Definition callTool (env : CallEnv) (serverName toolName : string)
           (args : JsValue) (callId : option string) (m : MCPProcessManager)
  : MCPProcessManager * Outcome MCPToolResult :=
  match callTool_begin env serverName toolName args callId m with
  | (m, Rejected e) => (m, Rejected e)
  | (m, Resolved (client, toolCall)) =>
      match env_callTool env with
      | Resolved result =>
          let m := emitEvent tool_call_completed serverName
                     (CallCompletedData toolCall result) (now_call_settled env) m in
          (m, Resolved result)
      | Rejected err =>
          let m := emitEvent tool_call_failed serverName
                     (CallFailedData toolCall (String_ err)) (now_call_settled env) m in
          (m, Rejected err)
      end
  end.

(** The status a poller reads. *)
Definition status_of (serverName : string) (m : MCPProcessManager) : MCPServerStatus :=
  snd (getServerStatus serverName m).

End Manager.

(* ------------------------------------------------------------------ *)
(** ** Notions used in the statements *)

Module RegistrySpec.
Import Registry.

(** Replace the first tool of that name, or append: what lines 25-30
    of [registerTool] do to the server's array (lemma
    [findIndex_upsert]). *)
Fixpoint upsert (tool : MCPTool) (l : list MCPTool) : list MCPTool :=
  match l with
  | [] => [tool]
  | t :: l' =>
      if String.eqb (tool_name t) (tool_name tool) then tool :: l'
      else t :: upsert tool l'
  end.

(** Structural invariant of the two maps. *)
Record Inv (r : MCPToolRegistry) : Prop := {
  inv_tools_wf : JsMap.wf (tools r);
  inv_groups_wf : JsMap.wf (serverTools r);
  inv_keys : forall k t, In (k, t) (tools r) -> k = toolKey t;
  inv_groups : forall g l t, In (g, l) (serverTools r) -> In t l -> groupName t = g;
  inv_names : forall g l, In (g, l) (serverTools r) -> NoDup (List.map tool_name l)
}.

(** A tool whose owner, when given, is a server name without [":"]. *)
Definition well_named (tool : MCPTool) : bool :=
  match tool_serverName tool with
  | Some s => negb (JsString.has_char ":" s)
  | None => true
  end.

(** Registry states built while registering only such tools. *)
Inductive reachable_named : MCPToolRegistry -> Prop :=
| named_new : reachable_named new
| named_register tool r :
    well_named tool = true -> reachable_named r ->
    reachable_named (registerTool tool r)
| named_clear s r : reachable_named r -> reachable_named (clearServerTools s r)
| named_clear_all r : reachable_named r -> reachable_named (clearAllTools r).

Record InvNamed (r : MCPToolRegistry) : Prop := {
  named_flat : forall k t, In (k, t) (tools r) -> well_named t = true;
  named_owner : forall k t s, In (k, t) (tools r) ->
    tool_serverName t = Some s -> s <> "" ->
    In (tool_name t) (List.map tool_name (getServerTools s r));
  named_groups : forall g l t, In (g, l) (serverTools r) -> In t l ->
    well_named t = true
}.

Definition opt_string_eqb (a b : option string) : bool :=
  match a, b with
  | Some x, Some y => String.eqb x y
  | None, None => true
  | _, _ => false
  end.

(** Same owner and same name: the identity key of a tool. *)
Definition same_key (a b : MCPTool) : bool :=
  opt_string_eqb (tool_serverName a) (tool_serverName b) &&
  String.eqb (tool_name a) (tool_name b).

Definition same_name (a b : MCPTool) : bool :=
  String.eqb (tool_name a) (tool_name b).

(** "After [clearServerTools(s)] every tool owned by [s] is absent from
    [getAllTools()] and [getServerTools(s)], and every tool owned by
    another server is unchanged in [getAllTools()] and in its own
    [getServerTools] result." *)
Definition clear_frame (s : string) (r : MCPToolRegistry) : Prop :=
  let r' := clearServerTools s r in
  (forall t, tool_serverName t = Some s ->
     ~ In t (getAllTools r') /\ ~ In t (getServerTools s r')) /\
  (forall t s', tool_serverName t = Some s' -> s' <> s ->
     (In t (getAllTools r') <-> In t (getAllTools r)) /\
     getServerTools s' r' = getServerTools s' r).

Definition category_names : list string :=
  ["filesystem"; "network"; "data"; "system"; "other"].

Definition sample_names : list string :=
  ["file-read"; "http-get"; "json-parse"; "system-info"; "mystery-tool"].

(** The registered tools that [categorizeToolByName] sends to [c]. *)
Definition bucket (c : string) (ts : list MCPTool) : list MCPTool :=
  filter (fun t => String.eqb (categorizeToolByName (tool_name t)) c) ts.

Definition bucket_sizes (categories : JsMap.t (list MCPTool)) : list (string * nat) :=
  List.map (fun kv => (fst kv, List.length (snd kv))) categories.

Definition mk_tool (n : string) (d : option string) (s : option string) : MCPTool :=
  {| tool_name := n; tool_description := d;
     tool_inputSchema := JsObject []; tool_serverName := s |}.

(** Sample registries. *)
Definition blank_owner_tool : MCPTool := mk_tool "x" None (Some "").

Definition colon_registry : MCPToolRegistry :=
  registerTool (mk_tool "b:c" None (Some "a"))
    (registerTool (mk_tool "c" None (Some "a:b")) new).

Definition undefined_registry : MCPToolRegistry :=
  registerTool (mk_tool "x" None None)
    (registerTool (mk_tool "x" None (Some "undefined")) new).

Definition three_tools : MCPToolRegistry :=
  registerTool (mk_tool "tool3" (Some "") (Some "server2"))
    (registerTool (mk_tool "tool2" (Some "") (Some "server1"))
       (registerTool (mk_tool "tool1" (Some "") (Some "server1")) new)).

(** Five tools, registered one by one. *)
Definition five_tools : MCPToolRegistry :=
  fold_left (fun r tool => registerTool tool r)
    [mk_tool "file-read" (Some "") (Some "fs");
     mk_tool "http-get" (Some "") (Some "net");
     mk_tool "json-parse" (Some "") (Some "data");
     mk_tool "system-info" (Some "") (Some "sys");
     mk_tool "mystery-tool" (Some "") (Some "other")] new.

End RegistrySpec.

Module ManagerSpec.
Import Manager.

(** Listener calls made for one event, in order. *)
Definition deliveries (listeners : list Listener) (event : MCPEvent) : list Action :=
  List.map (fun l => ActDeliver (listener_id l) event (listener_throws l event)) listeners.

(** What one [emitEvent] adds to the log. *)
Definition emit_actions (m : MCPProcessManager) (type : MCPEventType)
           (serverName : string) (data : EventData) (now : Z) : list Action :=
  let event := {| ev_type := type; ev_serverName := serverName;
                  ev_timestamp := now; ev_data := data |} in
  ActEmit event :: deliveries (listeners_of m "*") event
    ++ deliveries (listeners_of m serverName) event.

(** The events emitted in a stretch of the log. *)
Fixpoint emitted (h : list Action) : list MCPEvent :=
  match h with
  | [] => []
  | ActEmit e :: h' => e :: emitted h'
  | _ :: h' => emitted h'
  end.

(** The ways [listToolsViaHTTP] can fail before it has a list: the
    request is rejected, the response is not OK, the body cannot be
    decoded, or it is [null]. *)
Definition http_list_fails (fetched : Outcome Response) : bool :=
  match fetched with
  | Rejected _ => true
  | Resolved response =>
      negb (resp_ok response) ||
      match resp_json response with
      | Rejected _ | Resolved DataNull => true
      | Resolved (DataObject _) => false
      end
  end.

Definition terminal_type (o : Outcome MCPToolResult) : MCPEventType :=
  match o with
  | Resolved _ => tool_call_completed
  | Rejected _ => tool_call_failed
  end.

Definition terminal_data (toolCall : MCPToolCall) (o : Outcome MCPToolResult) : EventData :=
  match o with
  | Resolved result => CallCompletedData toolCall result
  | Rejected err => CallFailedData toolCall (String_ err)
  end.

Definition start_error_message (name : string) (e : JsError) : string :=
  "Failed to start MCP server " ++ name ++ ": " ++ String_ e.

Definition stop_error_message (name : string) (e : JsError) : string :=
  "Failed to stop MCP server " ++ name ++ ": " ++ String_ e.

(** The phases of [startServer] that can fail, in the order of the [try]
    block: [Logger.log] at its start, [connect], [Logger.log] at its end
    (a failure of [getServerInfo] or [listTools] is caught on the spot).
    [start_failure] is the error of the first phase that fails, [None]
    when none does; [log] stands for [Logger.log]. *)
Definition start_failure (log : string -> Outcome unit) (env : StartEnv)
           (serverName : string) : option JsError :=
  match log ("[MCP] Starting server: " ++ serverName)%string with
  | Rejected e => Some e
  | Resolved _ =>
      match env_connect env with
      | Rejected e => Some e
      | Resolved _ =>
          let tools := catch_default (env_listTools env) [] in
          match log ("[MCP] Server " ++ serverName ++ " started successfully with "
                     ++ JsString.of_nat (List.length tools) ++ " tools")%string with
          | Rejected e => Some e
          | Resolved _ => None
          end
      end
  end.


(** Sample inputs. *)
Definition invalid_config : MCPServerConfig :=
  {| cfg_command := "invalid-command-that-does-not-exist";
     cfg_args := ["--invalid"]; cfg_env := None; cfg_autoStart := None;
     cfg_timeout := None; cfg_cwd := None |}.

Definition echo_config : MCPServerConfig :=
  {| cfg_command := "node"; cfg_args := ["echo.js"]; cfg_env := None;
     cfg_autoStart := None; cfg_timeout := None; cfg_cwd := None |}.

Definition echo_tool : MCPTool :=
  {| tool_name := "echo"; tool_description := Some "Echo input";
     tool_inputSchema := JsObject []; tool_serverName := Some "echo" |}.

(** A client that answers every request. *)
Definition healthy_env : StartEnv :=
  {| env_connect := Resolved tt;
     env_getServerInfo := Resolved None;
     env_listTools := Resolved [echo_tool];
     now_starting := 1000; now_running := 1001; now_start_event := 1002;
     now_error_event := 1003 |}.

(** A manager that holds a client for "echo", with status 'running' and
    one tool: the condition of the statements about a server that has a
    client.  It is written out field by field: with the [Logger] and the
    [MCPClient] of the sources no sequence of calls builds it. *)
Definition echo_running : MCPProcessManager :=
  let client := {| client_id := 0; client_serverName := "echo";
                   client_config := echo_config |} in
  {| clients := [("echo", client)];
     serverStatuses :=
       [("echo", {| st_name := "echo"; st_status := running; st_pid := None;
                    st_startTime := Some 1001%Z; st_error := None;
                    st_toolCount := Some 1; st_serverInfo := None |})];
     eventListeners := [];
     allocated := 1;
     history :=
       [ActNew client; ActCall 0 m_connect; ActCall 0 m_getServerInfo;
        ActCall 0 m_listTools;
        ActEmit {| ev_type := server_started; ev_serverName := "echo";
                   ev_timestamp := 1002;
                   ev_data := StartedData echo_config 1 None |}] |}.


Definition call_ok_env : CallEnv :=
  {| env_callTool := Resolved {| res_callId := Some "call-1"; res_success := true;
                                 res_result := Some (JsStr "hi");
                                 res_error := None; res_duration := Some 3%Z |};
     now_call_started := 3000; now_call_settled := 3003 |}.

End ManagerSpec.

(* ------------------------------------------------------------------ *)
(** ** MCPToolRegistry.ts: the remaining methods *)

(** The object returned by [getStats].  [toolsByServer] and
    [toolsByCategory] are plain objects used as dictionaries: the maps
    hold their own properties, to be read by key (JavaScript enumerates
    the keys of an object that are array indices before the others; the
    order of the entries of [toolsByServer] is not meant to model that). *)
Record RegistryStats := {
  totalTools : nat;
  serverCount : nat;
  toolsByServer : JsMap.t nat;
  toolsByCategory : JsMap.t nat
}.

Module RegistryRest.
Import Registry.

(** [tool.description && tool.description.toLowerCase().includes(q)]:
    an absent or empty description is falsy. *)
Definition description_matches (tool : MCPTool) (queryLower : string) : bool :=
  match tool_description tool with
  | None => false
  | Some EmptyString => false
  | Some d => JsString.includes (JsString.toLowerCase d) queryLower
  end.

Definition searchTools (query : string) (r : MCPToolRegistry) : list MCPTool :=
  let queryLower := JsString.toLowerCase query in
  filter (fun tool =>
            JsString.includes (JsString.toLowerCase (tool_name tool)) queryLower
            || description_matches tool queryLower)
         (getAllTools r).

(** [o[key] = n] on an object made by [{}], for a number [n]: the key
    "__proto__" names the accessor of [Object.prototype], whose setter
    ignores a value that is no object, so no own property is made. *)
Definition object_assign (o : JsMap.t nat) (key : string) (n : nat) : JsMap.t nat :=
  if String.eqb key "__proto__" then o else JsMap.set o key n.

(** [entries.forEach(([key, arr]) => { o[key] = arr.length })]: the own
    properties of [o]. *)
Definition count_entries (entries : JsMap.t (list MCPTool)) : JsMap.t nat :=
  fold_left (fun o entry => object_assign o (fst entry) (List.length (snd entry)))
            entries JsMap.empty.

Definition getStats (r : MCPToolRegistry) : RegistryStats :=
  let toolsByServer := count_entries (serverTools r) in
  let categories := getToolsByCategory r in
  let toolsByCategory := count_entries categories in
  {| totalTools := JsMap.size (tools r);
     serverCount := JsMap.size (serverTools r);
     toolsByServer := toolsByServer;
     toolsByCategory := toolsByCategory |}.

(** Sum of the counts of a dictionary. *)
Definition total_count (o : JsMap.t nat) : nat :=
  fold_right (fun kv acc => snd kv + acc) 0 o.

(** A tool whose name and description are strings of ASCII characters. *)
Definition ascii_tool (tool : MCPTool) : bool :=
  JsString.is_ascii (tool_name tool) &&
  match tool_description tool with
  | Some d => JsString.is_ascii d
  | None => true
  end.

End RegistryRest.

(* ------------------------------------------------------------------ *)
(** ** MCPProcessManager.ts: the remaining methods *)

Record MCPResource := {
  resource_uri : string;
  resource_name : option string;
  resource_description : option string;
  resource_mimeType : option string
}.

Module ManagerRest.
Import Manager.

Record RestartEnv := {
  restart_stop : StopEnv;
  restart_start : StartEnv
}.

(** [restartServer]: [Logger.log] (line 156) stands before the [try];
    the one-second [setTimeout] between stop and start passes no value
    and touches no state; the [catch] logs and throws the error on. *)
Definition restartServer (env : RestartEnv) (serverName : string)
           (config : MCPServerConfig) (m : MCPProcessManager)
  : MCPProcessManager * Outcome unit :=
  match Logger.log ("[MCP] Restarting server: " ++ serverName) with
  | Rejected e => (m, Rejected e)
  | Resolved _ =>
      let tried : MCPProcessManager * Outcome unit :=
        let stopped : MCPProcessManager * Outcome unit :=
          if JsMap.has (clients m) serverName
          then stopServer (restart_stop env) serverName m
          else (m, Resolved tt) in
        match stopped with
        | (m, Rejected e) => (m, Rejected e)
        | (m, Resolved _) =>
            match startServer (restart_start env) serverName config m with
            | (m, Rejected e) => (m, Rejected e)
            | (m, Resolved _) =>
                match Logger.log ("[MCP] Server " ++ serverName
                                  ++ " restarted successfully") with
                | Rejected e => (m, Rejected e)
                | Resolved _ => (m, Resolved tt)
                end
            end
        end in
      match tried with
      | (m, Resolved _) => (m, Resolved tt)
      | (m, Rejected err) => (m, Rejected err)
      end
  end.

(** [answer] is what [client.listTools()] answers. *)
Definition listTools (answer : Outcome (list MCPTool)) (serverName : string)
           (m : MCPProcessManager) : MCPProcessManager * Outcome (list MCPTool) :=
  match JsMap.get (clients m) serverName with
  | None => (m, Rejected (not_running serverName))
  | Some client => (record (ActCall (client_id client) m_listTools) m, answer)
  end.

(** [answers serverName] is what the client of that server answers. *)
Definition listAllTools (answers : string -> Outcome (list MCPTool))
           (m : MCPProcessManager) : MCPProcessManager * Outcome (list MCPTool) :=
  let step (acc : MCPProcessManager * list MCPTool) (entry : string * ClientObj) :=
    let (m, allTools) := acc in
    let m := record (ActCall (client_id (snd entry)) m_listTools) m in
    match answers (fst entry) with
    | Resolved tools => (m, allTools ++ tools)
    | Rejected _ => (m, allTools)
    end in
  let (m, allTools) := fold_left step (clients m) (m, []) in
  (m, Resolved allTools).

(** Resource requests: the log has no entry for them, the maps are not
    touched. *)
Definition listResources (answer : Outcome (list MCPResource)) (serverName : string)
           (m : MCPProcessManager) : MCPProcessManager * Outcome (list MCPResource) :=
  match JsMap.get (clients m) serverName with
  | None => (m, Rejected (not_running serverName))
  | Some _ => (m, answer)
  end.

Definition readResource (answer : Outcome JsValue) (serverName uri : string)
           (m : MCPProcessManager) : MCPProcessManager * Outcome JsValue :=
  match JsMap.get (clients m) serverName with
  | None => (m, Rejected (not_running serverName))
  | Some _ => (m, answer)
  end.

(** [connected] is what the synchronous [client.isConnected()] gives
    ([Rejected] when it throws, which the [catch] only logs). *)
Definition checkServerHealth (connected : Outcome bool) (now : Z) (serverName : string)
           (m : MCPProcessManager) : MCPProcessManager :=
  match JsMap.get (clients m) serverName with
  | None => m
  | Some _ =>
      match connected with
      | Resolved false =>
          let m := updateServerStatus serverName
                     {| p_name := Some serverName; p_status := Some error;
                        p_pid := None; p_startTime := None;
                        p_error := Some (Some "Connection lost");
                        p_toolCount := None; p_serverInfo := None |} m in
          emitEvent server_error serverName (ErrorData "Connection lost") now m
      | Resolved true => m
      | Rejected _ => m
      end
  end.

Record HealthEnv := {
  env_isConnected : string -> Outcome bool;
  now_health : string -> Z
}.

(** One run of the callback of [startHealthCheck]. *)
Definition healthCheckTick (env : HealthEnv) (m : MCPProcessManager) : MCPProcessManager :=
  fold_left
    (fun m serverName =>
       checkServerHealth (env_isConnected env serverName) (now_health env serverName)
                         serverName m)
    (JsMap.keys (clients m)) m.

(** [listeners.indexOf(listener)]: listeners are compared by identity. *)
Definition indexOf_listener (listener : Listener) (listeners : list Listener) : Z :=
  findIndex (fun l => Nat.eqb (listener_id l) (listener_id listener)) listeners.

(** [arr.splice(i, 1)] *)
Fixpoint splice_one {A} (i : nat) (l : list A) : list A :=
  match l, i with
  | [], _ => []
  | _ :: l', O => l'
  | x :: l', S i' => x :: splice_one i' l'
  end.

Definition removeEventListener (serverName : string) (listener : Listener)
           (m : MCPProcessManager) : MCPProcessManager :=
  let listeners := listeners_of m serverName in
  let index := indexOf_listener listener listeners in
  if (-1 <? index)%Z
  then with_listeners
         (JsMap.set (eventListeners m) serverName (splice_one (Z.to_nat index) listeners)) m
  else m.

(** The answers of the environment during [stopAllServers]: what each
    [disconnect] answers, and the order in which these answers arrive. *)
Record StopAllEnv := {
  stop_env : string -> StopEnv;
  settle_order : list string
}.

(** [stopAllServers].  After [Logger.log] (line 301),
    [Array.from(keys).map(..)] runs every [stopServer] up to its
    suspension, in key order; each suspended call goes on when its
    [disconnect] has answered; the rejection of a call is caught and
    logged.  Then the timer is cleared and [Logger.log] is called again
    (line 317).  The second component of the state is
    [healthCheckInterval]. *)
Definition stopAllServers (env : StopAllEnv)
           (state : MCPProcessManager * option nat)
  : (MCPProcessManager * option nat) * Outcome unit :=
  let (m, interval) := state in
  match Logger.log "[MCP] Stopping all servers..." with
  | Rejected e => ((m, interval), Rejected e)
  | Resolved _ =>
      let names := JsMap.keys (clients m) in
      let begin (acc : MCPProcessManager * list string) (serverName : string) :=
        let (m, pending) := acc in
        match stopServer_begin (now_stop_event (stop_env env serverName)) serverName m with
        | (m, inl _) => (m, pending ++ [serverName])
        | (m, inr _) => (m, pending)
        end in
      let (m, pending) := fold_left begin names (m, []) in
      let finish (m : MCPProcessManager) (serverName : string) :=
        if existsb (String.eqb serverName) pending
        then fst (stopServer_finish (stop_env env serverName) serverName m)
        else m in
      let m := fold_left finish (settle_order env) m in
      match Logger.log "[MCP] All servers stopped" with
      | Rejected e => ((m, None), Rejected e)
      | Resolved _ => ((m, None), Resolved tt)
      end
  end.

End ManagerRest.

Module ManagerRestSpec.
Import Manager ManagerSpec ManagerRest.

(** One call of a method of the class, or one run of its health check,
    under any answers of the environment. *)
Inductive transition : MCPProcessManager -> MCPProcessManager -> Prop :=
| t_start env serverName config m :
    transition m (fst (startServer env serverName config m))
| t_stop env serverName m :
    transition m (fst (stopServer env serverName m))
| t_restart env serverName config m :
    transition m (fst (restartServer env serverName config m))
| t_call env serverName toolName args callId m :
    transition m (fst (callTool env serverName toolName args callId m))
| t_list answer serverName m :
    transition m (fst (listTools answer serverName m))
| t_list_all answers m :
    transition m (fst (listAllTools answers m))
| t_resources answer serverName m :
    transition m (fst (listResources answer serverName m))
| t_read answer serverName uri m :
    transition m (fst (readResource answer serverName uri m))
| t_health connected now serverName m :
    transition m (checkServerHealth connected now serverName m)
| t_tick env m :
    transition m (healthCheckTick env m)
| t_stop_all env interval m :
    transition m (fst (fst (stopAllServers env (m, interval))))
| t_listen serverName listener m :
    transition m (addEventListener serverName listener m)
| t_unlisten serverName listener m :
    transition m (removeEventListener serverName listener m).

(** The states reached from a new manager with the methods of the class. *)
Inductive reachable_all : MCPProcessManager -> Prop :=
| all_new : reachable_all Manager.new
| all_step m m' : reachable_all m -> transition m m' -> reachable_all m'.

(** The partial status of a failure. *)
Definition error_update (name text : string) : PartialStatus :=
  {| p_name := Some name; p_status := Some error; p_pid := None;
     p_startTime := None; p_error := Some (Some text); p_toolCount := None;
     p_serverInfo := None |}.

(** The status of a server whose start or stop has failed at
    [Logger.log]. *)
Definition failed_status (name : string) : MCPServerStatus :=
  {| st_name := name; st_status := error; st_pid := None; st_startTime := None;
     st_error := Some (String_ Logger.thrown); st_toolCount := None;
     st_serverInfo := None |}.

(** What is seen of one server: its client and its status. *)
Definition obs (n : string) (m : MCPProcessManager) : option ClientObj * MCPServerStatus :=
  (JsMap.get (clients m) n, status_of n m).

(** The health check of one server, as a step on what is seen of it. *)
Definition health_step (env : HealthEnv) (n : string)
           (o : option ClientObj * MCPServerStatus) : option ClientObj * MCPServerStatus :=
  match fst o, env_isConnected env n with
  | Some _, Resolved false => (fst o, spread (snd o) (error_update n "Connection lost"))
  | _, _ => o
  end.

(** The listeners called in a stretch of the log, in order. *)
Fixpoint called (h : list Action) : list nat :=
  match h with
  | [] => []
  | ActDeliver l _ _ :: h' => l :: called h'
  | _ :: h' => called h'
  end.

(** The client requests in a stretch of the log, in order. *)
Fixpoint requests (h : list Action) : list (nat * ClientMethod) :=
  match h with
  | [] => []
  | ActCall c method :: h' => (c, method) :: requests h'
  | _ :: h' => requests h'
  end.

(** The clients constructed in a stretch of the log. *)
Fixpoint constructed (h : list Action) : list ClientObj :=
  match h with
  | [] => []
  | ActNew c :: h' => c :: constructed h'
  | _ :: h' => constructed h'
  end.

(** Sample inputs. *)
Definition quiet_stop_env : StopEnv :=
  {| env_disconnect := Resolved tt; now_stop_event := 2000 |}.

Definition logger_listener : Listener :=
  {| listener_id := 0; listener_throws := fun _ => false |}.

Definition faulty_listener : Listener :=
  {| listener_id := 1; listener_throws := fun _ => true |}.

Definition stop_all_env : StopAllEnv :=
  {| stop_env := fun _ => quiet_stop_env; settle_order := [] |}.

End ManagerRestSpec.

(* ------------------------------------------------------------------ *)
(** ** BrowserMCPClient.ts: the remaining methods *)

Inductive TransportType := http | websocket.

Record BrowserMCPServerConfig := {
  bcfg_name : string;
  bcfg_url : string;
  bcfg_type : TransportType;
  bcfg_timeout : option Z;
  bcfg_headers : option (list (string * string))
}.

(** The fields of a [BrowserMCPClient] instance. *)
Record BrowserClient := {
  bc_connected : bool;
  bc_serverName : string;
  bc_config : BrowserMCPServerConfig
}.

(** A response of [fetch] whose body parses to a [J]. *)
Record Fetched (J : Type) := {
  fetched_ok : bool;
  fetched_status : nat;
  fetched_statusText : string;
  fetched_json : Outcome J
}.

(** The body the proxy answers on its [/mcp/..] routes, as far as the
    client reads it: the truthiness of [success], [error] (a string or
    absent) and [result]. *)
Record ProxyAnswer := {
  ans_success : bool;
  ans_error : option string;
  ans_result : JsValue
}.

(** The object [callToolViaHTTP] builds. *)
Record ViaHTTPResult := {
  via_callId : option string;
  via_success : bool;
  via_data : JsValue;
  via_duration : Z;
  via_timestamp : Z
}.

Module BrowserMCPClientRest.

Definition new (serverName : string) (config : BrowserMCPServerConfig) : BrowserClient :=
  {| bc_connected := false; bc_serverName := serverName; bc_config := config |}.

Definition set_connected (b : bool) (c : BrowserClient) : BrowserClient :=
  {| bc_connected := b; bc_serverName := bc_serverName c; bc_config := bc_config c |}.

Definition type_name (t : TransportType) : string :=
  match t with http => "http" | websocket => "websocket" end.

(** [new Error(`HTTP ${response.status}: ${response.statusText}`)] *)
Definition http_error (status : nat) (statusText : string) : JsError :=
  Error_ ("HTTP " ++ JsString.of_nat status ++ ": " ++ statusText).

(** [new MCPError(`${prefix}${error}`, code, this.serverName, error)] *)
Definition wrap (prefix code : string) (c : BrowserClient) (err : JsError) : JsError :=
  MCPError (prefix ++ String_ err) code (Some (bc_serverName c)) (Some err).

(** [fetched] is the outcome of [fetch(`${url}/health`)]; it is asked
    for only when the first [Logger.log] has returned and the type is
    'http'. *)
Definition connect (fetched : Outcome Response) (c : BrowserClient)
  : BrowserClient * Outcome unit :=
  let tried : BrowserClient * Outcome unit :=
    match Logger.log ("[BrowserMCP] Connecting to server: " ++ bc_serverName c
                      ++ " via " ++ type_name (bcfg_type (bc_config c))) with
    | Rejected e => (c, Rejected e)
    | Resolved _ =>
        match bcfg_type (bc_config c) with
        | http =>
            match fetched with
            | Rejected e => (c, Rejected e)
            | Resolved response =>
                if resp_ok response then
                  let c := set_connected true c in
                  match Logger.log "[BrowserMCP] Successfully connected to proxy server" with
                  | Rejected e => (c, Rejected e)
                  | Resolved _ => (c, Resolved tt)
                  end
                else (c, Rejected (http_error (resp_status response)
                                              (resp_statusText response)))
            end
        | t => (c, Rejected (Error_ ("Unsupported connection type: " ++ type_name t)))
        end
    end in
  match tried with
  | (c, Resolved _) => (c, Resolved tt)
  | (c, Rejected err) =>
      (c, Rejected (wrap "Failed to connect to MCP server: "
                         MCP_ERROR_CODES.SERVER_CONNECTION_FAILED c err))
  end.

(** The flag is cleared, then [Logger.log] is called (line 74). *)
Definition disconnect (c : BrowserClient) : BrowserClient * Outcome unit :=
  let c := set_connected false c in
  match Logger.log ("[BrowserMCP] Disconnected from server: " ++ bc_serverName c) with
  | Rejected e => (c, Rejected e)
  | Resolved _ => (c, Resolved tt)
  end.

Definition isConnected (c : BrowserClient) : bool := bc_connected c.

Definition getServerName (c : BrowserClient) : string := bc_serverName c.

Definition getConfig (c : BrowserClient) : BrowserMCPServerConfig := bc_config c.

(** [fetched] is the outcome of the [fetch] expression (building its
    body included); [startTime], [settled] and [stamped] are the three
    readings of [Date.now()]. *)
Definition callToolViaHTTP (toolCall : MCPToolCall) (startTime settled stamped : Z)
           (fetched : Outcome (Fetched JsValue)) (c : BrowserClient)
  : Outcome ViaHTTPResult :=
  let tried : Outcome ViaHTTPResult :=
    match Logger.log ("[BrowserMCP] Calling tool " ++ call_toolName toolCall
                      ++ " via HTTP on server " ++ bc_serverName c) with
    | Rejected e => Rejected e
    | Resolved _ =>
        match fetched with
        | Rejected e => Rejected e
        | Resolved response =>
            if negb (fetched_ok response) then
              Rejected (http_error (fetched_status response)
                                   (fetched_statusText response))
            else
              match fetched_json response with
              | Rejected e => Rejected e
              | Resolved data =>
                  let duration := (settled - startTime)%Z in
                  let result :=
                    {| via_callId := call_callId toolCall; via_success := true;
                       via_data := data; via_duration := duration;
                       via_timestamp := stamped |} in
                  match Logger.log "[BrowserMCP] Tool call successful" with
                  | Rejected e => Rejected e
                  | Resolved _ => Resolved result
                  end
              end
        end
    end in
  match tried with
  | Resolved result => Resolved result
  | Rejected err =>
      Rejected (wrap "Tool call failed: " MCP_ERROR_CODES.TOOL_CALL_FAILED c err)
  end.

(** The common part of the three [/mcp/..] methods:
    [const result = await response.json();
     if (!result.success) throw new Error(result.error)].
    The body [null] is [None]; the status of the response is not read. *)
Definition proxy_result (fetched : Outcome (Fetched (option ProxyAnswer)))
  : Outcome ProxyAnswer :=
  match fetched with
  | Rejected e => Rejected e
  | Resolved response =>
      match fetched_json response with
      | Rejected e => Rejected e
      | Resolved None =>
          Rejected (TypeError_ "Cannot read properties of null (reading 'success')")
      | Resolved (Some result) =>
          if negb (ans_success result) then
            Rejected (Error_ (match ans_error result with Some s => s | None => "" end))
          else Resolved result
      end
  end.

Definition startMCPService (fetched : Outcome (Fetched (option ProxyAnswer)))
           (c : BrowserClient) : Outcome unit :=
  let tried : Outcome unit :=
    match proxy_result fetched with
    | Rejected e => Rejected e
    | Resolved _ => Logger.log ("[BrowserMCP] MCP service started: " ++ bc_serverName c)
    end in
  match tried with
  | Resolved _ => Resolved tt
  | Rejected err =>
      Rejected (wrap "Failed to start MCP service: "
                     MCP_ERROR_CODES.SERVER_START_FAILED c err)
  end.

(** [toolName] is the first argument of the call. *)
Definition callTool (toolName : string) (fetched : Outcome (Fetched (option ProxyAnswer)))
           (c : BrowserClient) : Outcome JsValue :=
  let tried : Outcome JsValue :=
    match Logger.log ("[BrowserMCP] Calling tool " ++ toolName ++ " with args:") with
    | Rejected e => Rejected e
    | Resolved _ =>
        match proxy_result fetched with
        | Rejected e => Rejected e
        | Resolved result =>
            match Logger.log "[BrowserMCP] Tool call successful:" with
            | Rejected e => Rejected e
            | Resolved _ => Resolved (ans_result result)
            end
        end
    end in
  match tried with
  | Resolved v => Resolved v
  | Rejected err =>
      Rejected (wrap "Tool call failed: " MCP_ERROR_CODES.TOOL_CALL_FAILED c err)
  end.

(** [catch (error) { Logger.error(..); throw error; }] *)
Definition stopMCPService (fetched : Outcome (Fetched (option ProxyAnswer)))
           (c : BrowserClient) : Outcome unit :=
  let tried : Outcome unit :=
    match proxy_result fetched with
    | Rejected e => Rejected e
    | Resolved _ => Logger.log ("[BrowserMCP] MCP service stopped: " ++ bc_serverName c)
    end in
  match tried with
  | Resolved _ => Resolved tt
  | Rejected err => Rejected err
  end.

(** The methods of the class that change the instance. *)
Inductive step : BrowserClient -> BrowserClient -> Prop :=
| step_connect fetched c : step c (fst (connect fetched c))
| step_disconnect c : step c (fst (disconnect c)).

Inductive reachable (serverName : string) (config : BrowserMCPServerConfig)
  : BrowserClient -> Prop :=
| reach_new : reachable serverName config (new serverName config)
| reach_step c c' : reachable serverName config c -> step c c' ->
                    reachable serverName config c'.

(** Sample inputs. *)
Definition proxy_config : BrowserMCPServerConfig :=
  {| bcfg_name := "proxy"; bcfg_url := "http://localhost:3001"; bcfg_type := http;
     bcfg_timeout := None; bcfg_headers := None |}.

Definition socket_config : BrowserMCPServerConfig :=
  {| bcfg_name := "proxy"; bcfg_url := "ws://localhost:3001"; bcfg_type := websocket;
     bcfg_timeout := None; bcfg_headers := None |}.

Definition healthy_response : Outcome Response :=
  Resolved {| resp_ok := true; resp_status := 200; resp_statusText := "OK";
              resp_json := Resolved (DataObject None) |}.

Definition granted_answer : Outcome (Fetched (option ProxyAnswer)) :=
  Resolved {| fetched_ok := true; fetched_status := 200; fetched_statusText := "OK";
              fetched_json := Resolved (Some {| ans_success := true;
                                                ans_error := None;
                                                ans_result := JsStr "done" |}) |}.

End BrowserMCPClientRest.

(* ------------------------------------------------------------------ *)
(** ** background/messages/mcp/process-management: the message handler *)

(** [req.body], an object of the interface [MCPProcessRequest]. *)
Record MCPProcessRequest := {
  req_action : string;
  req_serverName : option string;
  req_config : option MCPServerConfig;
  req_toolName : option string;
  req_args : JsValue;
  req_callId : option string
}.

(** What the handler puts in [data]. *)
Inductive ResultData :=
| MessageData (message : string)
| StatusData (status : MCPServerStatus)
| StatusListData (statuses : list MCPServerStatus)
| ToolsData (found : list MCPTool)
| ToolResultData (result : MCPToolResult).

Record MCPProcessResponse := {
  out_success : bool;
  out_data : option ResultData;
  out_error : option string
}.

Module ProcessManagement.
Import Manager ManagerRest.

(** The answers of the environment during one request. *)
Record HandlerEnv := {
  on_start : StartEnv;
  on_stop : StopEnv;
  on_restart : RestartEnv;
  on_listTools : Outcome (list MCPTool);
  on_listAllTools : string -> Outcome (list MCPTool);
  on_callTool : CallEnv
}.

(** [`${event.type}`] *)
Definition event_type_name (type : MCPEventType) : string :=
  match type with
  | server_started => "server_started"
  | server_stopped => "server_stopped"
  | server_error => "server_error"
  | tool_call_started => "tool_call_started"
  | tool_call_completed => "tool_call_completed"
  | tool_call_failed => "tool_call_failed"
  end.

(** The listener [ensureMCPManager] registers: it calls [Logger.log]
    with the event (line 21), which throws. *)
Definition event_logger : Listener :=
  {| listener_id := 0;
     listener_throws := fun event =>
       match Logger.log ("[MCP Event] " ++ event_type_name (ev_type event)
                         ++ " for server " ++ ev_serverName event ++ ":") with
       | Rejected _ => true
       | Resolved _ => false
       end |}.

(** The module-level [mcpManager] is [None] until the first request. *)
Definition ensureMCPManager (mcpManager : option MCPProcessManager)
  : option MCPProcessManager * MCPProcessManager :=
  match mcpManager with
  | Some m => (mcpManager, m)
  | None =>
      let m := Manager.addEventListener "*" event_logger Manager.new in
      (Some m, m)
  end.

(** [!s] for an optional string: the value when it is truthy. *)
Definition given (s : option string) : option string :=
  match s with
  | Some EmptyString | None => None
  | Some s => Some s
  end.

(** [args || {}] *)
Definition args_or_empty (args : JsValue) : JsValue :=
  match args with
  | JsUndefined | JsNull | JsBool false | JsNumber 0%Z | JsStr EmptyString => JsObject []
  | a => a
  end.

Definition lift {A} (wrap : A -> ResultData) (r : MCPProcessManager * Outcome A)
  : MCPProcessManager * Outcome ResultData :=
  match r with
  | (m, Resolved a) => (m, Resolved (wrap a))
  | (m, Rejected e) => (m, Rejected e)
  end.

(** The [switch] of the handler. *)
Definition dispatch (env : HandlerEnv) (req : MCPProcessRequest) (manager : MCPProcessManager)
  : MCPProcessManager * Outcome ResultData :=
  let action := req_action req in
  if String.eqb action "start" then
    match given (req_serverName req), req_config req with
    | Some serverName, Some config =>
        lift (fun _ => MessageData ("Server " ++ serverName ++ " started successfully"))
             (Manager.startServer (on_start env) serverName config manager)
    | _, _ =>
        (manager, Rejected (Error_ "serverName and config are required for start action"))
    end
  else if String.eqb action "stop" then
    match given (req_serverName req) with
    | Some serverName =>
        lift (fun _ => MessageData ("Server " ++ serverName ++ " stopped successfully"))
             (Manager.stopServer (on_stop env) serverName manager)
    | None => (manager, Rejected (Error_ "serverName is required for stop action"))
    end
  else if String.eqb action "restart" then
    match given (req_serverName req), req_config req with
    | Some serverName, Some config =>
        lift (fun _ => MessageData ("Server " ++ serverName ++ " restarted successfully"))
             (ManagerRest.restartServer (on_restart env) serverName config manager)
    | _, _ =>
        (manager, Rejected (Error_ "serverName and config are required for restart action"))
    end
  else if String.eqb action "status" then
    match given (req_serverName req) with
    | Some serverName =>
        let (m, status) := Manager.getServerStatus serverName manager in
        (m, Resolved (StatusData status))
    | None => (manager, Rejected (Error_ "serverName is required for status action"))
    end
  else if String.eqb action "list-status" then
    let (m, statuses) := Manager.getAllServerStatuses manager in
    (m, Resolved (StatusListData statuses))
  else if String.eqb action "list-tools" then
    match given (req_serverName req) with
    | Some serverName =>
        lift ToolsData (ManagerRest.listTools (on_listTools env) serverName manager)
    | None => lift ToolsData (ManagerRest.listAllTools (on_listAllTools env) manager)
    end
  else if String.eqb action "call-tool" then
    match given (req_serverName req), given (req_toolName req) with
    | Some serverName, Some toolName =>
        lift ToolResultData
             (Manager.callTool (on_callTool env) serverName toolName
                               (args_or_empty (req_args req)) (req_callId req) manager)
    | _, _ =>
        (manager,
         Rejected (Error_ "serverName and toolName are required for call-tool action"))
    end
  else (manager, Rejected (Error_ ("Unknown action: " ++ action))).

(** The handler: the new value of [mcpManager] and what [res.send]
    receives. *)
Definition handler (env : HandlerEnv) (req : MCPProcessRequest)
           (mcpManager : option MCPProcessManager)
  : option MCPProcessManager * MCPProcessResponse :=
  let (_, manager) := ensureMCPManager mcpManager in
  match dispatch env req manager with
  | (m, Resolved result) =>
      (Some m, {| out_success := true; out_data := Some result; out_error := None |})
  | (m, Rejected err) =>
      (Some m, {| out_success := false; out_data := None;
                  out_error := Some (String_ err) |})
  end.

(** The actions that name one server. *)
Definition needs_server (action : string) : bool :=
  String.eqb action "start" || String.eqb action "stop" || String.eqb action "restart"
  || String.eqb action "status" || String.eqb action "call-tool".

(** Sample inputs. *)
Definition request (action : string) (serverName : option string)
           (config : option MCPServerConfig) (toolName : option string)
  : MCPProcessRequest :=
  {| req_action := action; req_serverName := serverName; req_config := config;
     req_toolName := toolName; req_args := JsUndefined; req_callId := None |}.

(** A tool that answers with a result whose [success] is false. *)
Definition refusing_tool_env : CallEnv :=
  {| env_callTool := Resolved {| res_callId := None; res_success := false;
                                 res_result := None; res_error := None;
                                 res_duration := None |};
     now_call_started := 3000; now_call_settled := 3003 |}.

Definition say_request : MCPProcessRequest :=
  {| req_action := "call-tool"; req_serverName := Some "echo"; req_config := None;
     req_toolName := Some "say"; req_args := JsNull; req_callId := None |}.

Definition any_env (start : StartEnv) (call : CallEnv) : HandlerEnv :=
  {| on_start := start; on_stop := ManagerRestSpec.quiet_stop_env;
     on_restart := {| restart_stop := ManagerRestSpec.quiet_stop_env; restart_start := start |};
     on_listTools := Resolved []; on_listAllTools := fun _ => Resolved [];
     on_callTool := call |}.

End ProcessManagement.

(* ================================================================== *)
(** * Properties *)

(** ** Strings *)

Module JsStringFacts.
Import JsString.

Lemma append_nil_r (s : string) : (s ++ "")%string = s.
Proof. induction s as [|c s IH]; simpl; [reflexivity | now rewrite IH]. Qed.

(** A separator that occurs in neither left part splits a composed key
    in one way only. *)
Lemma sep_split_unique (c : ascii) (a b x y : string) :
  has_char c a = false -> has_char c b = false ->
  (a ++ String c x)%string = (b ++ String c y)%string -> a = b /\ x = y.
Proof.
  revert b; induction a as [|d a IH]; intros [|e b]; simpl; intros Ha Hb E.
  - inversion E; auto.
  - inversion E; subst e. now rewrite Ascii.eqb_refl in Hb.
  - inversion E; subst d. now rewrite Ascii.eqb_refl in Ha.
  - inversion E; subst e.
    destruct (Ascii.eqb d c); try discriminate.
    destruct (IH b Ha Hb H1) as [-> ->]; auto.
Qed.

Lemma String_nonempty (e : JsError) : String_ e <> "".
Proof.
  unfold String_. destruct e; simpl; destruct message; simpl; discriminate.
Qed.

End JsStringFacts.

(** ** Lists *)

Lemma filter_none (A : Type) (p : A -> bool) (l : list A) :
  (forall x, In x l -> p x = false) -> filter p l = [].
Proof.
  induction l as [|a l IH]; simpl; intros H; auto.
  rewrite (H a) by auto. apply IH. auto.
Qed.

(** ** Maps *)

Module JsMapFacts.
Section WithValue.
Variable V : Type.
Implicit Types (m : JsMap.t V) (k : string) (v : V).

Lemma get_set_same m k v : JsMap.get (JsMap.set m k v) k = Some v.
Proof.
  induction m as [|[k' v'] m IH]; simpl.
  - now rewrite String.eqb_refl.
  - destruct (String.eqb k' k) eqn:E; simpl.
    + now rewrite String.eqb_refl.
    + now rewrite E.
Qed.

Lemma get_set_other m k k' v :
  k <> k' -> JsMap.get (JsMap.set m k v) k' = JsMap.get m k'.
Proof.
  intros N. induction m as [|[k0 v0] m IH]; simpl.
  - destruct (String.eqb_spec k k'); [contradiction | reflexivity].
  - destruct (String.eqb_spec k0 k); simpl.
    + subst k0. destruct (String.eqb_spec k k'); [contradiction | reflexivity].
    + now rewrite IH.
Qed.

Lemma get_delete_same m k : JsMap.get (JsMap.delete m k) k = None.
Proof.
  induction m as [|[k0 v0] m IH]; simpl; auto.
  destruct (String.eqb_spec k0 k); simpl; auto.
  destruct (String.eqb_spec k0 k); [contradiction | auto].
Qed.

Lemma get_delete_other m k k' :
  k <> k' -> JsMap.get (JsMap.delete m k) k' = JsMap.get m k'.
Proof.
  intros N. induction m as [|[k0 v0] m IH]; simpl; auto.
  destruct (String.eqb_spec k0 k); simpl.
  - subst k0. destruct (String.eqb_spec k k'); [contradiction | auto].
  - now rewrite IH.
Qed.

Lemma In_delete m k k' v :
  In (k', v) (JsMap.delete m k) <-> k' <> k /\ In (k', v) m.
Proof.
  unfold JsMap.delete. rewrite filter_In. simpl.
  destruct (String.eqb_spec k' k); simpl; intuition congruence.
Qed.

Lemma In_keys m k : In k (JsMap.keys m) <-> exists v, In (k, v) m.
Proof.
  unfold JsMap.keys. rewrite in_map_iff. split.
  - intros [[k0 v0] [E H]]. simpl in E. subst. eauto.
  - intros [v H]. exists (k, v). auto.
Qed.

Lemma In_values m v : In v (JsMap.values m) <-> exists k, In (k, v) m.
Proof.
  unfold JsMap.values. rewrite in_map_iff. split.
  - intros [[k0 v0] [E H]]. simpl in E. subst. eauto.
  - intros [k H]. exists (k, v). auto.
Qed.

Lemma In_set_same m k v : In (k, v) (JsMap.set m k v).
Proof.
  induction m as [|[k0 v0] m IH]; simpl; auto.
  destruct (String.eqb k0 k); simpl; auto.
Qed.

Lemma In_set_old m k v k' v' :
  k' <> k -> In (k', v') m -> In (k', v') (JsMap.set m k v).
Proof.
  intros N. induction m as [|[k0 v0] m IH]; simpl; auto.
  intros [E | H].
  - inversion E; subst. destruct (String.eqb_spec k' k); [contradiction|now left].
  - destruct (String.eqb k0 k); simpl; auto.
Qed.

Lemma keys_set m k v :
  JsMap.keys (JsMap.set m k v) =
  if JsMap.has m k then JsMap.keys m else JsMap.keys m ++ [k].
Proof.
  unfold JsMap.has. induction m as [|[k0 v0] m IH]; simpl; auto.
  destruct (String.eqb_spec k0 k); simpl.
  - now subst.
  - rewrite IH. now destruct (JsMap.get m k).
Qed.

Lemma get_None_keys m k : JsMap.get m k = None <-> ~ In k (JsMap.keys m).
Proof.
  induction m as [|[k0 v0] m IH]; simpl.
  - tauto.
  - destruct (String.eqb_spec k0 k).
    + split; [discriminate | intros H; exfalso; apply H; auto].
    + rewrite IH. tauto.
Qed.

Lemma wf_set m k v : JsMap.wf m -> JsMap.wf (JsMap.set m k v).
Proof.
  unfold JsMap.wf. intros W. rewrite keys_set. unfold JsMap.has.
  destruct (JsMap.get m k) eqn:G; auto.
  apply get_None_keys in G.
  apply NoDup_rev in W. rewrite <- (rev_involutive (_ ++ _)).
  apply NoDup_rev. rewrite rev_app_distr. simpl. constructor; auto.
  now rewrite <- in_rev.
Qed.

Lemma wf_delete m k : JsMap.wf m -> JsMap.wf (JsMap.delete m k).
Proof.
  unfold JsMap.wf. induction m as [|[k0 v0] m IH]; simpl; auto.
  intros W. apply NoDup_cons_iff in W as [Hnin Hnd].
  destruct (String.eqb_spec k0 k); simpl; auto.
  constructor; auto.
  rewrite In_keys. intros [v H]. apply In_delete in H.
  apply Hnin. apply In_keys. exists v. tauto.
Qed.

Lemma get_In m k v : JsMap.wf m -> (JsMap.get m k = Some v <-> In (k, v) m).
Proof.
  unfold JsMap.wf. induction m as [|[k0 v0] m IH]; simpl; intros W.
  - split; [discriminate | tauto].
  - apply NoDup_cons_iff in W as [Hnin Hnd]. destruct (String.eqb_spec k0 k).
    + subst k0. split.
      * intros E; inversion E; auto.
      * intros [E | H]; [now inversion E|].
        exfalso. apply Hnin. apply In_keys. eauto.
    + rewrite (IH Hnd). split; auto.
      intros [E | H]; auto. inversion E; contradiction.
Qed.

Lemma In_set m k v k' v' :
  JsMap.wf m ->
  In (k', v') (JsMap.set m k v) <->
  (k' = k /\ v' = v) \/ (k' <> k /\ In (k', v') m).
Proof.
  intros W. split.
  - intros H. apply (get_In _ _ (wf_set k v W)) in H.
    destruct (String.eqb_spec k' k) as [->|N].
    + rewrite get_set_same in H. inversion H; auto.
    + rewrite get_set_other in H by congruence.
      right. split; auto. now apply get_In.
  - intros [[-> ->] | [N H]]; [apply In_set_same | now apply In_set_old].
Qed.

(** What survives a run of deletions. *)
Lemma In_fold_delete (A : Type) (f : A -> string) (l : list A) m k v :
  In (k, v) (fold_left (fun m x => JsMap.delete m (f x)) l m) <->
  In (k, v) m /\ forall x, In x l -> k <> f x.
Proof.
  revert m; induction l as [|x l IH]; intros m; simpl.
  - intuition.
  - rewrite IH, In_delete. split.
    + intros [[N H] F]. split; auto. intros y [<- | Hy]; auto.
    + intros [H F]. repeat split; auto.
Qed.

Lemma wf_fold_delete (A : Type) (f : A -> string) (l : list A) m :
  JsMap.wf m -> JsMap.wf (fold_left (fun m x => JsMap.delete m (f x)) l m).
Proof.
  revert m; induction l as [|x l IH]; intros m W; simpl; auto.
  apply IH. now apply wf_delete.
Qed.

(** In a map without repeated keys, a predicate that singles out the
    entry at [k] selects exactly its value. *)
Lemma filter_values_single m k v (p : V -> bool) :
  JsMap.wf m -> In (k, v) m ->
  (forall k' v', In (k', v') m -> p v' = true <-> k' = k) ->
  filter p (JsMap.values m) = [v].
Proof.
  unfold JsMap.wf. induction m as [|[k0 v0] m IH]; simpl; intros W H P.
  - contradiction.
  - apply NoDup_cons_iff in W as [Hnin Hnd]. destruct H as [E | H].
    + inversion E; subst k0 v0.
      assert (Hp : p v = true) by (apply (P k v); auto).
      rewrite Hp. f_equal.
      apply filter_none.
      intros x Hx. apply In_values in Hx. destruct Hx as [k' Hx].
      destruct (p x) eqn:Px; auto.
      exfalso. apply Hnin. apply In_keys. exists x.
      assert (k' = k) by (apply (P k' x); auto). now subst.
    + assert (N : k0 <> k).
      { intros ->. apply Hnin. apply In_keys. eauto. }
      destruct (p v0) eqn:Pv.
      * exfalso. apply N. apply (P k0 v0); auto.
      * apply IH; auto.
Qed.

End WithValue.
End JsMapFacts.

(** ** Tool registry *)

Module RegistryFacts.
Import Registry RegistrySpec.

Lemma findIndex_upsert (tool : MCPTool) (l : list MCPTool) :
  let i := findIndex (fun t => String.eqb (tool_name t) (tool_name tool)) l in
  (if (0 <=? i)%Z then array_assign l (Z.to_nat i) tool else l ++ [tool])
  = upsert tool l.
Proof.
  induction l as [|t l IH]; simpl; auto.
  destruct (String.eqb (tool_name t) (tool_name tool)); simpl; auto.
  simpl in IH.
  set (i := findIndex (fun t0 => String.eqb (tool_name t0) (tool_name tool)) l) in *.
  destruct (Z.ltb_spec i 0) as [Hneg | Hpos].
  - simpl. destruct (Z.leb_spec 0 i); [lia|]. now rewrite IH.
  - destruct (Z.leb_spec 0 i); [|lia].
    destruct (Z.leb_spec 0 (i + 1)); [|lia].
    replace (Z.to_nat (i + 1)) with (S (Z.to_nat i)) by lia.
    simpl. now rewrite IH.
Qed.

Lemma registerTool_eq (tool : MCPTool) (r : MCPToolRegistry) :
  registerTool tool r =
  {| tools := JsMap.set (tools r) (toolKey tool) tool;
     serverTools := JsMap.set (serverTools r) (groupName tool)
                      (upsert tool (getServerTools (groupName tool) r)) |}.
Proof.
  unfold registerTool, getServerTools. f_equal. f_equal.
  apply findIndex_upsert.
Qed.

Lemma In_upsert_self tool l : In tool (upsert tool l).
Proof.
  induction l as [|t l IH]; simpl; auto.
  destruct (String.eqb _ _); simpl; auto.
Qed.

Lemma In_upsert tool l t : In t (upsert tool l) -> t = tool \/ In t l.
Proof.
  induction l as [|a l IH]; simpl.
  - intuition.
  - destruct (String.eqb _ _); simpl; intuition.
Qed.

Lemma names_upsert tool l n :
  In n (List.map tool_name (upsert tool l)) <->
  n = tool_name tool \/ In n (List.map tool_name l).
Proof.
  induction l as [|a l IH]; simpl.
  - intuition.
  - destruct (String.eqb_spec (tool_name a) (tool_name tool)) as [E|N]; simpl.
    + rewrite E. intuition.
    + rewrite IH. intuition.
Qed.

Lemma NoDup_names_upsert tool l :
  NoDup (List.map tool_name l) -> NoDup (List.map tool_name (upsert tool l)).
Proof.
  induction l as [|a l IH]; simpl; intros H.
  - constructor; [intros [] | constructor].
  - apply NoDup_cons_iff in H as [Hnin Hnd].
    destruct (String.eqb_spec (tool_name a) (tool_name tool)) as [E|N]; simpl.
    + rewrite <- E. constructor; auto.
    + constructor; auto. rewrite names_upsert. intuition.
Qed.

Lemma getServerTools_In g l r :
  JsMap.wf (serverTools r) -> In (g, l) (serverTools r) -> getServerTools g r = l.
Proof.
  intros W H. unfold getServerTools.
  apply (JsMapFacts.get_In _ _ W) in H. now rewrite H.
Qed.

Lemma getServerTools_cases g r :
  (getServerTools g r = [] /\ JsMap.get (serverTools r) g = None) \/
  JsMap.get (serverTools r) g = Some (getServerTools g r).
Proof.
  unfold getServerTools. destruct (JsMap.get (serverTools r) g); auto.
Qed.

Lemma getServerTools_entry g r t :
  JsMap.wf (serverTools r) -> In t (getServerTools g r) ->
  In (g, getServerTools g r) (serverTools r).
Proof.
  intros W H. destruct (getServerTools_cases g r) as [[E _] | E].
  - rewrite E in H. contradiction.
  - now apply (JsMapFacts.get_In _ _ W).
Qed.

Lemma Inv_new : Inv new.
Proof. constructor; simpl; try (constructor); intros; contradiction. Qed.

Lemma Inv_registerTool tool r : Inv r -> Inv (registerTool tool r).
Proof.
  intros [Wt Wg K G N]. rewrite registerTool_eq.
  constructor; simpl.
  - now apply JsMapFacts.wf_set.
  - now apply JsMapFacts.wf_set.
  - intros k t H. apply JsMapFacts.In_set in H; auto.
    destruct H as [[-> ->] | [_ H]]; auto.
  - intros g l t H Ht. apply JsMapFacts.In_set in H; auto.
    destruct H as [[-> ->] | [_ H]]; [|eauto].
    apply In_upsert in Ht. destruct Ht as [-> | Ht]; auto.
    apply (G _ (getServerTools (groupName tool) r)); auto.
    eapply getServerTools_entry; eauto.
  - intros g l H. apply JsMapFacts.In_set in H; auto.
    destruct H as [[-> ->] | [_ H]]; [|eauto].
    apply NoDup_names_upsert.
    destruct (getServerTools_cases (groupName tool) r) as [[E _] | E].
    + rewrite E. constructor.
    + apply (N (groupName tool)). now apply JsMapFacts.get_In.
Qed.

Lemma Inv_clearServerTools s r : Inv r -> Inv (clearServerTools s r).
Proof.
  intros [Wt Wg K G N]. constructor; simpl.
  - now apply JsMapFacts.wf_fold_delete.
  - now apply JsMapFacts.wf_delete.
  - intros k t H. apply JsMapFacts.In_fold_delete in H. apply K, H.
  - intros g l t H. apply JsMapFacts.In_delete in H. apply G, H.
  - intros g l H. apply JsMapFacts.In_delete in H. eapply N, H.
Qed.

Lemma reachable_Inv r : reachable r -> Inv r.
Proof.
  induction 1; auto using Inv_new, Inv_registerTool, Inv_clearServerTools.
Qed.

Lemma reachable_named_reachable r : reachable_named r -> reachable r.
Proof. induction 1; constructor; auto. Qed.

End RegistryFacts.

Module RegistryNamed.
Import Registry RegistrySpec RegistryFacts.

Lemma well_named_group t :
  well_named t = true -> JsString.has_char ":" (groupName t) = false.
Proof.
  unfold well_named, groupName, or_default.
  destruct (tool_serverName t) as [[|c s]|]; intros H; try reflexivity.
  now apply negb_true_iff in H.
Qed.

Lemma owner_key t s :
  tool_serverName t = Some s -> toolKey t = (s ++ String ":" (tool_name t))%string.
Proof. unfold toolKey. now intros ->. Qed.

Lemma owner_group t s :
  tool_serverName t = Some s -> s <> "" -> groupName t = s.
Proof. unfold groupName. intros -> N. destruct s; [contradiction | reflexivity]. Qed.

Lemma InvNamed_new : InvNamed new.
Proof. constructor; simpl; intros; contradiction. Qed.

Lemma getServerTools_register tool r g :
  getServerTools g (registerTool tool r) =
  if String.eqb (groupName tool) g
  then upsert tool (getServerTools g r)
  else getServerTools g r.
Proof.
  rewrite registerTool_eq. unfold getServerTools at 1. simpl.
  destruct (String.eqb_spec (groupName tool) g) as [<-|Ne].
  - now rewrite JsMapFacts.get_set_same.
  - now rewrite JsMapFacts.get_set_other.
Qed.

Lemma InvNamed_registerTool tool r :
  well_named tool = true -> Inv r -> InvNamed r -> InvNamed (registerTool tool r).
Proof.
  intros Wn [Wt Wg K G N] [F O Gn].
  constructor.
  - intros k t H. rewrite registerTool_eq in H. simpl in H.
    apply JsMapFacts.In_set in H; auto.
    destruct H as [[-> ->] | [_ H]]; eauto.
  - intros k t s H Hs Ns. rewrite getServerTools_register.
    rewrite registerTool_eq in H. simpl in H.
    apply JsMapFacts.In_set in H; auto.
    destruct H as [[-> ->] | [_ H]].
    + rewrite (owner_group _ Hs Ns), String.eqb_refl.
      apply names_upsert. now left.
    + pose proof (O k t s H Hs Ns) as Hn.
      destruct (String.eqb (groupName tool) s); auto.
      apply names_upsert. right. exact Hn.
  - intros g l t H Ht. rewrite registerTool_eq in H. simpl in H.
    apply JsMapFacts.In_set in H; auto.
    destruct H as [[-> ->] | [_ H]]; [|eauto].
    apply In_upsert in Ht. destruct Ht as [-> | Ht]; auto.
    apply (Gn (groupName tool) (getServerTools (groupName tool) r)); auto.
    eapply getServerTools_entry; eauto.
Qed.

Lemma getServerTools_clear_other s g r :
  g <> s -> getServerTools g (clearServerTools s r) = getServerTools g r.
Proof.
  intros Ne. unfold getServerTools at 1. simpl.
  rewrite JsMapFacts.get_delete_other by congruence. reflexivity.
Qed.

Lemma getServerTools_clear_same s r : getServerTools s (clearServerTools s r) = [].
Proof.
  unfold getServerTools at 1. simpl. now rewrite JsMapFacts.get_delete_same.
Qed.

(** The flat entry of a tool owned by a non-empty server name is deleted
    by clearing that server. *)
Lemma named_entry_cleared s r k t :
  Inv r -> InvNamed r -> tool_serverName t = Some s -> s <> "" ->
  In (k, t) (tools (clearServerTools s r)) -> False.
Proof.
  intros I IN Hs Ns H. simpl in H.
  apply JsMapFacts.In_fold_delete in H as [H Hk].
  pose proof (named_owner IN k t H Hs Ns) as Hn.
  apply in_map_iff in Hn as (x & Hx & Hin).
  apply (Hk x Hin). rewrite (inv_keys I k t H), (owner_key _ Hs), Hx. reflexivity.
Qed.

Lemma InvNamed_clearServerTools s r :
  Inv r -> InvNamed r -> InvNamed (clearServerTools s r).
Proof.
  intros I IN. constructor.
  - intros k t H. simpl in H. apply JsMapFacts.In_fold_delete in H as [H _].
    exact (named_flat IN k t H).
  - intros k t s0 H Hs Ns.
    destruct (String.eqb_spec s0 s) as [->|Ne].
    + exfalso. exact (@named_entry_cleared s r k t I IN Hs Ns H).
    + rewrite getServerTools_clear_other by auto.
      simpl in H. apply JsMapFacts.In_fold_delete in H as [H _].
      exact (named_owner IN k t H Hs Ns).
  - intros g l t H. simpl in H. apply JsMapFacts.In_delete in H as [_ H].
    exact (named_groups IN g l t H).
Qed.

Lemma reachable_named_InvNamed r : reachable_named r -> InvNamed r.
Proof.
  induction 1 as [|tool r Wn H IH|s r H IH|r H IH].
  - apply InvNamed_new.
  - apply InvNamed_registerTool; auto.
    apply reachable_Inv, reachable_named_reachable, H.
  - apply InvNamed_clearServerTools; auto.
    apply reachable_Inv, reachable_named_reachable, H.
  - apply InvNamed_new.
Qed.

End RegistryNamed.

(** ** Claims about the tool registry *)

Module RegistryClaims.
Import Registry RegistrySpec RegistryFacts RegistryNamed.

(** C7: the code does not do what the specification asks.  [registerTool] keys
    the flat map with [`${tool.serverName}:${tool.name}`] and names the
    group [tool.serverName || 'unknown'], so a tool owned by the server
    named by the empty string has the flat key ":x" and is grouped under
    'unknown'.  After [registerTool] of such a tool on the empty
    registry, [clearServerTools('')] finds no group and deletes nothing:
    the tool owned by [''] is still in [getAllTools()], and still listed
    by [getServerTools('unknown')]. *)
Theorem clear_frame_fails_blank_owner :
  reachable (registerTool blank_owner_tool new) /\
  tool_serverName blank_owner_tool = Some "" /\
  JsMap.keys (tools (registerTool blank_owner_tool new)) = [":x"] /\
  JsMap.keys (serverTools (registerTool blank_owner_tool new)) = ["unknown"] /\
  getAllTools (clearServerTools "" (registerTool blank_owner_tool new))
    = [blank_owner_tool] /\
  getServerTools "unknown" (clearServerTools "" (registerTool blank_owner_tool new))
    = [blank_owner_tool] /\
  ~ clear_frame "" (registerTool blank_owner_tool new).
Proof.
  split; [repeat constructor|].
  do 5 (split; [reflexivity|]).
  intros [H _]. destruct (H blank_owner_tool eq_refl) as [H1 _].
  apply H1. vm_compute. auto.
Qed.

(** The same two lines of [registerTool] join the parts of the flat key
    without escaping.  When a server name contains [":"], the keys
    "a:b" + ":" + "c" and "a" + ":" + "b:c" coincide, and clearing "a:b"
    deletes the tool owned by "a". *)
Lemma clear_frame_fails_colon :
  reachable colon_registry /\ ~ clear_frame "a:b" colon_registry.
Proof.
  split.
  - repeat constructor.
  - intros [_ H].
    destruct (H (mk_tool "b:c" None (Some "a")) "a" eq_refl) as [[_ H1] _].
    + discriminate.
    + apply H1. vm_compute. auto.
Qed.

(** And a tool without owner has the flat key "undefined:<name>", the
    key of the tool of that name owned by a server called "undefined":
    registered after it, the tool without owner takes its place in the
    flat map, and [clearServerTools('undefined')] deletes it from
    [getAllTools()], while [getServerTools('unknown')] still lists it. *)
Lemma clear_undefined_deletes_unowned :
  reachable undefined_registry /\
  getAllTools undefined_registry = [mk_tool "x" None None] /\
  getServerTools "undefined" undefined_registry = [mk_tool "x" None (Some "undefined")] /\
  getAllTools (clearServerTools "undefined" undefined_registry) = [] /\
  getServerTools "unknown" (clearServerTools "undefined" undefined_registry)
    = [mk_tool "x" None None].
Proof.
  split; [repeat constructor|]. repeat split.
Qed.

(** Where the two lines agree, [clearServerTools] does what is asked of
    it: in every registry state built by registering tools whose owner,
    when given, is a server name without ":", and for every non-empty
    server name [s], after [clearServerTools(s)] every tool owned by [s]
    is absent from [getAllTools()] and from [getServerTools(s)], and
    every tool owned by another server is unchanged in [getAllTools()]
    and in its own [getServerTools] result. *)
Lemma clearServerTools_frame_named (s : string) (r : MCPToolRegistry) :
  reachable_named r -> s <> "" -> clear_frame s r.
Proof.
  intros H Ns.
  pose proof (reachable_Inv (reachable_named_reachable H)) as I.
  pose proof (reachable_named_InvNamed H) as IN.
  unfold clear_frame. split.
  - intros t Ht. split.
    + unfold getAllTools. rewrite JsMapFacts.In_values. intros [k Hk].
      exact (@named_entry_cleared s r k t I IN Ht Ns Hk).
    + rewrite getServerTools_clear_same. intros [].
  - intros t s' Ht Ne. split; [|now apply getServerTools_clear_other].
    unfold getAllTools. rewrite !JsMapFacts.In_values.
    split; intros [k Hk]; exists k.
    + simpl in Hk. now apply JsMapFacts.In_fold_delete in Hk.
    + simpl. apply JsMapFacts.In_fold_delete. split; auto.
      intros x Hx E.
      pose proof (named_flat IN k t Hk) as Wn.
      assert (Hc0 : JsString.has_char ":" s' = false).
      { unfold well_named in Wn. rewrite Ht in Wn. now apply negb_true_iff in Wn. }
      pose proof (getServerTools_entry s r x (inv_groups_wf I) Hx) as He.
      pose proof (well_named_group x (named_groups IN _ _ x He Hx)) as Hc1.
      rewrite (inv_groups I _ _ x He Hx) in Hc1.
      rewrite (inv_keys I k t Hk), (owner_key _ Ht) in E.
      apply (JsStringFacts.sep_split_unique ":" _ _ _ _ Hc0 Hc1) in E.
      apply Ne, E.
Qed.

Lemma clearServerTools_frame_named_witness :
  reachable_named three_tools /\ clear_frame "server1" three_tools.
Proof.
  assert (R : reachable_named three_tools).
  { unfold three_tools. repeat (apply named_register; [reflexivity|]).
    apply named_new. }
  split; [exact R|].
  apply (clearServerTools_frame_named R). discriminate.
Defined.

(** With the empty string for [s] nothing is deleted at all: no group is
    ever named by the empty string. *)
Lemma clearServerTools_blank (r : MCPToolRegistry) :
  reachable r -> getAllTools (clearServerTools "" r) = getAllTools r.
Proof.
  intros H. pose proof (reachable_Inv H) as I.
  assert (E : getServerTools "" r = []).
  { destruct (getServerTools "" r) as [|x l] eqn:G; auto.
    assert (Hx : In x (getServerTools "" r)) by (rewrite G; now left).
    pose proof (getServerTools_entry "" r x (inv_groups_wf I) Hx) as He.
    pose proof (inv_groups I _ _ x He Hx) as Hg.
    unfold groupName, or_default in Hg.
    destruct (tool_serverName x) as [[|c s]|]; discriminate. }
  unfold getAllTools, clearServerTools. simpl. now rewrite E.
Qed.

Lemma filter_same_name_single (t : MCPTool) (l : list MCPTool) :
  NoDup (List.map tool_name l) -> In t l -> filter (same_name t) l = [t].
Proof.
  unfold same_name. induction l as [|a l IH]; simpl; intros N H; [contradiction|].
  apply NoDup_cons_iff in N as [Hnin Hnd]. destruct H as [-> | H].
  - rewrite String.eqb_refl. f_equal. apply filter_none.
    intros x Hx. apply String.eqb_neq. intros E. apply Hnin.
    rewrite E. now apply in_map.
  - destruct (String.eqb_spec (tool_name t) (tool_name a)) as [E|Ne]; auto.
    exfalso. apply Hnin. rewrite <- E. now apply in_map.
Qed.

Lemma same_key_toolKey (a b : MCPTool) : same_key a b = true -> toolKey a = toolKey b.
Proof.
  unfold same_key, toolKey, opt_string_eqb. intros H.
  apply andb_true_iff in H as [H1 H2]. apply String.eqb_eq in H2. rewrite H2.
  destruct (tool_serverName a), (tool_serverName b); try discriminate; auto.
  apply String.eqb_eq in H1. now subst.
Qed.

Lemma same_key_refl (a : MCPTool) : same_key a a = true.
Proof.
  unfold same_key, opt_string_eqb. rewrite String.eqb_refl.
  destruct (tool_serverName a); auto. now rewrite String.eqb_refl.
Qed.

(** After [registerTool(t)] on a reachable registry, [t] is the one
    stored tool with its key, in the flat map and in its group. *)
Lemma registerTool_single (t : MCPTool) (r : MCPToolRegistry) :
  reachable r ->
  let r' := registerTool t r in
  JsMap.get (tools r') (toolKey t) = Some t /\
  filter (same_key t) (getAllTools r') = [t] /\
  filter (same_name t) (getServerTools (groupName t) r') = [t].
Proof.
  intros H r'.
  assert (I : Inv r') by (apply reachable_Inv; now constructor).
  assert (E : In (toolKey t, t) (tools r')).
  { subst r'. rewrite registerTool_eq. simpl. apply JsMapFacts.In_set_same. }
  assert (G : getServerTools (groupName t) r' = upsert t (getServerTools (groupName t) r)).
  { subst r'. rewrite registerTool_eq. unfold getServerTools at 1. simpl.
    now rewrite JsMapFacts.get_set_same. }
  split; [|split].
  - apply JsMapFacts.get_In; [apply I | exact E].
  - apply JsMapFacts.filter_values_single with (k := toolKey t);
      [apply I | exact E |].
    intros k' v' H'. split.
    + intros Hs. rewrite (inv_keys I _ _ H'). symmetry. now apply same_key_toolKey.
    + intros ->.
      apply (JsMapFacts.get_In _ _ (inv_tools_wf I)) in H', E.
      rewrite E in H'. inversion H'; subst. apply same_key_refl.
  - apply filter_same_name_single.
    + apply (inv_names I (groupName t)).
      apply getServerTools_entry with (t := t); [apply I|].
      rewrite G. apply In_upsert_self.
    + rewrite G. apply In_upsert_self.
Qed.

(** C8: registering [t1] and then [t2] with the same (serverName, name)
    and another description leaves exactly one stored tool with that
    key, in the flat map and in the per-server group, and it is [t2]
    (so it carries the latest description); [t1] is stored nowhere. *)
Theorem registerTool_twice_keeps_latest (r : MCPToolRegistry) (t1 t2 : MCPTool) :
  reachable r ->
  tool_serverName t1 = tool_serverName t2 ->
  tool_name t1 = tool_name t2 ->
  tool_description t1 <> tool_description t2 ->
  let r' := registerTool t2 (registerTool t1 r) in
  JsMap.get (tools r') (toolKey t2) = Some t2 /\
  filter (same_key t2) (getAllTools r') = [t2] /\
  filter (same_name t2) (getServerTools (groupName t2) r') = [t2] /\
  ~ In t1 (getAllTools r') /\
  ~ In t1 (getServerTools (groupName t2) r').
Proof.
  intros H Es En Ed r'.
  assert (H1 : reachable (registerTool t1 r)) by now constructor.
  destruct (registerTool_single t2 H1) as (A & B & C).
  fold r' in A, B, C.
  assert (Ne : t1 <> t2) by (intros ->; now apply Ed).
  repeat split; auto.
  - intros Hin.
    assert (Hf : In t1 (filter (same_key t2) (getAllTools r'))).
    { apply filter_In. split; auto. unfold same_key, opt_string_eqb.
      rewrite Es, En, String.eqb_refl.
      destruct (tool_serverName t2); auto. now rewrite String.eqb_refl. }
    rewrite B in Hf. destruct Hf as [Hf | []]. now apply Ne.
  - intros Hin.
    assert (Hf : In t1 (filter (same_name t2) (getServerTools (groupName t2) r'))).
    { apply filter_In. split; auto. unfold same_name.
      now rewrite En, String.eqb_refl. }
    rewrite C in Hf. destruct Hf as [Hf | []]. now apply Ne.
Qed.

Lemma registerTool_twice_keeps_latest_witness :
  let t1 := mk_tool "echo" (Some "first") (Some "test-server") in
  let t2 := mk_tool "echo" (Some "second") (Some "test-server") in
  let r' := registerTool t2 (registerTool t1 new) in
  filter (same_key t2) (getAllTools r') = [t2] /\
  filter (same_name t2) (getServerTools "test-server" r') = [t2].
Proof.
  intros t1 t2 r'.
  destruct (@registerTool_twice_keeps_latest new t1 t2)
    as (_ & B & C & _); [apply reach_new | reflexivity | reflexivity | discriminate |].
  split; [exact B | exact C].
Defined.

(** C10: a tool registered without [serverName] is stored in the flat
    map under the key "undefined:<name>" and in the group 'unknown';
    [clearServerTools('unknown')] then empties [getServerTools('unknown')]
    while the tool is still in [getAllTools()]. *)
Theorem unowned_tool_survives_clear_unknown (r : MCPToolRegistry) (t : MCPTool) :
  tool_serverName t = None ->
  let r1 := registerTool t r in
  JsMap.get (tools r1) ("undefined:" ++ tool_name t)%string = Some t /\
  In t (getServerTools "unknown" r1) /\
  let r2 := clearServerTools "unknown" r1 in
  getServerTools "unknown" r2 = [] /\
  ~ In t (getServerTools "unknown" r2) /\
  In t (getAllTools r2).
Proof.
  intros Hs r1.
  assert (Hk : toolKey t = ("undefined:" ++ tool_name t)%string).
  { unfold toolKey. now rewrite Hs. }
  assert (Hg : groupName t = "unknown").
  { unfold groupName. now rewrite Hs. }
  assert (E1 : tools r1 = JsMap.set (tools r) (toolKey t) t).
  { subst r1. now rewrite registerTool_eq. }
  assert (E2 : getServerTools "unknown" r1 = upsert t (getServerTools "unknown" r)).
  { subst r1. rewrite registerTool_eq, Hg. unfold getServerTools at 1. simpl.
    now rewrite JsMapFacts.get_set_same. }
  split; [|split].
  - rewrite E1, <- Hk. apply JsMapFacts.get_set_same.
  - rewrite E2. apply In_upsert_self.
  - intros r2. subst r2. rewrite getServerTools_clear_same. repeat split; auto.
    unfold getAllTools. apply JsMapFacts.In_values. exists (toolKey t).
    unfold clearServerTools. cbn [tools].
    apply JsMapFacts.In_fold_delete. split.
    + rewrite E1. apply JsMapFacts.In_set_same.
    + intros x _. rewrite Hk. simpl. discriminate.
Qed.

Lemma unowned_tool_survives_clear_unknown_witness :
  let t := mk_tool "orphan" None None in
  getServerTools "unknown" (clearServerTools "unknown" (registerTool t new)) = [] /\
  In t (getAllTools (clearServerTools "unknown" (registerTool t new))).
Proof.
  intros t.
  destruct (@unowned_tool_survives_clear_unknown new t eq_refl) as (_ & _ & H).
  destruct H as (A & _ & B). split; [exact A | exact B].
Defined.

End RegistryClaims.

Module CategoryFacts.
Import Registry RegistrySpec.

Lemma categorize_is_key (n : string) : In (categorizeToolByName n) category_names.
Proof.
  unfold categorizeToolByName, category_names.
  repeat match goal with
         | |- context [if ?b then _ else _] => destruct b
         end; simpl; auto 10.
Qed.

Lemma push_category_keys (f : string -> list MCPTool) (c : string) (t : MCPTool) :
  In c category_names ->
  push_category (List.map (fun k => (k, f k)) category_names) c t =
  List.map (fun k => (k, if String.eqb c k then f k ++ [t] else f k)) category_names.
Proof.
  simpl. intros [<-|[<-|[<-|[<-|[<-|[]]]]]]; reflexivity.
Qed.

Lemma fold_push_category (ts : list MCPTool) : forall f : string -> list MCPTool,
  fold_left
    (fun categories tool =>
       push_category categories (categorizeToolByName (tool_name tool)) tool)
    ts (List.map (fun k => (k, f k)) category_names) =
  List.map (fun k => (k, f k ++ bucket k ts)) category_names.
Proof.
  induction ts as [|t ts IH]; intros f; cbn [fold_left].
  - apply map_ext. intros k. unfold bucket. simpl. now rewrite app_nil_r.
  - rewrite push_category_keys by apply categorize_is_key.
    rewrite IH. apply map_ext. intros k. unfold bucket. cbn [filter].
    destruct (String.eqb (categorizeToolByName (tool_name t)) k);
      [rewrite <- app_assoc|]; reflexivity.
Qed.

(** Each bucket holds, in registration order, the tools whose name is
    categorised to its key. *)
Lemma getToolsByCategory_eq (r : MCPToolRegistry) :
  getToolsByCategory r =
  List.map (fun k => (k, bucket k (getAllTools r))) category_names.
Proof.
  unfold getToolsByCategory.
  change empty_categories
    with (List.map (fun k : string => (k, @nil MCPTool)) category_names).
  now rewrite fold_push_category.
Qed.

Lemma bucket_length_names (c : string) (ts : list MCPTool) :
  List.length (bucket c ts) =
  List.length (filter (fun n => String.eqb (categorizeToolByName n) c)
                      (List.map tool_name ts)).
Proof.
  unfold bucket. induction ts as [|t ts IH]; cbn [filter List.map]; auto.
  destruct (String.eqb _ c); simpl; auto.
Qed.

Lemma Permutation_filter_length (A : Type) (p : A -> bool) (l l' : list A) :
  Permutation l l' -> List.length (filter p l) = List.length (filter p l').
Proof.
  induction 1 as [|x l l' _ IH|x y l|l l' l'' _ IH1 _ IH2]; simpl; auto.
  - destruct (p x); simpl; auto.
  - destruct (p x), (p y); reflexivity.
  - congruence.
Qed.

End CategoryFacts.

Module CategoryClaims.
Import Registry RegistrySpec CategoryFacts.

(** C9: the category of a tool is a function of its name with values in
    {filesystem, network, data, system, other}; a registered tool sits in
    exactly the bucket named by the category of its name; and when the
    registered tools are named file-read, http-get, json-parse,
    system-info and mystery-tool (in any order, under any owners), the
    bucket sizes are filesystem 1, network 1, data 1, system 1, other 1. *)
Theorem categorize_buckets :
  (forall n, In (categorizeToolByName n) category_names) /\
  (forall r t c l, In t (getAllTools r) -> In (c, l) (getToolsByCategory r) ->
     (In t l <-> c = categorizeToolByName (tool_name t))) /\
  (forall r, Permutation (List.map tool_name (getAllTools r)) sample_names ->
     bucket_sizes (getToolsByCategory r) =
     [("filesystem", 1); ("network", 1); ("data", 1); ("system", 1); ("other", 1)]).
Proof.
  split; [exact categorize_is_key | split].
  - intros r t c l Ht Hc. rewrite getToolsByCategory_eq in Hc.
    apply in_map_iff in Hc as (k & E & _). inversion E; subst c l.
    unfold bucket. rewrite filter_In, String.eqb_eq. intuition.
  - intros r H. rewrite getToolsByCategory_eq. unfold bucket_sizes.
    rewrite map_map. cbn [List.map category_names fst snd].
    rewrite !bucket_length_names.
    rewrite !(Permutation_filter_length _ H).
    vm_compute. reflexivity.
Qed.

Lemma categorize_buckets_witness :
  bucket_sizes (getToolsByCategory five_tools) =
  [("filesystem", 1); ("network", 1); ("data", 1); ("system", 1); ("other", 1)].
Proof.
  destruct categorize_buckets as (_ & _ & H).
  apply (H five_tools). vm_compute. apply Permutation_refl.
Defined.

End CategoryClaims.


(** ** Protocol clients and process manager *)

Module ManagerFacts.
Import Manager ManagerSpec ManagerRest ManagerRestSpec.

Lemma status_of_update_same name p m :
  status_of name (updateServerStatus name p m) = spread (status_of name m) p.
Proof.
  unfold status_of, getServerStatus, updateServerStatus. simpl.
  now rewrite JsMapFacts.get_set_same.
Qed.

Lemma status_of_update_other name n p m :
  n <> name -> status_of n (updateServerStatus name p m) = status_of n m.
Proof.
  intros Ne. unfold status_of, getServerStatus, updateServerStatus. simpl.
  rewrite JsMapFacts.get_set_other; auto.
Qed.

Lemma notify_eq ls ev m :
  notify ls ev m =
  {| clients := clients m; serverStatuses := serverStatuses m;
     eventListeners := eventListeners m; allocated := allocated m;
     history := history m ++ deliveries ls ev |}.
Proof.
  unfold notify, deliveries. revert m.
  induction ls as [|l ls IH]; intros m; simpl.
  - rewrite app_nil_r. now destruct m.
  - rewrite IH. simpl. now rewrite <- app_assoc.
Qed.

Lemma emitEvent_eq type name data now m :
  emitEvent type name data now m =
  {| clients := clients m; serverStatuses := serverStatuses m;
     eventListeners := eventListeners m; allocated := allocated m;
     history := history m ++ emit_actions m type name data now |}.
Proof.
  unfold emitEvent, emit_actions. rewrite !notify_eq. simpl.
  unfold listeners_of. simpl. now rewrite <- !app_assoc.
Qed.

Lemma status_of_emit n type name data now m :
  status_of n (emitEvent type name data now m) = status_of n m.
Proof. now rewrite emitEvent_eq. Qed.

Lemma emitted_app h1 h2 : emitted (h1 ++ h2) = emitted h1 ++ emitted h2.
Proof.
  induction h1 as [|a h1 IH]; simpl; auto.
  destruct a; simpl; auto. now rewrite IH.
Qed.

Lemma emitted_deliveries ls ev : emitted (deliveries ls ev) = [].
Proof. induction ls; simpl; auto. Qed.

Lemma emitted_emit_actions m type name data now :
  emitted (emit_actions m type name data now) =
  [{| ev_type := type; ev_serverName := name;
      ev_timestamp := now; ev_data := data |}].
Proof.
  unfold emit_actions. simpl. now rewrite emitted_app, !emitted_deliveries.
Qed.

(** A failure in any phase of [startServer] is handled by its [catch]
    block; [m1] is the manager as the failing phase has left it. *)
Lemma startServer_with_failed log env name config m cause :
  start_failure log env name = Some cause ->
  exists m1,
    startServer_with log env name config m =
    (emitEvent server_error name (ErrorData (String_ cause)) (now_error_event env)
       (updateServerStatus name (error_update name (String_ cause)) m1),
     Rejected (MCPError (start_error_message name cause)
                 MCP_ERROR_CODES.SERVER_START_FAILED (Some name) (Some cause))).
Proof.
  unfold start_failure, startServer_with.
  destruct (log _) as [[]|e0]; [|intros [= <-]; eexists; reflexivity].
  cbn [new_client].
  destruct (env_connect env) as [[]|e1]; [|intros [= <-]; eexists; reflexivity].
  cbv zeta.
  destruct (log _) as [[]|e2]; [discriminate|intros [= <-]; eexists; reflexivity].
Qed.

Lemma startServer_with_passed log env name config m :
  start_failure log env name = None ->
  snd (startServer_with log env name config m) = Resolved tt.
Proof.
  unfold start_failure, startServer_with.
  destruct (log _) as [[]|e0]; [|discriminate].
  cbn [new_client].
  destruct (env_connect env) as [[]|e1]; [|discriminate].
  cbv zeta.
  destruct (log _) as [[]|e2]; [reflexivity|discriminate].
Qed.

(** With the [Logger] of the sources the first statement of the [try]
    block throws. *)
Lemma startServer_eq env name config m :
  startServer env name config m =
  (emitEvent server_error name (ErrorData (String_ Logger.thrown)) (now_error_event env)
     (updateServerStatus name (error_update name (String_ Logger.thrown)) m),
   Rejected (MCPError (start_error_message name Logger.thrown)
               MCP_ERROR_CODES.SERVER_START_FAILED (Some name) (Some Logger.thrown))).
Proof. reflexivity. Qed.

Lemma stopServer_eq env name m :
  stopServer env name m =
  (updateServerStatus name (error_update name (String_ Logger.thrown)) m,
   Rejected (MCPError (stop_error_message name Logger.thrown)
               MCP_ERROR_CODES.SERVER_START_FAILED (Some name) (Some Logger.thrown))).
Proof. reflexivity. Qed.

Lemma restartServer_eq env name config m :
  restartServer env name config m = (m, Rejected Logger.thrown).
Proof. reflexivity. Qed.

Lemma stopAllServers_eq env m interval :
  stopAllServers env (m, interval) = ((m, interval), Rejected Logger.thrown).
Proof. reflexivity. Qed.

End ManagerFacts.

Module ManagerClaims.
Import Manager ManagerSpec ManagerRest ManagerRestSpec ManagerFacts.




(** C4: whenever a call of [startServer] fails, in whatever phase
    ([Logger.log] at the start, [connect], [Logger.log] at the end; the
    failures of [getServerInfo] and [listTools] are replaced by
    defaults), both effects occur: the stored status of the server is
    'error', not 'starting', with the non-empty text [String(error)] as
    its [error] (and a 'server_error' event has been emitted), and the
    call rejects, with an [MCPError] of code SERVER_START_FAILED that
    wraps the cause; a call in which no phase fails resolves.  With the
    [Logger] of the sources every call fails in the first phase, the
    cause being the [TypeError] of [Logger.log]. *)
Theorem startServer_failure_reported env name config m :
  (forall log cause,
     start_failure log env name = Some cause ->
     let r := startServer_with log env name config m in
     st_status (status_of name (fst r)) = error /\
     st_status (status_of name (fst r)) <> starting /\
     st_error (status_of name (fst r)) = Some (String_ cause) /\
     String_ cause <> "" /\
     snd r = Rejected (MCPError (start_error_message name cause)
                         MCP_ERROR_CODES.SERVER_START_FAILED (Some name) (Some cause)) /\
     In {| ev_type := server_error; ev_serverName := name;
           ev_timestamp := now_error_event env;
           ev_data := ErrorData (String_ cause) |}
        (emitted (history (fst r)))) /\
  (forall log,
     start_failure log env name = None ->
     snd (startServer_with log env name config m) = Resolved tt) /\
  start_failure Logger.log env name = Some Logger.thrown /\
  snd (startServer env name config m) =
    Rejected (MCPError (start_error_message name Logger.thrown)
                MCP_ERROR_CODES.SERVER_START_FAILED (Some name) (Some Logger.thrown)) /\
  st_status (status_of name (fst (startServer env name config m))) = error /\
  st_error (status_of name (fst (startServer env name config m))) =
    Some "TypeError: Cannot read properties of undefined (reading 'padEnd')".
Proof.
  split; [|split; [|split; [|split; [|split]]]].
  - intros log cause H r. subst r.
    destruct (startServer_with_failed log env name config m H) as (m1 & E).
    rewrite E. cbn [fst snd].
    rewrite status_of_emit, status_of_update_same. cbn -[String_ emit_actions].
    split; [reflexivity|]. split; [discriminate|]. split; [reflexivity|].
    split; [apply JsStringFacts.String_nonempty|]. split; [reflexivity|].
    rewrite emitEvent_eq. cbn [history].
    rewrite emitted_app, emitted_emit_actions.
    apply in_or_app. right. left. reflexivity.
  - intros log H. now apply startServer_with_passed.
  - reflexivity.
  - reflexivity.
  - rewrite startServer_eq. cbn [fst].
    rewrite status_of_emit, status_of_update_same. reflexivity.
  - rewrite startServer_eq. cbn [fst].
    rewrite status_of_emit, status_of_update_same. reflexivity.
Qed.

Lemma startServer_failure_reported_witness :
  st_status (status_of "invalid-server"
    (fst (startServer (placeholder_env "invalid-server" 10 11 12 13)
            "invalid-server" invalid_config Manager.new))) = error /\
  exists e,
    snd (startServer (placeholder_env "invalid-server" 10 11 12 13)
           "invalid-server" invalid_config Manager.new) = Rejected e.
Proof.
  destruct (@startServer_failure_reported
              (placeholder_env "invalid-server" 10 11 12 13)
              "invalid-server" invalid_config Manager.new) as (H & _ & F & _).
  destruct (H Logger.log _ F) as (S & _ & _ & _ & R & _).
  split; [exact S | eexists; exact R].
Defined.

(** C5: for a server with a client in the map, [callTool] emits
    'tool_call_started' before it calls the client, and after the client
    has answered it emits exactly one more event: 'tool_call_completed'
    when the client resolved, 'tool_call_failed' when it rejected; the
    caller gets the client's outcome. *)
Theorem callTool_events env name toolName args callId m c :
  JsMap.get (clients m) name = Some c ->
  let toolCall := {| call_toolName := toolName; call_args := args;
                     call_serverName := name; call_callId := callId |} in
  let before :=
    emit_actions m tool_call_started name (CallStartedData toolCall)
                 (now_call_started env) in
  let dispatch := ActCall (client_id c) (m_callTool toolCall) in
  let after :=
    emit_actions m (terminal_type (env_callTool env)) name
                 (terminal_data toolCall (env_callTool env))
                 (now_call_settled env) in
  callTool_begin env name toolName args callId m =
    ({| clients := clients m; serverStatuses := serverStatuses m;
        eventListeners := eventListeners m; allocated := allocated m;
        history := history m ++ before ++ [dispatch] |},
     Resolved (c, toolCall)) /\
  history (fst (callTool env name toolName args callId m)) =
    history m ++ before ++ [dispatch] ++ after /\
  List.map ev_type (emitted before) = [tool_call_started] /\
  List.map ev_type (emitted (before ++ [dispatch] ++ after)) =
    [tool_call_started; terminal_type (env_callTool env)] /\
  snd (callTool env name toolName args callId m) = env_callTool env.
Proof.
  intros Hc toolCall before dispatch after.
  assert (B : callTool_begin env name toolName args callId m =
    ({| clients := clients m; serverStatuses := serverStatuses m;
        eventListeners := eventListeners m; allocated := allocated m;
        history := history m ++ before ++ [dispatch] |},
     Resolved (c, toolCall))).
  { unfold callTool_begin. rewrite Hc, emitEvent_eq. unfold record. simpl.
    now rewrite <- app_assoc. }
  assert (E3 : List.map ev_type (emitted before) = [tool_call_started]).
  { subst before. now rewrite emitted_emit_actions. }
  assert (E4 : List.map ev_type (emitted (before ++ [dispatch] ++ after)) =
               [tool_call_started; terminal_type (env_callTool env)]).
  { subst before dispatch after.
    rewrite !emitted_app, !emitted_emit_actions. reflexivity. }
  split; [exact B|]. split; [|split; [exact E3|split; [exact E4|]]].
  - unfold callTool. rewrite B. subst after.
    destruct (env_callTool env) as [result|err]; rewrite emitEvent_eq;
      cbn [fst history]; rewrite <- !app_assoc; reflexivity.
  - unfold callTool. rewrite B.
    destruct (env_callTool env) as [result|err]; reflexivity.
Qed.

Lemma callTool_events_witness :
  List.map ev_type
    (emitted (history (fst (callTool call_ok_env "echo" "echo" (JsStr "hi")
                              (Some "call-1") echo_running)))) =
  [server_started; tool_call_started; tool_call_completed].
Proof.
  destruct (@callTool_events call_ok_env "echo" "echo" (JsStr "hi") (Some "call-1")
              echo_running
              {| client_id := 0; client_serverName := "echo";
                 client_config := echo_config |} eq_refl) as (_ & H & _).
  rewrite H. vm_compute. reflexivity.
Defined.

(** C6: for a server name without a status entry, [getServerStatus]
    returns the status [{name, status: 'stopped'}] and leaves the manager
    as it was; in particular the name still has no status entry. *)
Theorem getServerStatus_default name m :
  JsMap.get (serverStatuses m) name = None ->
  getServerStatus name m =
    (m, {| st_name := name; st_status := stopped; st_pid := None;
           st_startTime := None; st_error := None; st_toolCount := None;
           st_serverInfo := None |}) /\
  JsMap.get (serverStatuses (fst (getServerStatus name m))) name = None.
Proof.
  intros H. unfold getServerStatus. rewrite H. simpl. split; [reflexivity | exact H].
Qed.

Lemma getServerStatus_default_witness :
  st_status (snd (getServerStatus "test-server" Manager.new)) = stopped /\
  fst (getServerStatus "test-server" Manager.new) = Manager.new.
Proof.
  destruct (@getServerStatus_default "test-server" Manager.new eq_refl) as [H _].
  rewrite H. split; reflexivity.
Defined.

End ManagerClaims.

(* ================================================================== *)
(** * Further properties of the code *)

(** ** Substrings and lower-casing *)

Module JsStringMore.
Import JsString.

Lemma append_assoc_s (a b c : string) : ((a ++ b) ++ c)%string = (a ++ b ++ c)%string.
Proof. induction a as [|x a IH]; simpl; [reflexivity | now rewrite IH]. Qed.

Lemma prefix_iff (sub s : string) :
  String.prefix sub s = true <-> exists post, s = (sub ++ post)%string.
Proof.
  revert s. induction sub as [|a sub IH]; intros s.
  - split; [intros _; now exists s | intros _; now destruct s].
  - destruct s as [|b s]; simpl.
    + split; [discriminate | intros [post H]; discriminate].
    + destruct (ascii_dec a b) as [->|Ne].
      * rewrite IH. split; intros [post H]; exists post.
        -- now rewrite H.
        -- now inversion H.
      * split; [discriminate | intros [post H]; inversion H; subst; now elim Ne].
Qed.

Lemma includes_eq (s sub : string) :
  includes s sub =
  if String.prefix sub s then true
  else match s with
       | EmptyString => false
       | String _ s' => includes s' sub
       end.
Proof. destruct s; reflexivity. Qed.

Lemma includes_iff (s sub : string) :
  includes s sub = true <-> exists pre post, s = (pre ++ sub ++ post)%string.
Proof.
  split.
  - induction s as [|c s IH]; rewrite includes_eq;
      destruct (String.prefix sub _) eqn:P.
    + intros _. apply prefix_iff in P as [post H]. now exists "", post.
    + discriminate.
    + intros _. apply prefix_iff in P as [post H]. now exists "", post.
    + intros H. destruct (IH H) as (pre & post & E).
      exists (String c pre), post. simpl. now rewrite E.
  - intros (pre & post & E). subst s.
    induction pre as [|c pre IH]; rewrite includes_eq.
    + assert (P : String.prefix sub ("" ++ sub ++ post) = true)
        by (apply prefix_iff; now exists post).
      now rewrite P.
    + destruct (String.prefix sub _); [reflexivity | exact IH].
Qed.

Lemma includes_empty (s : string) : includes s "" = true.
Proof. apply includes_iff. exists "", s. reflexivity. Qed.

Lemma includes_refl (s : string) : includes s s = true.
Proof.
  apply includes_iff. exists "", "". simpl. now rewrite JsStringFacts.append_nil_r.
Qed.

Lemma includes_trans (s a b : string) :
  includes s a = true -> includes a b = true -> includes s b = true.
Proof.
  rewrite !includes_iff. intros (p1 & q1 & ->) (p2 & q2 & ->).
  exists (p1 ++ p2)%string, (q2 ++ q1)%string.
  now rewrite !append_assoc_s.
Qed.

Lemma toLowerCase_app (a b : string) :
  toLowerCase (a ++ b) = (toLowerCase a ++ toLowerCase b)%string.
Proof. induction a as [|x a IH]; simpl; [reflexivity | now rewrite IH]. Qed.

Lemma includes_lower (s sub : string) :
  includes s sub = true -> includes (toLowerCase s) (toLowerCase sub) = true.
Proof.
  rewrite !includes_iff. intros (pre & post & ->).
  exists (toLowerCase pre), (toLowerCase post). now rewrite !toLowerCase_app.
Qed.

Lemma lower_ascii_idem (c : ascii) : lower_ascii (lower_ascii c) = lower_ascii c.
Proof. destruct c as [[] [] [] [] [] [] [] []]; reflexivity. Qed.

Lemma toLowerCase_idem (s : string) : toLowerCase (toLowerCase s) = toLowerCase s.
Proof.
  induction s as [|c s IH]; simpl; [reflexivity|].
  now rewrite lower_ascii_idem, IH.
Qed.

Lemma lower_upper_ascii (c : ascii) : lower_ascii (upper_ascii c) = lower_ascii c.
Proof. destruct c as [[] [] [] [] [] [] [] []]; reflexivity. Qed.

Lemma toLowerCase_upper (s : string) : toLowerCase (toUpperCase s) = toLowerCase s.
Proof.
  induction s as [|c s IH]; simpl; [reflexivity|].
  now rewrite lower_upper_ascii, IH.
Qed.

End JsStringMore.

(** ** More on maps and lists *)

Module JsMapMore.
Section WithValue.
Variable V : Type.
Implicit Types (m : JsMap.t V) (k : string) (v : V).

Lemma get_Some_In m k v : JsMap.get m k = Some v -> In (k, v) m.
Proof.
  induction m as [|[k0 v0] m IH]; simpl; [discriminate|].
  destruct (String.eqb_spec k0 k) as [->|Ne].
  - intros E. inversion E. now left.
  - intros H. right. auto.
Qed.

Lemma delete_absent m k : JsMap.get m k = None -> JsMap.delete m k = m.
Proof.
  induction m as [|[k0 v0] m IH]; simpl; [reflexivity|].
  destruct (String.eqb_spec k0 k) as [->|Ne]; [discriminate|].
  intros H. simpl. now rewrite IH.
Qed.

Lemma set_absent m k v : JsMap.get m k = None -> JsMap.set m k v = m ++ [(k, v)].
Proof.
  induction m as [|[k0 v0] m IH]; simpl; [reflexivity|].
  destruct (String.eqb_spec k0 k) as [->|Ne]; [discriminate|].
  intros H. now rewrite IH.
Qed.

Lemma get_app_l m m' k :
  JsMap.get (m ++ m') k =
  match JsMap.get m k with Some v => Some v | None => JsMap.get m' k end.
Proof.
  induction m as [|[k0 v0] m IH]; simpl; [reflexivity|].
  destruct (String.eqb k0 k); auto.
Qed.

End WithValue.

(** Reading a dictionary that maps each entry of a map to a count. *)
Lemma get_map_values (A B : Type) (f : A -> B) (m : JsMap.t A) (k : string) :
  JsMap.get (List.map (fun e => (fst e, f (snd e))) m) k =
  option_map f (JsMap.get m k).
Proof.
  induction m as [|[k0 v0] m IH]; simpl; [reflexivity|].
  destruct (String.eqb k0 k); auto.
Qed.

Lemma filter_split_perm (A : Type) (p : A -> bool) (l : list A) :
  Permutation (filter p l ++ filter (fun a => negb (p a)) l) l.
Proof.
  induction l as [|a l IH]; simpl; [constructor|].
  destruct (p a); simpl.
  - now constructor.
  - apply Permutation_sym, Permutation_cons_app, Permutation_sym, IH.
Qed.

Lemma filter_filter_neg (A : Type) (p q : A -> bool) (l : list A) :
  (forall a, p a = true -> q a = false) ->
  filter p (filter (fun a => negb (q a)) l) = filter p l.
Proof.
  intros H. induction l as [|a l IH]; simpl; [reflexivity|].
  destruct (q a) eqn:Q; simpl.
  - destruct (p a) eqn:P; [|exact IH]. rewrite (H a P) in Q. discriminate.
  - now rewrite IH.
Qed.

Lemma flat_map_same (A B : Type) (f g : A -> list B) (l : list A) :
  (forall a, In a l -> f a = g a) -> flat_map f l = flat_map g l.
Proof.
  induction l as [|a l IH]; simpl; intros H; [reflexivity|].
  rewrite (H a) by auto. rewrite IH; auto.
Qed.

(** Sorting the elements of [l] into the classes named by [keys]: when the
    keys are distinct and every element falls in one of them, the classes
    together are a rearrangement of [l]. *)
Lemma classes_perm (A : Type) (cat : A -> string) (keys : list string) :
  NoDup keys -> forall l : list A,
  (forall a, In a l -> In (cat a) keys) ->
  Permutation
    (flat_map (fun k => filter (fun a => String.eqb (cat a) k) l) keys) l.
Proof.
  induction 1 as [|k keys Hk Hnd IH]; intros l H; simpl.
  - destruct l as [|a l]; [constructor|]. destruct (H a (or_introl eq_refl)).
  - set (rest := filter (fun a => negb (String.eqb (cat a) k)) l).
    eapply Permutation_trans; [|apply (filter_split_perm (fun a => String.eqb (cat a) k))].
    apply Permutation_app_head. fold rest.
    assert (E : flat_map (fun k' => filter (fun a => String.eqb (cat a) k') l) keys =
                flat_map (fun k' => filter (fun a => String.eqb (cat a) k') rest) keys).
    { apply flat_map_same. intros k' Hk'. subst rest. symmetry.
      apply filter_filter_neg. intros a Ha.
      apply String.eqb_eq in Ha. apply String.eqb_neq. intros E. subst.
      now apply Hk. }
    rewrite E. apply IH. intros a Ha. subst rest.
    apply filter_In in Ha as [Ha Hne]. destruct (H a Ha) as [E'|]; auto.
    apply negb_true_iff, String.eqb_neq in Hne. now elim Hne.
Qed.

End JsMapMore.

(** ** Tool registry: lookup, bulk registration, search, statistics *)

Module RegistryExtra.
Import Registry RegistrySpec RegistryRest RegistryFacts RegistryNamed CategoryFacts.

Lemma filter_all (A : Type) (p : A -> bool) (l : list A) :
  (forall a, In a l -> p a = true) -> filter p l = l.
Proof.
  induction l as [|a l IH]; simpl; intros H; [reflexivity|].
  rewrite (H a) by auto. rewrite IH; auto.
Qed.

Lemma In_old_upsert tool l t :
  In t l -> tool_name t <> tool_name tool -> In t (upsert tool l).
Proof.
  induction l as [|a l IH]; simpl; [contradiction|].
  intros [-> | H] Ne.
  - destruct (String.eqb_spec (tool_name t) (tool_name tool)); [contradiction | now left].
  - destruct (String.eqb _ _); simpl; auto.
Qed.

Lemma upsert_not_nil tool l : upsert tool l <> [].
Proof. destruct l as [|a l]; simpl; [|destruct (String.eqb _ _)]; discriminate. Qed.

Lemma reachable_groups_nonempty r :
  reachable r -> forall g l, In (g, l) (serverTools r) -> l <> [].
Proof.
  induction 1 as [|tool r H IH|s r H IH|r H IH]; intros g l Hin.
  - contradiction.
  - rewrite registerTool_eq in Hin. simpl in Hin.
    apply JsMapFacts.In_set in Hin; [|apply (reachable_Inv H)].
    destruct Hin as [[_ ->] | [_ Hin]]; [apply upsert_not_nil | eauto].
  - apply JsMapFacts.In_delete in Hin as [_ Hin]. eauto.
  - contradiction.
Qed.

Lemma filter_length_keyed (A : Type) (m : JsMap.t A) (p : string) :
  JsMap.wf m ->
  List.length m =
  List.length (filter (fun e => negb (String.eqb (fst e) p)) m)
  + (if JsMap.has m p then 1 else 0).
Proof.
  unfold JsMap.wf, JsMap.has. induction m as [|[k v] m IH]; simpl; intros W; auto.
  apply NoDup_cons_iff in W as [Hnin Hnd].
  destruct (String.eqb_spec k p) as [->|Ne]; simpl.
  - rewrite (IH Hnd).
    apply JsMapFacts.get_None_keys in Hnin. rewrite Hnin. lia.
  - rewrite (IH Hnd). reflexivity.
Qed.

Lemma category_names_NoDup : NoDup category_names.
Proof.
  unfold category_names.
  repeat (constructor; [simpl; intuition discriminate|]). constructor.
Qed.

Lemma buckets_perm r :
  Permutation (flat_map (fun k => bucket k (getAllTools r)) category_names)
              (getAllTools r).
Proof.
  unfold bucket.
  apply (JsMapMore.classes_perm (fun t => categorizeToolByName (tool_name t))
           category_names_NoDup).
  intros a _. apply categorize_is_key.
Qed.

Lemma count_entries_fold (entries : JsMap.t (list MCPTool)) :
  JsMap.wf entries -> forall acc : JsMap.t nat,
  (forall k, In k (JsMap.keys entries) -> JsMap.get acc k = None) ->
  fold_left (fun o entry => object_assign o (fst entry) (List.length (snd entry)))
            entries acc =
  acc ++ List.map (fun e => (fst e, List.length (snd e)))
           (filter (fun e => negb (String.eqb (fst e) "__proto__")) entries).
Proof.
  unfold JsMap.wf. induction entries as [|[k l] entries IH]; simpl; intros W acc H.
  - now rewrite app_nil_r.
  - apply NoDup_cons_iff in W as [Hnin Hnd]. unfold object_assign at 2. simpl.
    destruct (String.eqb k "__proto__"); simpl.
    + apply IH; auto.
    + rewrite JsMapMore.set_absent by (apply H; now left).
      rewrite IH; auto.
      * now rewrite <- app_assoc.
      * intros k' Hk'. rewrite JsMapMore.get_app_l, H by now right. simpl.
        destruct (String.eqb_spec k k') as [->|]; [contradiction | reflexivity].
Qed.

Lemma count_entries_eq (entries : JsMap.t (list MCPTool)) :
  JsMap.wf entries ->
  count_entries entries =
  List.map (fun e => (fst e, List.length (snd e)))
    (filter (fun e => negb (String.eqb (fst e) "__proto__")) entries).
Proof.
  intros W. unfold count_entries. now rewrite count_entries_fold.
Qed.

Lemma get_filter_other (A : Type) (m : JsMap.t A) (p g : string) :
  g <> p ->
  JsMap.get (filter (fun e => negb (String.eqb (fst e) p)) m) g = JsMap.get m g.
Proof.
  intros Ne. induction m as [|[k v] m IH]; simpl; auto.
  destruct (String.eqb_spec k p) as [->|Nk]; simpl.
  - destruct (String.eqb_spec p g); [congruence | exact IH].
  - destruct (String.eqb k g); [reflexivity | exact IH].
Qed.

Lemma get_filter_same (A : Type) (m : JsMap.t A) (p : string) :
  JsMap.get (filter (fun e => negb (String.eqb (fst e) p)) m) p = None.
Proof.
  induction m as [|[k v] m IH]; simpl; auto.
  destruct (String.eqb_spec k p) as [->|Nk]; simpl; auto.
  destruct (String.eqb_spec k p); [contradiction | exact IH].
Qed.

(** X1: a registered tool is found by [getTool] under its owner and
    name, and, among server names without ":", [registerTool] changes the
    answer of [getTool] for no other (server, name) pair. *)
Theorem getTool_registerTool (r : MCPToolRegistry) (t : MCPTool) (s : string) :
  tool_serverName t = Some s ->
  getTool s (tool_name t) (registerTool t r) = Some t /\
  (forall s' n',
      JsString.has_char ":" s = false -> JsString.has_char ":" s' = false ->
      (s', n') <> (s, tool_name t) ->
      getTool s' n' (registerTool t r) = getTool s' n' r).
Proof.
  intros Hs. rewrite registerTool_eq. unfold getTool. simpl.
  rewrite (owner_key _ Hs). split.
  - apply JsMapFacts.get_set_same.
  - intros s' n' Hc Hc' Ne. apply JsMapFacts.get_set_other. intros E.
    apply (JsStringFacts.sep_split_unique ":" _ _ _ _ Hc Hc') in E as [E1 E2].
    apply Ne. congruence.
Qed.

Lemma getTool_registerTool_witness :
  getTool "server1" "tool1"
    (registerTool (mk_tool "tool1" (Some "") (Some "server1")) three_tools)
  = Some (mk_tool "tool1" (Some "") (Some "server1")).
Proof.
  exact (proj1 (@getTool_registerTool three_tools
                  (mk_tool "tool1" (Some "") (Some "server1")) "server1" eq_refl)).
Defined.

(** Each mutator of the registry writes the maps and then throws the
    [TypeError] of [Logger.log]. *)
Lemma registry_calls_throw (tool : MCPTool) (s : string) (r : MCPToolRegistry) :
  registerTool_call tool r = (registerTool tool r, Rejected Logger.thrown) /\
  clearServerTools_call s r = (clearServerTools s r, Rejected Logger.thrown) /\
  clearAllTools_call r = (new, Rejected Logger.thrown).
Proof. repeat split. Qed.

(** X2: [registerTools] stops after the first element of the array:
    [registerTool] writes that tool into both maps and then throws the
    [TypeError] of [Logger.log], which ends the [forEach]; the later
    elements are never registered and the error reaches the caller.  For
    the empty array nothing happens. *)
Theorem registerTools_first_only (t : MCPTool) (rest : list MCPTool)
        (r : MCPToolRegistry) :
  registerTools [] r = (r, Resolved tt) /\
  registerTools (t :: rest) r = (registerTool t r, Rejected Logger.thrown) /\
  getAllTools (fst (registerTools (t :: rest) new)) = [t] /\
  (forall u, In u rest -> toolKey u <> toolKey t ->
     JsMap.get (tools (fst (registerTools (t :: rest) r))) (toolKey u)
     = JsMap.get (tools r) (toolKey u)) /\
  (reachable r -> reachable (fst (registerTools (t :: rest) r))).
Proof.
  split; [reflexivity|]. split; [reflexivity|]. split; [reflexivity|]. split.
  - intros u _ Ne. cbn [registerTools registerTool_call Logger.log fst].
    rewrite registerTool_eq. simpl. apply JsMapFacts.get_set_other. congruence.
  - intros H. now constructor.
Qed.

Lemma NoDup_values_keyed (m : JsMap.t MCPTool) :
  JsMap.wf m -> (forall k t, In (k, t) m -> k = toolKey t) ->
  NoDup (JsMap.values m).
Proof.
  unfold JsMap.wf, JsMap.keys, JsMap.values.
  induction m as [|[k t] m IHm]; simpl; intros W K; [constructor|].
  apply NoDup_cons_iff in W as [Hnin Hnd]. constructor.
  - intros Hin. apply in_map_iff in Hin as ([k' t'] & E & Hin). simpl in E. subst t'.
    apply Hnin. apply in_map_iff. exists (k', t). split; auto. simpl.
    rewrite (K k' t), (K k t); auto.
  - apply IHm; auto.
Qed.

(** X3: in every state of the class the identity key of a tool is
    unique: [getAllTools] never holds two different tools with the same
    (serverName, name), nor one tool twice; a group never lists two tools
    of one name, lists only tools that [registerTool] sends to that group,
    and is never an empty array. *)
Theorem reachable_keys_unique (r : MCPToolRegistry) :
  reachable r ->
  NoDup (getAllTools r) /\
  (forall t1 t2, In t1 (getAllTools r) -> In t2 (getAllTools r) ->
     same_key t1 t2 = true -> t1 = t2) /\
  (forall g, NoDup (List.map tool_name (getServerTools g r))) /\
  (forall g t, In t (getServerTools g r) -> groupName t = g) /\
  (forall g l, JsMap.get (serverTools r) g = Some l -> l <> []).
Proof.
  intros H. pose proof (reachable_Inv H) as I.
  assert (U : forall t1 t2 k1 k2, In (k1, t1) (tools r) -> In (k2, t2) (tools r) ->
              toolKey t1 = toolKey t2 -> t1 = t2).
  { intros t1 t2 k1 k2 H1 H2 E.
    rewrite (inv_keys I _ _ H1) in H1. rewrite (inv_keys I _ _ H2), <- E in H2.
    apply (JsMapFacts.get_In _ _ (inv_tools_wf I)) in H1, H2. congruence. }
  split; [|split; [|split; [|split]]].
  - apply NoDup_values_keyed; apply I.
  - intros t1 t2 H1 H2 E. unfold getAllTools in *.
    apply JsMapFacts.In_values in H1 as [k1 H1], H2 as [k2 H2].
    apply (U t1 t2 k1 k2 H1 H2). now apply RegistryClaims.same_key_toolKey.
  - intros g. destruct (getServerTools_cases g r) as [[E _] | E].
    + rewrite E. constructor.
    + apply (inv_names I g). apply JsMapFacts.get_In; [apply I | exact E].
  - intros g t Ht. apply (inv_groups I g (getServerTools g r)); auto.
    eapply getServerTools_entry; eauto. apply I.
  - intros g l E. apply (reachable_groups_nonempty H g).
    apply JsMapFacts.get_In; [apply I | exact E].
Qed.

Lemma reachable_keys_unique_witness :
  NoDup (getAllTools three_tools) /\
  (forall g, NoDup (List.map tool_name (getServerTools g three_tools))).
Proof.
  assert (R : reachable three_tools) by (unfold three_tools; repeat constructor).
  destruct (reachable_keys_unique R) as (A & _ & B & _).
  split; [exact A | exact B].
Defined.

(** X4: [searchTools('')] returns every registered tool, and only
    registered tools are ever returned.  For tools and queries of ASCII
    characters the letter case of the query does not matter (the query
    in upper case and in lower case give the results of the query itself),
    and a registered tool is found by its own name, also when that is
    written in upper case or in lower case. *)
Theorem searchTools_basics (r : MCPToolRegistry) :
  searchTools "" r = getAllTools r /\
  (forall t q, In t (searchTools q r) -> In t (getAllTools r)) /\
  (forallb ascii_tool (getAllTools r) = true ->
   (forall q, JsString.is_ascii q = true ->
      searchTools (JsString.toUpperCase q) r = searchTools q r /\
      searchTools (JsString.toLowerCase q) r = searchTools q r) /\
   (forall t, In t (getAllTools r) ->
      In t (searchTools (tool_name t) r) /\
      In t (searchTools (JsString.toUpperCase (tool_name t)) r) /\
      In t (searchTools (JsString.toLowerCase (tool_name t)) r))).
Proof.
  unfold searchTools. split; [|split].
  - apply filter_all. intros a _. simpl.
    now rewrite JsStringMore.includes_empty.
  - intros t q Hin. now apply filter_In in Hin.
  - intros _. split.
    + intros q _.
      now rewrite JsStringMore.toLowerCase_upper, JsStringMore.toLowerCase_idem.
    + intros t Hin.
      rewrite !filter_In, JsStringMore.toLowerCase_upper, JsStringMore.toLowerCase_idem.
      rewrite JsStringMore.includes_refl. simpl. auto.
Qed.

Lemma searchTools_basics_witness :
  In (mk_tool "tool2" (Some "") (Some "server1")) (searchTools "TOOL2" three_tools).
Proof.
  destruct (searchTools_basics three_tools) as (_ & _ & H).
  destruct (H eq_refl) as (_ & F).
  exact (proj1 (proj2 (F (mk_tool "tool2" (Some "") (Some "server1"))
                         ltac:(vm_compute; auto)))).
Defined.

(** X5: refining a query never adds results.  For tools and queries of
    ASCII characters: when [q1] occurs in [q2] up to letter case (it does
    once both are written in upper case), every tool returned for [q2] is
    returned for [q1]. *)
Theorem searchTools_refine (r : MCPToolRegistry) (q1 q2 : string) :
  forallb ascii_tool (getAllTools r) = true ->
  JsString.is_ascii q1 = true -> JsString.is_ascii q2 = true ->
  JsString.includes (JsString.toUpperCase q2) (JsString.toUpperCase q1) = true ->
  forall t, In t (searchTools q2 r) -> In t (searchTools q1 r).
Proof.
  intros _ _ _ Hu t.
  apply JsStringMore.includes_lower in Hu.
  rewrite !JsStringMore.toLowerCase_upper in Hu.
  unfold searchTools. rewrite !filter_In.
  intros [Hin Hm]. split; auto.
  apply orb_true_iff in Hm as [Hm | Hm]; apply orb_true_iff; [left | right].
  - eapply JsStringMore.includes_trans; eauto.
  - unfold description_matches in *.
    destruct (tool_description t) as [[|c d]|]; try discriminate.
    eapply JsStringMore.includes_trans; eauto.
Qed.

Lemma searchTools_refine_witness :
  In (mk_tool "tool1" (Some "") (Some "server1")) (searchTools "OOL" three_tools).
Proof.
  apply (@searchTools_refine three_tools "OOL" "Tool1" eq_refl eq_refl eq_refl eq_refl).
  vm_compute. auto.
Defined.

(** X6: in every state of the class [getStats] agrees with the
    queries: [totalTools] is the length of [getAllTools()];
    [toolsByServer] has an own entry for every group but one named
    "__proto__", for which an object stores none, each entry being the
    positive length of [getServerTools(g)]; [serverCount] counts the
    groups, that is these entries and the group "__proto__" if there is
    one; [toolsByCategory] holds the five bucket sizes of
    [getToolsByCategory()], and these add up to [totalTools]. *)
Theorem getStats_consistent (r : MCPToolRegistry) :
  reachable r ->
  let st := getStats r in
  totalTools st = List.length (getAllTools r) /\
  serverCount st = List.length (toolsByServer st)
                   + (if JsMap.has (serverTools r) "__proto__" then 1 else 0) /\
  (forall g, g <> "__proto__" ->
     JsMap.get (toolsByServer st) g =
     option_map (@List.length MCPTool) (JsMap.get (serverTools r) g)) /\
  JsMap.get (toolsByServer st) "__proto__" = None /\
  (forall g n, JsMap.get (toolsByServer st) g = Some n ->
               n = List.length (getServerTools g r) /\ 0 < n) /\
  toolsByCategory st = bucket_sizes (getToolsByCategory r) /\
  total_count (toolsByCategory st) = totalTools st.
Proof.
  intros H st. pose proof (reachable_Inv H) as I.
  assert (S : toolsByServer st =
              List.map (fun e => (fst e, List.length (snd e)))
                (filter (fun e => negb (String.eqb (fst e) "__proto__")) (serverTools r))).
  { subst st. simpl. apply count_entries_eq, I. }
  assert (C : toolsByCategory st = bucket_sizes (getToolsByCategory r)).
  { subst st. cbn [toolsByCategory getStats]. rewrite count_entries_eq.
    - rewrite getToolsByCategory_eq. reflexivity.
    - rewrite getToolsByCategory_eq. unfold JsMap.wf, JsMap.keys.
      rewrite map_map. simpl. apply category_names_NoDup. }
  assert (T : totalTools st = List.length (getAllTools r)).
  { subst st. simpl. unfold JsMap.size, getAllTools, JsMap.values.
    now rewrite length_map. }
  assert (G : forall g, g <> "__proto__" ->
     JsMap.get (toolsByServer st) g =
     option_map (@List.length MCPTool) (JsMap.get (serverTools r) g)).
  { intros g Ng. rewrite S, JsMapMore.get_map_values. now rewrite get_filter_other. }
  assert (P : JsMap.get (toolsByServer st) "__proto__" = None).
  { rewrite S, JsMapMore.get_map_values. now rewrite get_filter_same. }
  split; [exact T|]. split; [|split; [exact G|split; [exact P|split; [|split; [exact C|]]]]].
  - rewrite S, length_map. subst st. cbn [serverCount getStats]. unfold JsMap.size.
    apply filter_length_keyed, I.
  - intros g n E.
    destruct (String.eqb_spec g "__proto__") as [->|Ng]; [rewrite P in E; discriminate|].
    rewrite (G g Ng) in E. unfold getServerTools.
    destruct (JsMap.get (serverTools r) g) as [l|] eqn:Gl; simpl in E; [|discriminate].
    inversion E. split; auto.
    assert (Hl : l <> []).
    { apply (reachable_groups_nonempty H g).
      apply JsMapFacts.get_In; [apply I | exact Gl]. }
    destruct l; [contradiction | simpl; lia].
  - rewrite C, T, <- (Permutation_length (buckets_perm r)).
    rewrite getToolsByCategory_eq. unfold bucket_sizes. rewrite map_map.
    cbn [List.map category_names fst snd total_count fold_right flat_map].
    rewrite !length_app. simpl. lia.
Qed.

Lemma getStats_consistent_witness :
  totalTools (getStats three_tools) = 3 /\
  JsMap.get (toolsByServer (getStats three_tools)) "server1" = Some 2 /\
  total_count (toolsByCategory (getStats three_tools)) = 3.
Proof.
  assert (R : reachable three_tools) by (unfold three_tools; repeat constructor).
  destruct (getStats_consistent R) as (A & _ & B & _ & _ & _ & C).
  split; [|split].
  - rewrite A. reflexivity.
  - rewrite B by discriminate. reflexivity.
  - rewrite C, A. reflexivity.
Defined.

(** X7: [getToolsByCategory] always returns the five buckets
    filesystem, network, data, system, other, in this order, and they
    partition the registered tools: taken together the buckets are a
    rearrangement of [getAllTools()], so every tool is in exactly one
    bucket and none is lost or repeated. *)
Theorem getToolsByCategory_partition (r : MCPToolRegistry) :
  JsMap.keys (getToolsByCategory r) = category_names /\
  Permutation (flat_map snd (getToolsByCategory r)) (getAllTools r).
Proof.
  rewrite getToolsByCategory_eq. split.
  - reflexivity.
  - exact (buckets_perm r).
Qed.

(** X8: [clearServerTools] for a server that has no group changes
    nothing, and clearing the same server twice is the same as clearing it
    once. *)
Theorem clearServerTools_idempotent (r : MCPToolRegistry) (s : string) :
  (JsMap.get (serverTools r) s = None -> clearServerTools s r = r) /\
  clearServerTools s (clearServerTools s r) = clearServerTools s r.
Proof.
  assert (A : forall r0, JsMap.get (serverTools r0) s = None -> clearServerTools s r0 = r0).
  { intros r0 H. unfold clearServerTools, getServerTools. rewrite H. simpl.
    rewrite JsMapMore.delete_absent by exact H. now destruct r0. }
  split; [apply A|].
  apply A. simpl. apply JsMapFacts.get_delete_same.
Qed.

Lemma clearServerTools_idempotent_witness :
  clearServerTools "nobody" three_tools = three_tools.
Proof.
  exact (proj1 (clearServerTools_idempotent three_tools "nobody") eq_refl).
Defined.

End RegistryExtra.

(** ** Process manager: the remaining methods *)

Module ManagerExtraFacts.
Import Manager ManagerSpec ManagerFacts ManagerRest ManagerRestSpec.

Lemma status_of_record n a m : status_of n (record a m) = status_of n m.
Proof. reflexivity. Qed.

Lemma requests_app h1 h2 : requests (h1 ++ h2) = requests h1 ++ requests h2.
Proof.
  induction h1 as [|a h1 IH]; simpl; auto. destruct a; simpl; auto. now rewrite IH.
Qed.

Lemma constructed_app h1 h2 : constructed (h1 ++ h2) = constructed h1 ++ constructed h2.
Proof.
  induction h1 as [|a h1 IH]; simpl; auto. destruct a; simpl; auto. now rewrite IH.
Qed.

Lemma called_app h1 h2 : called (h1 ++ h2) = called h1 ++ called h2.
Proof.
  induction h1 as [|a h1 IH]; simpl; auto. destruct a; simpl; auto. now rewrite IH.
Qed.

Lemma called_deliveries ls ev : called (deliveries ls ev) = List.map listener_id ls.
Proof. induction ls as [|l ls IH]; simpl; auto. now rewrite IH. Qed.

Lemma requests_deliveries ls ev : requests (deliveries ls ev) = [].
Proof. induction ls; simpl; auto. Qed.

Lemma constructed_deliveries ls ev : constructed (deliveries ls ev) = [].
Proof. induction ls; simpl; auto. Qed.

Lemma requests_emit_actions m type name data now :
  requests (emit_actions m type name data now) = [].
Proof.
  unfold emit_actions. simpl. now rewrite requests_app, !requests_deliveries.
Qed.

Lemma constructed_emit_actions m type name data now :
  constructed (emit_actions m type name data now) = [].
Proof.
  unfold emit_actions. simpl. now rewrite constructed_app, !constructed_deliveries.
Qed.

Lemma called_emit_actions m type name data now :
  called (emit_actions m type name data now) =
  List.map listener_id (listeners_of m "*") ++ List.map listener_id (listeners_of m name).
Proof.
  unfold emit_actions. simpl. now rewrite called_app, !called_deliveries.
Qed.

Lemma flat_map_fst (A B C : Type) (f : A -> list C) (l : list (A * B)) :
  flat_map (fun e => f (fst e)) l = flat_map f (List.map fst l).
Proof. induction l as [|e l IH]; simpl; auto. now rewrite IH. Qed.

Lemma listAllTools_fold answers entries : forall m acc,
  fold_left
    (fun (acc : MCPProcessManager * list MCPTool) (entry : string * ClientObj) =>
       let (m, allTools) := acc in
       let m := record (ActCall (client_id (snd entry)) m_listTools) m in
       match answers (fst entry) with
       | Resolved tools => (m, allTools ++ tools)
       | Rejected _ => (m, allTools)
       end) entries (m, acc) =
  ({| clients := clients m; serverStatuses := serverStatuses m;
      eventListeners := eventListeners m; allocated := allocated m;
      history := history m ++
        List.map (fun e => ActCall (client_id (snd e)) m_listTools) entries |},
   acc ++ flat_map (fun e => catch_default (answers (fst e)) []) entries).
Proof.
  induction entries as [|e entries IH]; intros m acc; simpl.
  - rewrite !app_nil_r. now destruct m.
  - destruct (answers (fst e)) as [tools|err]; rewrite IH; simpl;
      rewrite <- !app_assoc; reflexivity.
Qed.

(** *** What each method leaves behind *)

Ltac status_at_name :=
  unfold status_of, getServerStatus; simpl;
  rewrite ?JsMapFacts.get_set_same; reflexivity.

Ltac status_elsewhere :=
  unfold status_of, getServerStatus; simpl;
  rewrite ?JsMapFacts.get_set_other by congruence; reflexivity.

Lemma callTool_view env name toolName args callId m :
  let m' := fst (callTool env name toolName args callId m) in
  clients m' = clients m /\ serverStatuses m' = serverStatuses m /\
  eventListeners m' = eventListeners m /\ allocated m' = allocated m.
Proof.
  unfold callTool, callTool_begin.
  destruct (JsMap.get (clients m) name) as [c|]; [|simpl; auto].
  destruct (env_callTool env) as [r|e]; rewrite !emitEvent_eq; simpl; auto.
Qed.

Lemma checkServerHealth_view connected now name m :
  let m' := checkServerHealth connected now name m in
  clients m' = clients m /\
  eventListeners m' = eventListeners m /\ allocated m' = allocated m /\
  (forall n, n <> name -> status_of n m' = status_of n m) /\
  (JsMap.get (clients m) name <> None -> connected = Resolved false ->
     status_of name m' = spread (status_of name m) (error_update name "Connection lost") /\
     history m' = history m ++
       emit_actions m server_error name (ErrorData "Connection lost") now) /\
  (JsMap.get (clients m) name = None \/ connected <> Resolved false -> m' = m).
Proof.
  unfold checkServerHealth.
  destruct (JsMap.get (clients m) name) as [c|] eqn:G.
  - destruct connected as [[|]|e]; simpl.
    + do 4 (split; [reflexivity|]). split; [intros _ Hn; discriminate | reflexivity].
    + rewrite emitEvent_eq. simpl.
      split; [reflexivity|]. split; [reflexivity|]. split; [reflexivity|].
      split; [intros n Ne; status_elsewhere|]. split.
      * intros _ _. split; [status_at_name | reflexivity].
      * intros [Hn|Hn]; [discriminate | now elim Hn].
    + do 4 (split; [reflexivity|]). split; [intros _ Hn; discriminate | reflexivity].
  - simpl. do 4 (split; [reflexivity|]).
    split; [intros Hn; now elim Hn | reflexivity].
Qed.

(** *** Loops over server names *)

Section FoldPerName.
Variables (St Ob : Type) (op : string -> St -> St) (ob : string -> St -> Ob)
          (step : string -> Ob -> Ob).
Hypothesis op_same : forall n m, ob n (op n m) = step n (ob n m).
Hypothesis op_other : forall n n' m, n <> n' -> ob n (op n' m) = ob n m.

Lemma fold_ob names : NoDup names -> forall m n,
  ob n (fold_left (fun m x => op x m) names m) =
  if in_dec string_dec n names then step n (ob n m) else ob n m.
Proof.
  induction 1 as [|a names Ha Hnd IH]; intros m n; simpl; [reflexivity|].
  rewrite IH. destruct (string_dec a n) as [->|Ne].
  - destruct (in_dec string_dec n names); [contradiction | apply op_same].
  - destruct (in_dec string_dec n names); now rewrite op_other by congruence.
Qed.
End FoldPerName.

Lemma get_map_names (A : Type) (f : string -> A) (names : list string) (n : string) :
  JsMap.get (List.map (fun x => (x, f x)) names) n =
  if in_dec string_dec n names then Some (f n) else None.
Proof.
  induction names as [|a names IH]; simpl; [reflexivity|].
  destruct (String.eqb_spec a n) as [->|Ne].
  - destruct (string_dec n n); [reflexivity | contradiction].
  - rewrite IH. destruct (string_dec a n); [contradiction|].
    now destruct (in_dec string_dec n names).
Qed.

Lemma in_keys_get (V : Type) (m : JsMap.t V) (n : string) :
  In n (JsMap.keys m) <-> JsMap.get m n <> None.
Proof.
  pose proof (JsMapFacts.get_None_keys m n) as H. split.
  - intros Hin E. now apply H in E.
  - intros Hn. destruct (in_dec string_dec n (JsMap.keys m)) as [|Hnot]; auto.
    elim Hn. now apply H.
Qed.

Lemma health_same env n m :
  obs n (checkServerHealth (env_isConnected env n) (now_health env n) n m) =
  health_step env n (obs n m).
Proof.
  unfold obs, health_step, checkServerHealth. simpl.
  destruct (JsMap.get (clients m) n) as [c|] eqn:G; [|now rewrite G].
  destruct (env_isConnected env n) as [[|]|e]; try now rewrite G.
  rewrite emitEvent_eq. simpl. rewrite G. f_equal. status_at_name.
Qed.

Lemma health_other env n n' m :
  n <> n' ->
  obs n (checkServerHealth (env_isConnected env n') (now_health env n') n' m) = obs n m.
Proof.
  intros Ne. unfold obs.
  destruct (checkServerHealth_view (env_isConnected env n') (now_health env n') n' m)
    as (A & _ & _ & B & _).
  cbv zeta in *. now rewrite A, B.
Qed.

Lemma checkServerHealth_clients connected now n m :
  clients (checkServerHealth connected now n m) = clients m.
Proof. apply checkServerHealth_view. Qed.

Lemma healthCheckTick_obs env m n :
  JsMap.wf (clients m) ->
  obs n (healthCheckTick env m) = health_step env n (obs n m).
Proof.
  intros W. unfold healthCheckTick.
  rewrite (fold_ob (fun x m => checkServerHealth (env_isConnected env x)
                                 (now_health env x) x m)
                   obs (health_step env) (health_same env) (health_other env) W).
  destruct (in_dec string_dec n (JsMap.keys (clients m))) as [Hin|Hnot]; auto.
  unfold health_step, obs. simpl.
  destruct (JsMap.get (clients m) n) eqn:G; auto.
  elim Hnot. apply in_keys_get. congruence.
Qed.

Lemma fold_clients (names : list string) (op : string -> MCPProcessManager -> MCPProcessManager) :
  (forall x m, clients (op x m) = clients m) ->
  forall m, clients (fold_left (fun m x => op x m) names m) = clients m.
Proof.
  intros H. induction names as [|a names IH]; intros m; simpl; auto.
  now rewrite IH, H.
Qed.

(** The first loop of [stopAllServers]. *)
Lemma removeEventListener_quiet name l m :
  clients (removeEventListener name l m) = clients m /\
  serverStatuses (removeEventListener name l m) = serverStatuses m.
Proof.
  unfold removeEventListener. destruct (_ <? _)%Z; simpl; auto.
Qed.

Lemma listTools_quiet answer name m :
  clients (fst (listTools answer name m)) = clients m /\
  serverStatuses (fst (listTools answer name m)) = serverStatuses m.
Proof. unfold listTools. destruct (JsMap.get _ _); simpl; auto. Qed.

Lemma listAllTools_quiet answers m :
  clients (fst (listAllTools answers m)) = clients m /\
  serverStatuses (fst (listAllTools answers m)) = serverStatuses m.
Proof. unfold listAllTools. rewrite listAllTools_fold. simpl. auto. Qed.

(** *** The states the class reaches *)

(** The invariant: no client in the map, none constructed, none called,
    and every server with the default status or the status of a failure
    at [Logger.log]. *)
Lemma failed_spread cur name :
  cur = default_status name \/ cur = failed_status name ->
  spread cur (error_update name (String_ Logger.thrown)) = failed_status name.
Proof. intros [->| ->]; reflexivity. Qed.

Lemma quiet_step m m' :
  clients m' = clients m -> allocated m' = allocated m ->
  serverStatuses m' = serverStatuses m -> history m' = history m ->
  (clients m = [] /\ allocated m = 0 /\
   requests (history m) = [] /\ constructed (history m) = [] /\
   forall n, status_of n m = default_status n \/ status_of n m = failed_status n) ->
  (clients m' = [] /\ allocated m' = 0 /\
   requests (history m') = [] /\ constructed (history m') = [] /\
   forall n, status_of n m' = default_status n \/ status_of n m' = failed_status n).
Proof.
  intros Ec Ea Es Eh (C & A & R & K & S).
  rewrite Ec, Ea, Eh. repeat (split; [assumption|]).
  intros n. unfold status_of, getServerStatus in *. simpl in *. rewrite Es. apply S.
Qed.

Lemma failed_step name m m' added :
  clients m' = clients m -> allocated m' = allocated m ->
  status_of name m' = spread (status_of name m) (error_update name (String_ Logger.thrown)) ->
  (forall n, n <> name -> status_of n m' = status_of n m) ->
  history m' = history m ++ added -> requests added = [] -> constructed added = [] ->
  (clients m = [] /\ allocated m = 0 /\
   requests (history m) = [] /\ constructed (history m) = [] /\
   forall n, status_of n m = default_status n \/ status_of n m = failed_status n) ->
  (clients m' = [] /\ allocated m' = 0 /\
   requests (history m') = [] /\ constructed (history m') = [] /\
   forall n, status_of n m' = default_status n \/ status_of n m' = failed_status n).
Proof.
  intros Ec Ea Es Eo Eh Er Ek (C & A & R & K & S).
  rewrite Ec, Ea, Eh, requests_app, constructed_app, R, K, Er, Ek.
  repeat (split; [assumption || reflexivity|]).
  intros n. destruct (String.eqb_spec n name) as [->|Ne].
  - right. rewrite Es. apply failed_spread, S.
  - rewrite (Eo n Ne). apply S.
Qed.

Lemma startServer_view env name config m :
  let m' := fst (startServer env name config m) in
  clients m' = clients m /\ allocated m' = allocated m /\
  eventListeners m' = eventListeners m /\
  status_of name m' =
    spread (status_of name m) (error_update name (String_ Logger.thrown)) /\
  (forall n, n <> name -> status_of n m' = status_of n m) /\
  history m' = history m ++
    emit_actions m server_error name (ErrorData (String_ Logger.thrown))
                 (now_error_event env).
Proof.
  rewrite startServer_eq. cbn [fst]. rewrite emitEvent_eq. cbn [clients allocated history].
  split; [reflexivity|]. split; [reflexivity|]. split; [reflexivity|].
  split; [apply status_of_update_same|].
  split; [intros n Ne; now apply status_of_update_other|reflexivity].
Qed.

Lemma stopServer_view env name m :
  let m' := fst (stopServer env name m) in
  clients m' = clients m /\ allocated m' = allocated m /\
  eventListeners m' = eventListeners m /\
  status_of name m' =
    spread (status_of name m) (error_update name (String_ Logger.thrown)) /\
  (forall n, n <> name -> status_of n m' = status_of n m) /\
  history m' = history m.
Proof.
  rewrite stopServer_eq. cbn [fst].
  split; [reflexivity|]. split; [reflexivity|]. split; [reflexivity|].
  split; [apply status_of_update_same|].
  split; [intros n Ne; now apply status_of_update_other|reflexivity].
Qed.

Lemma transition_idle m m' :
  transition m m' ->
  (clients m = [] /\ allocated m = 0 /\
   requests (history m) = [] /\ constructed (history m) = [] /\
   forall n, status_of n m = default_status n \/ status_of n m = failed_status n) ->
  (clients m' = [] /\ allocated m' = 0 /\
   requests (history m') = [] /\ constructed (history m') = [] /\
   forall n, status_of n m' = default_status n \/ status_of n m' = failed_status n).
Proof.
  intros T I. pose proof I as (C & _).
  destruct T.
  - destruct (startServer_view env serverName config m) as (V1 & V2 & _ & V4 & V5 & V6).
    eapply failed_step; eauto using requests_emit_actions, constructed_emit_actions.
  - destruct (stopServer_view env serverName m) as (V1 & V2 & _ & V4 & V5 & V6).
    eapply (@failed_step serverName m _ []); eauto. now rewrite app_nil_r.
  - now rewrite restartServer_eq.
  - unfold callTool, callTool_begin. now rewrite C.
  - unfold listTools. now rewrite C.
  - unfold listAllTools. now rewrite C.
  - unfold listResources. now rewrite C.
  - unfold readResource. now rewrite C.
  - unfold checkServerHealth. now rewrite C.
  - unfold healthCheckTick. now rewrite C.
  - now rewrite stopAllServers_eq.
  - apply (@quiet_step m (addEventListener serverName listener m)); auto.
  - destruct (removeEventListener_quiet serverName listener m) as (E1 & E2).
    apply (@quiet_step m (removeEventListener serverName listener m)); auto;
      unfold removeEventListener; destruct (_ <? _)%Z; reflexivity.
Qed.

Lemma reachable_all_idle m :
  reachable_all m ->
  clients m = [] /\ allocated m = 0 /\
  requests (history m) = [] /\ constructed (history m) = [] /\
  forall n, status_of n m = default_status n \/ status_of n m = failed_status n.
Proof.
  induction 1 as [|m m' _ IH T].
  - repeat split; auto.
  - exact (transition_idle T IH).
Qed.

End ManagerExtraFacts.

Module ManagerExtra.
Import Manager ManagerSpec ManagerFacts ManagerRest ManagerRestSpec ManagerExtraFacts.

(** X9: every operation that needs the client of a server that has none
    ([listTools], [callTool], [listResources], [readResource]) rejects with
    the [MCPError] "Server <name> is not running" of code
    SERVER_CONNECTION_FAILED, and does nothing else: no event, no request,
    no change of the manager. *)
Theorem no_client_is_not_running (name : string) (m : MCPProcessManager) :
  JsMap.get (clients m) name = None ->
  (forall answer, listTools answer name m = (m, Rejected (not_running name))) /\
  (forall env toolName args callId,
      callTool env name toolName args callId m = (m, Rejected (not_running name))) /\
  (forall answer, listResources answer name m = (m, Rejected (not_running name))) /\
  (forall answer uri, readResource answer name uri m = (m, Rejected (not_running name))) /\
  not_running name =
    MCPError ("Server " ++ name ++ " is not running") "SERVER_CONNECTION_FAILED"
             (Some name) None.
Proof.
  intros H. unfold listTools, callTool, callTool_begin, listResources, readResource.
  rewrite H. repeat split; reflexivity.
Qed.

Lemma no_client_is_not_running_witness :
  callTool call_ok_env "ghost" "echo" (JsStr "hi") None Manager.new =
  (Manager.new, Rejected (not_running "ghost")).
Proof.
  destruct (@no_client_is_not_running "ghost" Manager.new eq_refl) as (_ & H & _).
  apply H.
Defined.

(** X10: [listAllTools] never rejects: it asks every client of the map
    once, in map order, and returns the tool lists of the clients that
    answered, concatenated in that order; a client whose [listTools]
    rejects contributes nothing and does not stop the others.  Clients,
    statuses and listeners are untouched and no event is emitted. *)
Theorem listAllTools_partial (answers : string -> Outcome (list MCPTool))
        (m : MCPProcessManager) :
  let m' := fst (listAllTools answers m) in
  snd (listAllTools answers m) =
    Resolved (flat_map (fun name => catch_default (answers name) [])
                       (JsMap.keys (clients m))) /\
  clients m' = clients m /\
  serverStatuses m' = serverStatuses m /\
  eventListeners m' = eventListeners m /\
  history m' = history m ++
    List.map (fun c => ActCall (client_id c) m_listTools) (JsMap.values (clients m)).
Proof.
  unfold listAllTools. rewrite listAllTools_fold. simpl.
  repeat split.
  - unfold JsMap.keys.
    now rewrite <- (flat_map_fst (fun name => catch_default (answers name) [])).
  - unfold JsMap.values. now rewrite map_map.
Qed.

(** X11: with the [Logger] of the sources no call that starts or
    stops a server succeeds.  [startServer] and [stopServer] reject with
    an [MCPError] of code SERVER_START_FAILED around the [TypeError] of
    [Logger.log]; they set the status of the server to 'error' with the
    text of that [TypeError], leave the other servers and the client map
    as they are (a client that is in the map stays there), construct no
    client and send no request; [startServer] emits one event,
    'server_error', [stopServer] none.  [restartServer] and
    [stopAllServers] reject with the [TypeError] itself and change nothing,
    not even the health-check timer. *)
Theorem lifecycle_calls_fail (name : string) (m : MCPProcessManager) :
  let text := "TypeError: Cannot read properties of undefined (reading 'padEnd')" in
  (forall env config,
     let r := startServer env name config m in
     snd r = Rejected (MCPError ("Failed to start MCP server " ++ name ++ ": " ++ text)
                         "SERVER_START_FAILED" (Some name) (Some Logger.thrown)) /\
     clients (fst r) = clients m /\ allocated (fst r) = allocated m /\
     status_of name (fst r) = spread (status_of name m) (error_update name text) /\
     (forall n, n <> name -> status_of n (fst r) = status_of n m) /\
     exists added,
       history (fst r) = history m ++ added /\
       requests added = [] /\ constructed added = [] /\
       List.map ev_type (emitted added) = [server_error]) /\
  (forall env,
     let r := stopServer env name m in
     snd r = Rejected (MCPError ("Failed to stop MCP server " ++ name ++ ": " ++ text)
                         "SERVER_START_FAILED" (Some name) (Some Logger.thrown)) /\
     clients (fst r) = clients m /\ allocated (fst r) = allocated m /\
     status_of name (fst r) = spread (status_of name m) (error_update name text) /\
     (forall n, n <> name -> status_of n (fst r) = status_of n m) /\
     history (fst r) = history m) /\
  (forall env config, restartServer env name config m = (m, Rejected Logger.thrown)) /\
  (forall env interval,
     stopAllServers env (m, interval) = ((m, interval), Rejected Logger.thrown)).
Proof.
  intros text. subst text. split; [|split; [|split]].
  - intros env config r. subst r.
    destruct (startServer_view env name config m) as (V1 & V2 & _ & V4 & V5 & V6).
    split; [reflexivity|]. split; [exact V1|]. split; [exact V2|].
    split; [exact V4|]. split; [exact V5|].
    eexists. split; [exact V6|].
    rewrite requests_emit_actions, constructed_emit_actions, emitted_emit_actions.
    repeat split.
  - intros env r. subst r.
    destruct (stopServer_view env name m) as (V1 & V2 & _ & V4 & V5 & V6).
    split; [reflexivity|]. repeat (split; [assumption|]). exact V6.
  - intros env config. reflexivity.
  - intros env interval. reflexivity.
Qed.

Lemma lifecycle_calls_fail_witness :
  st_status (status_of "echo"
     (fst (startServer healthy_env "echo" echo_config Manager.new))) = error /\
  JsMap.get (clients (fst (stopServer quiet_stop_env "echo" echo_running))) "echo"
    = JsMap.get (clients echo_running) "echo" /\
  stopAllServers stop_all_env (Manager.new, Some 7)
    = ((Manager.new, Some 7), Rejected Logger.thrown).
Proof.
  split; [|split].
  - destruct (proj1 (lifecycle_calls_fail "echo" Manager.new) healthy_env echo_config)
      as (_ & _ & _ & H & _).
    rewrite H. reflexivity.
  - destruct (proj1 (proj2 (lifecycle_calls_fail "echo" echo_running)) quiet_stop_env)
      as (_ & H & _).
    now rewrite H.
  - exact (proj2 (proj2 (proj2 (lifecycle_calls_fail "echo" Manager.new)))
             stop_all_env (Some 7)).
Defined.

(** X14: in every state reached from a new manager by calls of its
    methods and runs of its health check, under any answers of the
    clients: the client map is empty, no client has been constructed and
    no request has been sent to one; every server has either no status
    yet (and is reported as 'stopped') or the status 'error' with the text
    of the [TypeError] of [Logger.log] and no other field, so that no
    server is ever 'running', 'starting' or 'stopping'; and every
    [callTool] rejects with "Server <name> is not running". *)
Theorem reachable_all_never_runs (m : MCPProcessManager) :
  reachable_all m ->
  clients m = [] /\ allocated m = 0 /\
  requests (history m) = [] /\ constructed (history m) = [] /\
  (forall n, status_of n m = default_status n \/
             status_of n m =
               {| st_name := n; st_status := error; st_pid := None;
                  st_startTime := None;
                  st_error := Some "TypeError: Cannot read properties of undefined (reading 'padEnd')";
                  st_toolCount := None; st_serverInfo := None |}) /\
  (forall n, st_status (status_of n m) = stopped \/ st_status (status_of n m) = error) /\
  (forall env name toolName args callId,
     callTool env name toolName args callId m = (m, Rejected (not_running name))).
Proof.
  intros R. destruct (reachable_all_idle R) as (C & A & Q & K & S).
  split; [exact C|]. split; [exact A|]. split; [exact Q|]. split; [exact K|].
  split; [exact S|]. split.
  - intros n. destruct (S n) as [-> | ->]; [left | right]; reflexivity.
  - intros env name toolName args callId. unfold callTool, callTool_begin.
    now rewrite C.
Qed.

Lemma reachable_all_never_runs_witness :
  let m := fst (startServer healthy_env "echo" echo_config
                  (fst (stopServer quiet_stop_env "files" Manager.new))) in
  clients m = [] /\ st_status (status_of "echo" m) = error.
Proof.
  intros m.
  assert (R : reachable_all m).
  { eapply all_step; [eapply all_step; [apply all_new | apply t_stop] | apply t_start]. }
  destruct (reachable_all_never_runs R) as (C & _ & _ & _ & S & _).
  split; [exact C|].
  destruct (S "echo") as [H|H]; rewrite H; [|reflexivity].
  exfalso. assert (E : st_status (status_of "echo" m) = stopped) by now rewrite H.
  vm_compute in E. discriminate.
Defined.

(** X16: one run of the health check leaves the client map as it is and
    sets to 'error', with the text "Connection lost", the status of exactly
    the servers that have a client which reports not connected; the status
    of every other server is untouched.  With the [MCPClient] of the
    sources, whose [isConnected] is constantly false, this is every server
    that has a client. *)
Theorem healthCheckTick_flags (env : HealthEnv) (m : MCPProcessManager) :
  JsMap.wf (clients m) ->
  let m' := healthCheckTick env m in
  clients m' = clients m /\
  (forall n, JsMap.get (clients m) n <> None ->
             env_isConnected env n = Resolved false ->
             st_status (status_of n m') = error /\
             st_error (status_of n m') = Some "Connection lost") /\
  (forall n, JsMap.get (clients m) n = None \/ env_isConnected env n <> Resolved false ->
             status_of n m' = status_of n m) /\
  ((forall n, env_isConnected env n = Resolved (MCPClient.isConnected n)) ->
   forall n, JsMap.get (clients m) n <> None -> st_status (status_of n m') = error).
Proof.
  intros W m'. subst m'.
  assert (A : forall n, JsMap.get (clients m) n <> None ->
              env_isConnected env n = Resolved false ->
              st_status (status_of n (healthCheckTick env m)) = error /\
              st_error (status_of n (healthCheckTick env m)) = Some "Connection lost").
  { intros n Hc Hf. pose proof (@healthCheckTick_obs env m n W) as H.
    unfold health_step, obs in H. simpl in H. rewrite Hf in H.
    destruct (JsMap.get (clients m) n); [|now elim Hc].
    injection H as _ Hs. now rewrite Hs. }
  split; [|split; [exact A|split]].
  - unfold healthCheckTick.
    apply (fold_clients (JsMap.keys (clients m))
             (fun x m => checkServerHealth (env_isConnected env x) (now_health env x) x m)).
    intros x m0. apply checkServerHealth_clients.
  - intros n Hn. pose proof (@healthCheckTick_obs env m n W) as H.
    unfold health_step, obs in H. simpl in H.
    destruct (JsMap.get (clients m) n) as [c|].
    + destruct Hn as [Hn|Hn]; [discriminate|].
      destruct (env_isConnected env n) as [[|]|e]; try (now injection H);
        now elim Hn.
    + now injection H.
  - intros Hp n Hc. apply A; auto.
Qed.

Lemma healthCheckTick_flags_witness :
  st_status (status_of "echo"
    (healthCheckTick {| env_isConnected := fun n => Resolved (MCPClient.isConnected n);
                        now_health := fun _ => 5000%Z |} echo_running)) = error.
Proof.
  assert (W : JsMap.wf (clients echo_running)).
  { vm_compute. repeat constructor. intros []. }
  destruct (@healthCheckTick_flags
              {| env_isConnected := fun n => Resolved (MCPClient.isConnected n);
                 now_health := fun _ => 5000%Z |} echo_running W) as (_ & _ & _ & H).
  apply H; [reflexivity | vm_compute; discriminate].
Defined.

End ManagerExtra.
(** ** Event listeners *)

Module ListenerFacts.
Import Manager ManagerSpec ManagerRest ManagerRestSpec ManagerFacts ManagerExtraFacts.

Lemma findIndex_none (A : Type) (p : A -> bool) (l : list A) :
  (forall x, In x l -> p x = false) -> findIndex p l = (-1)%Z.
Proof.
  induction l as [|x l IH]; intros H; simpl; auto.
  rewrite (H x (or_introl eq_refl)), IH by (intros y Hy; apply H; now right).
  reflexivity.
Qed.

Lemma findIndex_last (A : Type) (p : A -> bool) (l : list A) (y : A) :
  (forall x, In x l -> p x = false) -> p y = true ->
  findIndex p (l ++ [y]) = Z.of_nat (List.length l).
Proof.
  induction l as [|x l IH]; intros H Hy.
  - simpl. now rewrite Hy.
  - cbn [app findIndex List.length].
    rewrite (H x (or_introl eq_refl)), IH by (auto; intros z Hz; apply H; now right).
    destruct (Z.ltb_spec (Z.of_nat (List.length l)) 0); lia.
Qed.

Lemma splice_one_last (A : Type) (l : list A) (y : A) :
  splice_one (List.length l) (l ++ [y]) = l.
Proof. induction l as [|x l IH]; simpl; auto. now rewrite IH. Qed.

Lemma listeners_of_set m name ls n :
  listeners_of (with_listeners (JsMap.set (eventListeners m) name ls) m) n =
  if String.eqb name n then ls else listeners_of m n.
Proof.
  unfold listeners_of. simpl. destruct (String.eqb_spec name n) as [->|Ne].
  - now rewrite JsMapFacts.get_set_same.
  - now rewrite JsMapFacts.get_set_other.
Qed.

End ListenerFacts.

Module ListenerExtra.
Import Manager ManagerSpec ManagerRest ManagerRestSpec ManagerFacts ManagerExtraFacts.
Import ListenerFacts.

(** X18: [addEventListener] puts the listener last in the list of its
    key and touches no other key.  For a listener that is not yet in the
    list of the key, [removeEventListener] changes nothing, and
    [removeEventListener] after [addEventListener] gives back the lists of
    every key as they were. *)
Theorem unsubscribe_undoes_subscribe (name : string) (l : Listener)
        (m : MCPProcessManager) :
  listeners_of (addEventListener name l m) name = listeners_of m name ++ [l] /\
  (forall n, n <> name -> listeners_of (addEventListener name l m) n = listeners_of m n) /\
  ((forall l0, In l0 (listeners_of m name) -> listener_id l0 <> listener_id l) ->
   removeEventListener name l m = m /\
   (forall n, listeners_of (removeEventListener name l (addEventListener name l m)) n
              = listeners_of m n)).
Proof.
  assert (A : listeners_of (addEventListener name l m) name = listeners_of m name ++ [l]).
  { unfold addEventListener. rewrite listeners_of_set. now rewrite String.eqb_refl. }
  split; [exact A|]. split.
  - intros n Ne. unfold addEventListener. rewrite listeners_of_set.
    destruct (String.eqb_spec name n); congruence.
  - intros H.
    assert (P : forall x, In x (listeners_of m name) ->
                          Nat.eqb (listener_id x) (listener_id l) = false)
      by (intros x Hx; apply Nat.eqb_neq; auto).
    split.
    + unfold removeEventListener, indexOf_listener. now rewrite (findIndex_none _ _ P).
    + intros n. unfold removeEventListener, indexOf_listener. rewrite A.
      rewrite (findIndex_last _ _ _ P (Nat.eqb_refl _)).
      destruct (Z.ltb_spec (-1) (Z.of_nat (List.length (listeners_of m name)))); [|lia].
      rewrite Nat2Z.id, splice_one_last, listeners_of_set.
      destruct (String.eqb_spec name n) as [<-|Ne]; [reflexivity|].
      unfold addEventListener. rewrite listeners_of_set.
      destruct (String.eqb_spec name n); congruence.
Qed.

Lemma unsubscribe_undoes_subscribe_witness :
  listeners_of (removeEventListener "*" faulty_listener
                  (addEventListener "*" faulty_listener
                     (addEventListener "*" logger_listener Manager.new))) "*"
  = [logger_listener].
Proof.
  refine (proj2 (proj2 (proj2
    (@unsubscribe_undoes_subscribe "*" faulty_listener
       (addEventListener "*" logger_listener Manager.new))) _) "*").
  intros l0 [<-|[]]. simpl. lia.
Defined.

(** X19: one [emitEvent] changes none of the three maps; it emits the one
    event and calls first the listeners registered under '*', then the
    listeners registered under the server's name, each list in the order
    of registration and in full, also when listeners throw. *)
Theorem emitEvent_delivery (type : MCPEventType) (name : string) (data : EventData)
        (now : Z) (m : MCPProcessManager) :
  let m' := emitEvent type name data now m in
  clients m' = clients m /\ serverStatuses m' = serverStatuses m /\
  eventListeners m' = eventListeners m /\
  exists added,
    history m' = history m ++ added /\
    emitted added = [{| ev_type := type; ev_serverName := name;
                        ev_timestamp := now; ev_data := data |}] /\
    called added = List.map listener_id (listeners_of m "*")
                   ++ List.map listener_id (listeners_of m name).
Proof.
  intros m'. subst m'. rewrite emitEvent_eq. simpl.
  do 3 (split; [reflexivity|]).
  eexists. split; [reflexivity|]. split.
  - now rewrite emitted_emit_actions.
  - apply called_emit_actions.
Qed.

End ListenerExtra.

(** ** BrowserMCPClient *)

Module BrowserClientExtra.
Import BrowserMCPClientRest.

Lemma connect_eq fetched c :
  connect fetched c =
  (c, Rejected (wrap "Failed to connect to MCP server: "
                     MCP_ERROR_CODES.SERVER_CONNECTION_FAILED c Logger.thrown)).
Proof. reflexivity. Qed.

Lemma reachable_fields serverName config c :
  reachable serverName config c ->
  bc_serverName c = serverName /\ bc_config c = config /\ bc_connected c = false.
Proof.
  induction 1 as [|c c' R (IHn & IHc & IHf) S].
  - simpl. auto.
  - destruct S as [fetched c|c].
    + rewrite connect_eq. simpl. auto.
    + simpl. auto.
Qed.

(** X20: with the [Logger] of the sources [connect] never resolves:
    whatever the configuration and whatever the proxy would answer, it
    leaves the client as it was and rejects with an [MCPError] of code
    SERVER_CONNECTION_FAILED around the [TypeError] that [Logger.log]
    throws at the first statement; [disconnect] clears the flag and then
    rejects with that [TypeError].  So a client never reports connected,
    whatever sequence of [connect] and [disconnect] it goes through. *)
Theorem connect_never_resolves (fetched : Outcome Response) (c : BrowserClient) :
  fst (connect fetched c) = c /\
  snd (connect fetched c) =
    Rejected (MCPError
      "Failed to connect to MCP server: TypeError: Cannot read properties of undefined (reading 'padEnd')"
      "SERVER_CONNECTION_FAILED" (Some (bc_serverName c)) (Some Logger.thrown)) /\
  isConnected (fst (disconnect c)) = false /\
  snd (disconnect c) = Rejected Logger.thrown /\
  (forall serverName config c',
     reachable serverName config c' -> isConnected c' = false).
Proof.
  split; [reflexivity|]. split; [reflexivity|]. split; [reflexivity|].
  split; [reflexivity|].
  intros serverName config c' R. now destruct (reachable_fields R) as (_ & _ & H).
Qed.

(** X21: whatever sequence of [connect] and [disconnect] a client has
    gone through, it keeps the server name and the configuration it was
    built with, and a client whose configuration has type 'websocket' never
    reports connected. *)
Theorem websocket_never_connects (serverName : string) (config : BrowserMCPServerConfig)
        (c : BrowserClient) :
  reachable serverName config c ->
  getServerName c = serverName /\ getConfig c = config /\
  (bcfg_type config = websocket -> isConnected c = false).
Proof.
  intros R. destruct (reachable_fields R) as (Hn & Hc & Hf).
  unfold getServerName, getConfig, isConnected. auto.
Qed.

Lemma websocket_never_connects_witness :
  isConnected (fst (connect healthy_response (new "proxy" socket_config))) = false.
Proof.
  refine (proj2 (proj2 (@websocket_never_connects "proxy" socket_config _ _)) eq_refl).
  eapply reach_step; [apply reach_new | apply step_connect].
Defined.

(** X22: with the [Logger] of the sources no request method of the
    client ever resolves, whatever the proxy answers.  [callToolViaHTTP]
    and [callTool] reject every call with the [MCPError] of code
    TOOL_CALL_FAILED around the [TypeError] that [Logger.log] throws at
    their first statement.  [listToolsViaHTTP] and [startMCPService]
    reject with an [MCPError] (TOOL_CALL_FAILED, SERVER_START_FAILED)
    around their cause, and [stopMCPService] rejects with the cause
    itself; the cause is that [TypeError] whenever the proxy has answered
    well. *)
Theorem requests_never_resolve (c : BrowserClient) :
  (forall toolCall startTime settled stamped fetched,
     callToolViaHTTP toolCall startTime settled stamped fetched c =
     Rejected (MCPError
       "Tool call failed: TypeError: Cannot read properties of undefined (reading 'padEnd')"
       "TOOL_CALL_FAILED" (Some (bc_serverName c)) (Some Logger.thrown))) /\
  (forall toolName fetched,
     callTool toolName fetched c =
     Rejected (MCPError
       "Tool call failed: TypeError: Cannot read properties of undefined (reading 'padEnd')"
       "TOOL_CALL_FAILED" (Some (bc_serverName c)) (Some Logger.thrown))) /\
  (forall fetched, exists cause,
     BrowserMCPClient.listToolsViaHTTP (bc_serverName c) fetched =
     Rejected (MCPError ("Failed to list tools: " ++ String_ cause)
                 "TOOL_CALL_FAILED" (Some (bc_serverName c)) (Some cause)) /\
     (ManagerSpec.http_list_fails fetched = false -> cause = Logger.thrown)) /\
  (forall fetched, exists cause,
     startMCPService fetched c =
     Rejected (MCPError ("Failed to start MCP service: " ++ String_ cause)
                 "SERVER_START_FAILED" (Some (bc_serverName c)) (Some cause)) /\
     stopMCPService fetched c = Rejected cause /\
     (forall answer, proxy_result fetched = Resolved answer -> cause = Logger.thrown)).
Proof.
  split; [reflexivity|]. split; [reflexivity|]. split.
  - intros fetched. unfold BrowserMCPClient.listToolsViaHTTP, ManagerSpec.http_list_fails.
    destruct fetched as [response|e]; simpl.
    + destruct (resp_ok response); simpl.
      * destruct (resp_json response) as [[|tools]|e]; simpl;
          eexists; (split; [reflexivity|]); intros H; try discriminate; reflexivity.
      * eexists; split; [reflexivity|discriminate].
    + eexists; split; [reflexivity|discriminate].
  - intros fetched. unfold startMCPService, stopMCPService.
    destruct (proxy_result fetched) as [answer|e]; simpl.
    + exists Logger.thrown. repeat split.
    + exists e. repeat split. discriminate.
Qed.

Lemma requests_never_resolve_witness :
  stopMCPService granted_answer (new "proxy" proxy_config) = Rejected Logger.thrown.
Proof.
  destruct (proj2 (proj2 (proj2 (requests_never_resolve (new "proxy" proxy_config))))
              granted_answer) as (cause & _ & H & E).
  rewrite H. now rewrite (E _ eq_refl).
Defined.

End BrowserClientExtra.

Module HandlerExtra.
Import Manager ManagerSpec ManagerRest ManagerRestSpec ManagerFacts ManagerExtraFacts.
Import ProcessManagement.

Lemma ensure_fst st : fst (ensureMCPManager st) = Some (snd (ensureMCPManager st)).
Proof. now destruct st. Qed.

Lemma handler_eq env req st :
  handler env req st =
  match dispatch env req (snd (ensureMCPManager st)) with
  | (m, Resolved result) =>
      (Some m, {| out_success := true; out_data := Some result; out_error := None |})
  | (m, Rejected err) =>
      (Some m, {| out_success := false; out_data := None;
                  out_error := Some (String_ err) |})
  end.
Proof. unfold handler. now destruct (ensureMCPManager st). Qed.

(** X26: a request for 'start', 'stop', 'restart', 'status' or
    'call-tool' that carries no server name (absent or empty) is answered
    with [success] false and an error text that begins
    "Error: serverName"; no method of the manager is called: the manager
    is the one [ensureMCPManager] gives. *)
Theorem handler_requires_server (env : HandlerEnv) (req : MCPProcessRequest)
        (st : option MCPProcessManager) :
  needs_server (req_action req) = true ->
  given (req_serverName req) = None ->
  fst (handler env req st) = fst (ensureMCPManager st) /\
  out_success (snd (handler env req st)) = false /\
  out_data (snd (handler env req st)) = None /\
  exists text, out_error (snd (handler env req st)) = Some ("Error: serverName" ++ text)%string.
Proof.
  assert (R : forall t, exists text, Some (String_ (Error_ ("serverName" ++ t))) =
                                Some ("Error: serverName" ++ text)%string)
    by (intros t; exists t; reflexivity).
  intros A G. rewrite handler_eq, ensure_fst. unfold dispatch. rewrite G.
  unfold needs_server in A.
  destruct (String.eqb (req_action req) "start"); [simpl; repeat split; apply R|].
  destruct (String.eqb (req_action req) "stop"); [simpl; repeat split; apply R|].
  destruct (String.eqb (req_action req) "restart"); [simpl; repeat split; apply R|].
  destruct (String.eqb (req_action req) "status"); [simpl; repeat split; apply R|].
  destruct (String.eqb_spec (req_action req) "list-status") as [E|_];
    [rewrite E in A; vm_compute in A; discriminate|].
  destruct (String.eqb_spec (req_action req) "list-tools") as [E|_];
    [rewrite E in A; vm_compute in A; discriminate|].
  destruct (String.eqb (req_action req) "call-tool"); [simpl; repeat split; apply R|discriminate].
Qed.

Lemma handler_requires_server_witness :
  out_success (snd (handler (any_env healthy_env call_ok_env)
                            (request "stop" (Some "") None None) None)) = false.
Proof.
  exact (proj1 (proj2 (@handler_requires_server (any_env healthy_env call_ok_env)
                         (request "stop" (Some "") None None) None eq_refl eq_refl))).
Defined.

(** X27: for a 'call-tool' request with server and tool name, [success]
    of the response tells only whether the call was answered: without a
    client for the server the response is a failure with the text
    "MCPError: Server <name> is not running"; when the client answers, the
    response has [success] true and the result as [data], also when the
    result itself has [success] false; when the client rejects, the
    response is a failure with the text of the error. *)
Theorem handler_call_tool (env : HandlerEnv) (req : MCPProcessRequest)
        (st : option MCPProcessManager) (serverName toolName : string) :
  req_action req = "call-tool" ->
  given (req_serverName req) = Some serverName ->
  given (req_toolName req) = Some toolName ->
  snd (handler env req st) =
  match JsMap.get (clients (snd (ensureMCPManager st))) serverName with
  | None =>
      {| out_success := false; out_data := None;
         out_error := Some ("MCPError: Server " ++ serverName
                            ++ " is not running")%string |}
  | Some _ =>
      match env_callTool (on_callTool env) with
      | Resolved result =>
          {| out_success := true; out_data := Some (ToolResultData result);
             out_error := None |}
      | Rejected e =>
          {| out_success := false; out_data := None; out_error := Some (String_ e) |}
      end
  end.
Proof.
  intros A G1 G2. rewrite handler_eq. unfold dispatch. rewrite A, G1, G2. simpl.
  unfold Manager.callTool, callTool_begin.
  destruct (JsMap.get (clients (snd (ensureMCPManager st))) serverName) as [c|];
    [|reflexivity].
  destruct (env_callTool (on_callTool env)) as [result|e]; reflexivity.
Qed.

Lemma handler_call_tool_witness :
  out_success (snd (handler (any_env healthy_env refusing_tool_env) say_request
                            (Some echo_running))) = true.
Proof.
  rewrite (@handler_call_tool (any_env healthy_env refusing_tool_env) say_request
             (Some echo_running) "echo" "say" eq_refl eq_refl eq_refl).
  reflexivity.
Defined.

(** X28: a 'start' request that names a server and carries a
    configuration is always answered with a failure, whose text is
    "MCPError: Failed to start MCP server <name>: " followed by the text
    of the [TypeError] of [Logger.log]; a 'status' request for the same
    server is then answered with [success] true and a status 'error' that
    has the text of that [TypeError] as [error]. *)
Theorem handler_start_failure (env env' : HandlerEnv) (req req' : MCPProcessRequest)
        (st : option MCPProcessManager) (serverName : string)
        (config : MCPServerConfig) :
  req_action req = "start" ->
  given (req_serverName req) = Some serverName ->
  req_config req = Some config ->
  req_action req' = "status" ->
  given (req_serverName req') = Some serverName ->
  let r := handler env req st in
  snd r = {| out_success := false; out_data := None;
             out_error := Some ("MCPError: Failed to start MCP server " ++ serverName
                                ++ ": TypeError: Cannot read properties of undefined (reading 'padEnd')")%string |} /\
  exists status,
    snd (handler env' req' (fst r)) =
      {| out_success := true; out_data := Some (StatusData status); out_error := None |} /\
    st_name status = serverName /\ st_status status = error /\
    st_error status =
      Some "TypeError: Cannot read properties of undefined (reading 'padEnd')".
Proof.
  intros A G C A' G' r. subst r.
  assert (H : handler env req st =
              (Some (fst (Manager.startServer (on_start env) serverName config
                            (snd (ensureMCPManager st)))),
               {| out_success := false; out_data := None;
                  out_error := Some ("MCPError: Failed to start MCP server " ++ serverName
                                     ++ ": TypeError: Cannot read properties of undefined (reading 'padEnd')")%string |})).
  { rewrite handler_eq. unfold dispatch. rewrite A, G, C. reflexivity. }
  rewrite H. split; [reflexivity|].
  cbn [fst]. rewrite handler_eq. unfold dispatch. rewrite A', G'.
  exists (status_of serverName (fst (Manager.startServer (on_start env) serverName config
                                       (snd (ensureMCPManager st))))).
  split; [reflexivity|].
  destruct (startServer_view (on_start env) serverName config (snd (ensureMCPManager st)))
    as (_ & _ & _ & V & _).
  rewrite V. simpl. auto.
Qed.

Lemma handler_start_failure_witness :
  out_error (snd (handler (any_env (placeholder_env "echo" 1 2 3 4) call_ok_env)
                          (request "start" (Some "echo") (Some echo_config) None) None))
  = Some ("MCPError: Failed to start MCP server echo: "
          ++ "TypeError: Cannot read properties of undefined (reading 'padEnd')")%string.
Proof.
  destruct (@handler_start_failure
              (any_env (placeholder_env "echo" 1 2 3 4) call_ok_env)
              (any_env healthy_env call_ok_env)
              (request "start" (Some "echo") (Some echo_config) None)
              (request "status" (Some "echo") None None)
              None "echo" echo_config eq_refl eq_refl eq_refl eq_refl eq_refl)
    as [H _].
  rewrite H. reflexivity.
Defined.

End HandlerExtra.

(** ** The list of statuses *)

Module StatusListFacts.
Import Manager ManagerSpec ManagerRest ManagerRestSpec ManagerFacts ManagerExtraFacts.

Lemma swf_update name p m :
  JsMap.wf (serverStatuses m) -> JsMap.wf (serverStatuses (updateServerStatus name p m)).
Proof. intros W. unfold updateServerStatus. simpl. now apply JsMapFacts.wf_set. Qed.

Lemma statuses_emit type name data now m :
  serverStatuses (emitEvent type name data now m) = serverStatuses m.
Proof. now rewrite emitEvent_eq. Qed.

Lemma swf_start env name config m :
  JsMap.wf (serverStatuses m) ->
  JsMap.wf (serverStatuses (fst (startServer env name config m))).
Proof.
  intros W. rewrite startServer_eq. cbn [fst]. rewrite statuses_emit. now apply swf_update.
Qed.

Lemma swf_stop env name m :
  JsMap.wf (serverStatuses m) ->
  JsMap.wf (serverStatuses (fst (stopServer env name m))).
Proof. intros W. rewrite stopServer_eq. cbn [fst]. now apply swf_update. Qed.

Lemma swf_health connected now name m :
  JsMap.wf (serverStatuses m) ->
  JsMap.wf (serverStatuses (checkServerHealth connected now name m)).
Proof.
  intros W. unfold checkServerHealth.
  destruct (JsMap.get _ name); [destruct connected as [[|]|e]|]; auto.
  rewrite statuses_emit. now apply swf_update.
Qed.

Lemma fold_swf (names : list string) (op : string -> MCPProcessManager -> MCPProcessManager) :
  (forall x m, JsMap.wf (serverStatuses m) -> JsMap.wf (serverStatuses (op x m))) ->
  forall m, JsMap.wf (serverStatuses m) ->
            JsMap.wf (serverStatuses (fold_left (fun m x => op x m) names m)).
Proof.
  intros H. induction names as [|a names IH]; intros m W; simpl; auto.
Qed.

Lemma transition_swf m m' :
  JsMap.wf (serverStatuses m) -> transition m m' -> JsMap.wf (serverStatuses m').
Proof.
  intros W T. destruct T.
  - now apply swf_start.
  - now apply swf_stop.
  - now rewrite restartServer_eq.
  - destruct (callTool_view env serverName toolName args callId m) as (_ & E & _).
    cbv zeta in E. now rewrite E.
  - destruct (listTools_quiet answer serverName m) as (_ & E). now rewrite E.
  - destruct (listAllTools_quiet answers m) as (_ & E). now rewrite E.
  - unfold listResources. now destruct (JsMap.get _ _).
  - unfold readResource. now destruct (JsMap.get _ _).
  - now apply swf_health.
  - unfold healthCheckTick.
    apply (fold_swf (JsMap.keys (clients m))
             (fun x m => checkServerHealth (env_isConnected env x) (now_health env x) x m));
      auto using swf_health.
  - now rewrite stopAllServers_eq.
  - exact W.
  - destruct (removeEventListener_quiet serverName listener m) as (_ & E). now rewrite E.
Qed.

Lemma reachable_all_swf m : reachable_all m -> JsMap.wf (serverStatuses m).
Proof.
  induction 1 as [|m m' _ IH T]; [constructor | eauto using transition_swf].
Qed.

Lemma reachable_all_named m :
  reachable_all m -> forall n, st_name (status_of n m) = n.
Proof.
  intros R n. destruct (reachable_all_idle R) as (_ & _ & _ & _ & S).
  destruct (S n) as [E|E]; now rewrite E.
Qed.

Lemma names_are_keys (l : JsMap.t MCPServerStatus) :
  (forall k s, In (k, s) l -> st_name s = k) ->
  List.map st_name (JsMap.values l) = JsMap.keys l.
Proof.
  induction l as [|[k s] l IH]; intros H; simpl; auto.
  rewrite (H k s (or_introl eq_refl)), IH; auto.
  intros k' s' Hin. apply H. now right.
Qed.

End StatusListFacts.

Module StatusListExtra.
Import Manager ManagerSpec ManagerRest ManagerRestSpec ManagerFacts ManagerExtraFacts.
Import StatusListFacts.

(** X29: in every state reached from a new manager by calls of its
    methods that run one after the other, [getAllServerStatuses] lists no
    server name twice, lists exactly the servers that have an entry in the
    status map, and each status of the list is the one [getServerStatus]
    answers for its name. *)
Theorem getAllServerStatuses_distinct (m : MCPProcessManager) :
  reachable_all m ->
  let all := snd (getAllServerStatuses m) in
  NoDup (List.map st_name all) /\
  (forall s, In s all -> snd (getServerStatus (st_name s) m) = s) /\
  (forall n, In n (List.map st_name all) <-> JsMap.get (serverStatuses m) n <> None).
Proof.
  intros R all. subst all. simpl.
  pose proof (reachable_all_swf R) as W.
  assert (K : forall k s, In (k, s) (serverStatuses m) -> st_name s = k).
  { intros k s H. apply (JsMapFacts.get_In _ _ W) in H.
    pose proof (reachable_all_named R k) as N.
    unfold status_of, getServerStatus in N. simpl in N. now rewrite H in N. }
  rewrite (names_are_keys _ K). split; [exact W|]. split.
  - intros s H. apply JsMapFacts.In_values in H as [k H].
    rewrite (K k s H). apply (JsMapFacts.get_In _ _ W) in H. now rewrite H.
  - intros n. rewrite JsMapFacts.In_keys. split.
    + intros [s H]. apply (JsMapFacts.get_In _ _ W) in H. rewrite H. discriminate.
    + destruct (JsMap.get (serverStatuses m) n) as [s|] eqn:G; [|intros H; now elim H].
      intros _. exists s. now apply (JsMapFacts.get_In _ _ W).
Qed.

Lemma getAllServerStatuses_distinct_witness :
  NoDup (List.map st_name (snd (getAllServerStatuses
     (fst (stopServer quiet_stop_env "files"
        (fst (startServer healthy_env "echo" echo_config
           (fst (startServer healthy_env "files" echo_config Manager.new))))))))).
Proof.
  assert (R : reachable_all
     (fst (stopServer quiet_stop_env "files"
        (fst (startServer healthy_env "echo" echo_config
           (fst (startServer healthy_env "files" echo_config Manager.new))))))).
  { eapply all_step; [|apply t_stop].
    repeat (eapply all_step; [|apply t_start]). apply all_new. }
  exact (proj1 (getAllServerStatuses_distinct R)).
Defined.

End StatusListExtra.
